(** * tinyblend: a reader for Blender's .blend container

    Shallow embedding of [tinyblend.py] and the properties of its
    specification.  The Python code is embedded function by function:

    - byte strings are [list byte], text strings are [string]; the model
      covers ASCII names, for which the regular expression class [\d] is
      exactly ['0'..'9'], [str.isidentifier] is the usual letter, digit
      and underscore test, and [str.encode] keeps every character;
    - Python integers are [Z];
    - exceptions are values of [exn], and a fallible computation returns
      a [result];
    - the objects that the program shares and mutates (the two class-wide
      caches, the generated classes with their pointer descriptors, the
      open files) live in an explicit [world] that is passed along. *)

From Stdlib Require Import ZArith List Ascii String Strings.Byte Lia Bool.
From Stdlib Require Import Numbers.DecimalString Numbers.HexadecimalString.
From Stdlib Require Import Numbers.DecimalPos Numbers.DecimalZ.
From stdpp Require Import base option list gmap strings sorting.

Open Scope string_scope.
Open Scope list_scope.
Open Scope Z_scope.
Set Warnings "-register-all".

(* ===================================================================== *)
(** ** Exceptions and results *)
(* ===================================================================== *)

Inductive exn : Type :=
| BlenderFileImportException (message : string)
| BlenderFileReadException (message : string)
| RuntimeError (message : string)
| KeyError (message : string)
| AttributeError (message : string)
| ValueError (message : string)
| IndexError
| TypeError
| StopIteration
| ZeroDivisionError
| StructError
| RecursionError.

Inductive result (A : Type) : Type :=
| Ok (a : A)
| Raise (e : exn).
Arguments Ok {A} a.
Arguments Raise {A} e.

Definition rbind {A B} (r : result A) (k : A -> result B) : result B :=
  match r with
  | Ok a => k a
  | Raise e => Raise e
  end.

Notation "'let*' p ':=' c 'in' k" := (rbind c (fun p => k))
  (at level 10, p pattern, c at level 200, k at level 200).

Definition is_ok {A} (r : result A) : bool :=
  match r with Ok _ => true | Raise _ => false end.

(* ===================================================================== *)
(** ** Python sequence primitives *)
(* ===================================================================== *)

(** [l[lo:hi]] for non-negative bounds. *)
Definition py_slice {A} (lo hi : nat) (l : list A) : list A :=
  take (hi - lo) (drop lo l).

(** [l[i]] with Python's negative indices; [IndexError] out of range. *)
Definition py_index {A} (l : list A) (i : Z) : result A :=
  let n := Z.of_nat (length l) in
  let j := if i <? 0 then i + n else i in
  if (j <? 0) || (n <=? j) then Raise IndexError
  else match l !! Z.to_nat j with
       | Some a => Ok a
       | None => Raise IndexError
       end.

Definition byte_val (b : byte) : Z := Z.of_N (Byte.to_N b).

Definition byte_eqb (a b : byte) : bool := Byte.eqb a b.

Fixpoint bytes_eqb (a b : list byte) : bool :=
  match a, b with
  | [], [] => true
  | x :: a', y :: b' => byte_eqb x y && bytes_eqb a' b'
  | _, _ => false
  end.

(* ===================================================================== *)
(** ** File header (Header Decoder) *)
(* ===================================================================== *)

Inductive BlendFileArch := X32 | X64.
Inductive BlendFileEndian := Little | Big.

Record BlendVersionInfo := mkVersion { major : Z; minor : Z; v_rev : Z }.
Record BlendFileHeader := mkHeader {
  h_version : BlendVersionInfo;
  h_arch : BlendFileArch;
  h_endian : BlendFileEndian
}.

Definition BLENDER : list byte := list_byte_of_string "BLENDER".

(** [BlenderFile._parse_header]: [None] stands for Python's [None]. *)
Definition _parse_header (header : list byte) : option BlendFileHeader :=
  if negb (length header =? 12)%nat || negb (bytes_eqb (py_slice 0 7 header) BLENDER)
  then None
  else
    let arch := py_slice 7 8 header in
    let endian := py_slice 8 9 header in
    let version := map (fun x => byte_val x - 48) (drop 9 header) in
    match (if bytes_eqb arch ["-"%byte] then Some X64
           else if bytes_eqb arch ["_"%byte] then Some X32
           else None) with
    | None => None
    | Some arch =>
      match (if bytes_eqb endian ["v"%byte] then Some Little
             else if bytes_eqb endian ["V"%byte] then Some Big
             else None) with
      | None => None
      | Some endian =>
        match version with
        | [a; b; c] => Some (mkHeader (mkVersion a b c) arch endian)
        | _ => None
        end
      end
    end.

(** The part of [BlenderFile.__init__] that depends on the header: the
    first 12 bytes of the file are parsed, and a [None] header raises the
    import exception. *)
Definition open_header (file_bytes : list byte) : result BlendFileHeader :=
  match _parse_header (take 12 file_bytes) with
  | None => Raise (BlenderFileImportException "Bad file header")
  | Some header => Ok header
  end.

(* ===================================================================== *)
(** ** Text primitives: [str], [int], indexing and the two regular
       expressions of the module *)
(* ===================================================================== *)

(** [str(z)] for an integer. *)
Definition py_str (z : Z) : string :=
  DecimalString.NilEmpty.string_of_int (Z.to_int z).

(** [int(s)] on the digit strings captured by [(\d+)]. *)
Definition py_int (s : string) : result Z :=
  match s with
  | EmptyString => Raise (ValueError "invalid literal for int()")
  | _ => match DecimalString.NilEmpty.uint_of_string s with
         | Some u => Ok (Z.of_uint u)
         | None => Raise (ValueError "invalid literal for int()")
         end
  end.

(** [hex(z)]. *)
Definition py_hex (z : Z) : string :=
  let digits n := HexadecimalString.NilZero.string_of_uint (N.to_hex_uint n) in
  if z <? 0 then "-0x" +:+ digits (Z.to_N (- z)) else "0x" +:+ digits (Z.to_N z).

Definition is_digit (c : ascii) : bool :=
  ((48 <=? N_of_ascii c) && (N_of_ascii c <=? 57))%N.

(** [s[0]] and [s[-1]]. *)
Definition str_first (s : string) : result ascii :=
  match s with
  | EmptyString => Raise IndexError
  | String c _ => Ok c
  end.

Fixpoint str_last (s : string) : result ascii :=
  match s with
  | EmptyString => Raise IndexError
  | String c EmptyString => Ok c
  | String _ s' => str_last s'
  end.

(** [s.lstrip('*')]. *)
Fixpoint lstrip_star (s : string) : string :=
  match s with
  | String c s' => if Ascii.eqb c "*" then lstrip_star s' else s
  | EmptyString => EmptyString
  end.

(** [s.index(c)]: position of the first [c], [ValueError] when absent. *)
Fixpoint str_index (c : ascii) (s : string) : result nat :=
  match s with
  | EmptyString => Raise (ValueError "substring not found")
  | String d s' =>
      if Ascii.eqb d c then Ok 0%nat
      else let* i := str_index c s' in Ok (S i)
  end.

(** [s[0:n]]. *)
Fixpoint str_take (n : nat) (s : string) : string :=
  match n, s with
  | S n', String c s' => String c (str_take n' s')
  | _, _ => EmptyString
  end.

(** [s.startswith("_")]. *)
Definition starts_with_underscore (s : string) : bool :=
  match s with
  | String c _ => Ascii.eqb c "_"
  | EmptyString => false
  end.

(** [array_template = re.compile(r'\[(\d+)\]')], [findall]: the scan keeps
    [Some ds] while it is inside a candidate match, after the opening
    bracket and the digits [ds] read so far.  A candidate that fails is
    abandoned; the only character of a failed candidate that can open a
    new one is the character it failed on. *)
Fixpoint array_template_scan (st : option string) (s : string) : list string :=
  match s with
  | EmptyString => []
  | String c s' =>
      match st with
      | None =>
          if Ascii.eqb c "[" then array_template_scan (Some EmptyString) s'
          else array_template_scan None s'
      | Some ds =>
          if is_digit c then array_template_scan (Some (ds +:+ String c EmptyString)) s'
          else if Ascii.eqb c "]" && negb (String.eqb ds EmptyString)
               then ds :: array_template_scan None s'
          else if Ascii.eqb c "[" then array_template_scan (Some EmptyString) s'
          else array_template_scan None s'
      end
  end.

Definition array_template_findall (s : string) : list string :=
  array_template_scan None s.

(** Longest run of digits at the head of [s], and the rest. *)
Fixpoint span_digits (s : string) : string * string :=
  match s with
  | String c s' =>
      if is_digit c then let '(ds, r) := span_digits s' in (String c ds, r)
      else (EmptyString, s)
  | EmptyString => (EmptyString, EmptyString)
  end.

(** The tail [_\d+_(\d+)] of [template], matched at the head of [s]; the
    result is the second group.  Both digit runs are maximal: a shorter
    first run would have to be followed by an underscore where a digit
    stands. *)
Definition template_tail (s : string) : option string :=
  match s with
  | String c s1 =>
      if Ascii.eqb c "_" then
        match span_digits s1 with
        | (EmptyString, _) => None
        | (_, String c2 s2) =>
            if Ascii.eqb c2 "_" then
              match span_digits s2 with
              | (EmptyString, _) => None
              | (g2, _) => Some g2
              end
            else None
        | (_, EmptyString) => None
        end
      else None
  | EmptyString => None
  end.

Definition is_newline (c : ascii) : bool := Ascii.eqb c "010".

(** [.*] followed by [template_tail], greedy: the longest prefix without
    a newline after which the tail matches. *)
Fixpoint template_dotstar (s : string) : option (string * string) :=
  match s with
  | EmptyString => None
  | String c s' =>
      if is_newline c then option_map (fun g => (EmptyString, g)) (template_tail s)
      else match template_dotstar s' with
           | Some (p, g) => Some (String c p, g)
           | None => option_map (fun g => (EmptyString, g)) (template_tail s)
           end
  end.

(** [template = re.compile(r'(.+)_\d+_(\d+)')] matched at the head of [s]. *)
Definition template_match_here (s : string) : option (string * string) :=
  match s with
  | String c s' =>
      if is_newline c then None
      else match template_dotstar s' with
           | Some (p, g) => Some (String c p, g)
           | None => None
           end
  | EmptyString => None
  end.

(** [template.findall(name)], reduced to what the callers read: [None]
    when the list of matches is empty, else the two groups of [match[0]],
    the leftmost match. *)
Fixpoint template_first (s : string) : option (string * string) :=
  match template_match_here s with
  | Some m => Some m
  | None => match s with
            | String _ s' => template_first s'
            | EmptyString => None
            end
  end.

(* ===================================================================== *)
(** ** The schema index *)
(* ===================================================================== *)

(** [BlendStructFieldDNA] is a pair [(index_type, index_name)]. *)
Record BlendStructDNA := mkStructDNA {
  dna_index : Z;
  dna_fields : list (Z * Z)
}.

Record BlendStructField := mkField {
  f_name : string;
  f_type : string;
  f_size : Z;
  f_ptr : bool;
  f_count : Z
}.

Record BlendStruct := mkStruct {
  s_name : string;
  s_fields : list BlendStructField
}.

Record BlendIndex := mkIndex {
  field_names : list string;
  type_names : list string;
  type_sizes : list Z;
  structures : list BlendStructDNA
}.

Record BlendBlockHeader := mkBlock {
  b_code : list byte;
  b_size : Z;
  b_addr : Z;
  b_sdna : Z;
  b_count : Z
}.

Definition ptr_size (arch : BlendFileArch) : Z :=
  match arch with X64 => 8 | X32 => 4 end.

(** [count = 1; for v in array_template.findall(name): count *= int(v)]. *)
Fixpoint dims_product (count : Z) (vs : list string) : result Z :=
  match vs with
  | [] => Ok count
  | v :: vs' => let* n := py_int v in dims_product (count * n) vs'
  end.

(** One iteration of the loop of [BlenderFile._export_struct]. *)
Definition export_field (arch : BlendFileArch) (index : BlendIndex)
    (ftype fname : Z) : result BlendStructField :=
  let* name := py_index (field_names index) fname in
  let* _type := py_index (type_names index) ftype in
  let* size := py_index (type_sizes index) ftype in
  let* c0 := str_first name in
  let is_ptr := Ascii.eqb c0 "*" in
  let* cl := str_last name in
  let is_array := Ascii.eqb cl "]" in
  let name := if is_ptr then lstrip_star name else name in
  let size := if is_ptr then ptr_size arch else size in
  if is_array then
    let* count := dims_product 1 (array_template_findall name) in
    let* k := str_index "[" name in
    let name := str_take k name in
    Ok (mkField name _type (size * count) is_ptr count)
  else
    Ok (mkField name _type size is_ptr 1).

Fixpoint export_fields (arch : BlendFileArch) (index : BlendIndex)
    (fields : list (Z * Z)) : result (list BlendStructField) :=
  match fields with
  | [] => Ok []
  | (ftype, fname) :: rest =>
      let* f := export_field arch index ftype fname in
      let* fs := export_fields arch index rest in
      Ok (f :: fs)
  end.

(** [BlenderFile._export_struct]. *)
Definition _export_struct (header : BlendFileHeader) (index : BlendIndex)
    (struct : BlendStructDNA) : result BlendStruct :=
  let* struct_name := py_index (type_names index) (dna_index struct) in
  let* struct_fields := export_fields (h_arch header) index (dna_fields struct) in
  Ok (mkStruct struct_name struct_fields).

(** [BlenderFile._struct_lookup]. *)
Definition _struct_lookup (index : BlendIndex) (i : Z) : result BlendStructDNA :=
  match List.find (fun s => dna_index s =? i) (structures index) with
  | Some s => Ok s
  | None =>
      if (Z.of_nat (length (type_names index)) <? i) || (i <? 0)
      then Raise (BlenderFileReadException
                    ("Type index " +:+ py_str i +:+ " is not valid for this blend file"))
      else
        let* type_name := py_index (type_names index) i in
        Raise (BlenderFileReadException
                 ("Type " +:+ type_name +:+ " is not associated with a structure"))
  end.

(* ===================================================================== *)
(** ** Format strings and [struct] *)
(* ===================================================================== *)

(** The format characters that occur: the values of [_BASE_TYPES], the
    pointer code ['P'] with its two replacements ['I'] and ['Q'], ['s']
    for strings and ['x'] for padding. *)
Inductive fmt_code :=
| Cf | Cd | Ci | Ch | CH | Cc | Cl | CL | CQ | Cq | CP | CI | Cs | Cx.

(** A format string is kept as the list of the pieces the code appends to
    it, each piece being [str(count) + code]; a piece whose count is
    negative is not a valid format. *)
Definition fmt_item : Type := Z * fmt_code.

(** [_BASE_TYPES]. *)
Definition _BASE_TYPES (t : string) : option fmt_code :=
  if String.eqb t "float" then Some Cf
  else if String.eqb t "double" then Some Cd
  else if String.eqb t "int" then Some Ci
  else if String.eqb t "short" then Some Ch
  else if String.eqb t "ushort" then Some CH
  else if String.eqb t "char" then Some Cc
  else if String.eqb t "long" then Some Cl
  else if String.eqb t "ulong" then Some CL
  else if String.eqb t "uint64_t" then Some CQ
  else if String.eqb t "int64_t" then Some Cq
  else None.

Definition in_BASE_TYPES (t : string) : bool :=
  match _BASE_TYPES t with Some _ => true | None => false end.

(** [fix_name], local to [compile_fmt]. *)
Definition fix_name (n : string) : string :=
  if starts_with_underscore n then "f" +:+ n else n.

(** [f.name + '_{}_{}'.format(i, count)]. *)
Definition item_name (name : string) (i : Z) (count : string) : string :=
  name +:+ "_" +:+ py_str i +:+ "_" +:+ count.

(** [range(n)] as a list. *)
Definition py_range (n : Z) : list Z :=
  map Z.of_nat (seq 0 (Z.to_nat n)).

(** The names that one field contributes, before the pointer prefix. *)
Definition field_item_names (f : BlendStructField) : list string :=
  if (1 <? f_count f) && negb (String.eqb (f_type f) "char")
  then map (fun i => fix_name (item_name (f_name f) i (py_str (f_count f))))
           (py_range (f_count f))
  else [fix_name (f_name f)].

(** One iteration of the loop of [compile_fmt]: the pieces appended to
    [fmt] and the names appended to [fmt_names]. *)
Definition compile_field (f : BlendStructField) : list fmt_item * list string :=
  let name := field_item_names f in
  if f_ptr f then ([(f_count f, CP)], map (fun n => "ptr_" +:+ n) name)
  else match _BASE_TYPES (f_type f) with
       | Some code =>
           if String.eqb (f_type f) "char" && (1 <? f_count f)
           then ([(f_count f, Cs)], name)
           else ([(f_count f, code)], name)
       | None => ([(f_size f, Cx)], [])
       end.

(** [BlenderObjectFactory.compile_fmt]. *)
Fixpoint compile_fmt (fields : list BlendStructField) : list fmt_item * list string :=
  match fields with
  | [] => ([], [])
  | f :: rest =>
      let '(fmt1, names1) := compile_field f in
      let '(fmt2, names2) := compile_fmt rest in
      (fmt1 ++ fmt2, names1 ++ names2)
  end.

(** [fmt.replace('P', arch.value)]. *)
Definition replace_P (arch : BlendFileArch) (fmt : list fmt_item) : list fmt_item :=
  map (fun it : fmt_item =>
         match it with
         | (n, CP) => (n, match arch with X32 => CI | X64 => CQ end)
         | _ => it
         end) fmt.

(** Standard sizes (the format always starts with ['<'] or ['>']). *)
Definition code_width (c : fmt_code) : Z :=
  match c with
  | Cf => 4 | Cd => 8 | Ci => 4 | Ch => 2 | CH => 2 | Cc => 1
  | Cl => 4 | CL => 4 | CQ => 8 | Cq => 8 | CI => 4 | Cs => 1 | Cx => 1
  | CP => 0
  end.

(** [struct.Struct]: the byte order and the pieces of the format. *)
Record Struct := mkPyStruct {
  st_endian : BlendFileEndian;
  st_items : list fmt_item
}.

(** [Struct(fmt)]: ['P'] is not available with an explicit byte order and
    a negative count is not a number. *)
Definition Struct_new (endian : BlendFileEndian) (fmt : list fmt_item) : result Struct :=
  if forallb (fun it : fmt_item =>
                (0 <=? fst it) && match snd it with CP => false | _ => true end) fmt
  then Ok (mkPyStruct endian fmt)
  else Raise StructError.

(** [Struct.size]. *)
Definition Struct_size (s : Struct) : Z :=
  fold_right (fun (it : fmt_item) acc => fst it * code_width (snd it) + acc) 0 (st_items s).

(** ** Values *)

(** An unsigned integer from its bytes. *)
Fixpoint uint_le (bs : list byte) : Z :=
  match bs with
  | [] => 0
  | b :: bs' => byte_val b + 256 * uint_le bs'
  end.

Definition uint_of_bytes (e : BlendFileEndian) (bs : list byte) : Z :=
  match e with
  | Little => uint_le bs
  | Big => uint_le (rev bs)
  end.

Definition sint_of_bytes (e : BlendFileEndian) (bs : list byte) : Z :=
  let u := uint_of_bytes e bs in
  let m := 2 ^ (8 * Z.of_nat (length bs)) in
  if u <? m / 2 then u else u - m.

(** ** [namedtuple] *)

Definition is_alpha_ (c : ascii) : bool :=
  let n := N_of_ascii c in
  ((65 <=? n) && (n <=? 90) || (97 <=? n) && (n <=? 122) || (n =? 95))%N.

Fixpoint all_ident_chars (s : string) : bool :=
  match s with
  | EmptyString => true
  | String c s' => (is_alpha_ c || is_digit c) && all_ident_chars s'
  end.

(** [str.isidentifier] on ASCII text. *)
Definition isidentifier (s : string) : bool :=
  match s with
  | EmptyString => false
  | String c s' => is_alpha_ c && all_ident_chars s'
  end.

Definition kwlist : list string :=
  ["False"; "None"; "True"; "and"; "as"; "assert"; "async"; "await";
   "break"; "class"; "continue"; "def"; "del"; "elif"; "else"; "except";
   "finally"; "for"; "from"; "global"; "if"; "import"; "in"; "is";
   "lambda"; "nonlocal"; "not"; "or"; "pass"; "raise"; "return"; "try";
   "while"; "with"; "yield"].

Definition str_in (s : string) (l : list string) : bool :=
  existsb (String.eqb s) l.

Definition iskeyword (s : string) : bool := str_in s kwlist.

(** The renaming loop of [namedtuple(..., rename=True)]: an invalid or
    repeated name at position [index] becomes ["_index"]. *)
Fixpoint rename_fields (index : Z) (seen : list string) (names : list string) : list string :=
  match names with
  | [] => []
  | name :: rest =>
      (if negb (isidentifier name) || iskeyword name
          || starts_with_underscore name || str_in name seen
       then "_" +:+ py_str index else name)
      :: rename_fields (index + 1) (name :: seen) rest
  end.

(** [namedtuple(typename, field_names, rename=True)._fields]; the type
    name is not renamed and must be a valid identifier. *)
Definition namedtuple (typename : string) (field_names : list string) : result (list string) :=
  if negb (isidentifier typename) || iskeyword typename
  then Raise (ValueError "Type names and field names must be valid identifiers")
  else Ok (rename_fields 0 [] field_names).

(** ** Decoded values *)

Record NamedStruct := mkNamedStruct {
  ns_names : list string;
  ns_format : Struct
}.

(** A class generated by [_build_object_type].  [t_id] is the identity of
    the class object; the attributes [VERSION], [FMT] and [CLASSES] never
    change after the class is created, so the classes of the nested
    structures are kept in place; [t_lookups] are the names bound to an
    [AddressLookup] descriptor.  The one mutable part of a class, the
    [value] slot of each descriptor, is kept in the world under the key
    [(t_id, name)]. *)
Inductive ObjType : Type :=
  mkType (t_id : nat) (t_name : string) (t_VERSION : BlendVersionInfo)
         (t_FMT : NamedStruct)
         (t_CLASSES : list (ObjType * (Z * Z) * string))
         (t_lookups : list string).

Definition t_id (t : ObjType) : nat := let 'mkType i _ _ _ _ _ := t in i.
Definition t_name (t : ObjType) : string := let 'mkType _ n _ _ _ _ := t in n.
Definition t_VERSION (t : ObjType) : BlendVersionInfo := let 'mkType _ _ v _ _ _ := t in v.
Definition t_FMT (t : ObjType) : NamedStruct := let 'mkType _ _ _ f _ _ := t in f.
Definition t_CLASSES (t : ObjType) : list (ObjType * (Z * Z) * string) :=
  let 'mkType _ _ _ _ c _ := t in c.
Definition t_lookups (t : ObjType) : list string := let 'mkType _ _ _ _ _ l := t in l.

(** Python values that the reader produces.  A float is kept as its IEEE
    bit pattern ([width] 32 or 64).  [VNamed] is an instance of a
    generated namedtuple; [VFile file] is the file object [file];
    [VObject cls file attrs] is a [BlenderObject]
    of class [cls] whose [_file] is a weak reference to the file object
    [file] and whose instance dictionary is [attrs]. *)
Inductive pyval : Type :=
| VNone
| VInt (z : Z)
| VFloat (width : Z) (bits : Z)
| VBytes (b : list byte)
| VTuple (l : list pyval)
| VList (l : list pyval)
| VNamed (l : list pyval)
| VFile (file : nat)
| VObject (cls : ObjType) (file : nat) (attrs : list (string * pyval)).

Definition pydict : Type := list (string * pyval).

Fixpoint dict_get (d : pydict) (k : string) : option pyval :=
  match d with
  | [] => None
  | (k', v) :: d' => if String.eqb k' k then Some v else dict_get d' k
  end.

Fixpoint dict_set (d : pydict) (k : string) (v : pyval) : pydict :=
  match d with
  | [] => [(k, v)]
  | (k', v') :: d' =>
      if String.eqb k' k then (k, v) :: d' else (k', v') :: dict_set d' k v
  end.

(** ** [struct] unpacking *)

(** [n] values of [w] bytes each. *)
Fixpoint unpack_repeat (n : nat) (w : nat) (decode : list byte -> pyval)
    (data : list byte) : list pyval * list byte :=
  match n with
  | O => ([], data)
  | S n' =>
      let '(vs, r) := unpack_repeat n' w decode (drop w data) in
      (decode (take w data) :: vs, r)
  end.

Definition decode_code (e : BlendFileEndian) (c : fmt_code) (bs : list byte) : pyval :=
  match c with
  | Cf => VFloat 32 (uint_of_bytes e bs)
  | Cd => VFloat 64 (uint_of_bytes e bs)
  | Ci | Ch | Cl | Cq => VInt (sint_of_bytes e bs)
  | CH | CL | CQ | CI | CP => VInt (uint_of_bytes e bs)
  | Cc | Cs | Cx => VBytes bs
  end.

(** The values of a format over data of the right length. *)
Fixpoint unpack_items (e : BlendFileEndian) (items : list fmt_item)
    (data : list byte) : list pyval :=
  match items with
  | [] => []
  | (n, c) :: rest =>
      match c with
      | Cx => unpack_items e rest (drop (Z.to_nat n) data)
      | Cs => VBytes (take (Z.to_nat n) data)
              :: unpack_items e rest (drop (Z.to_nat n) data)
      | _ =>
          let '(vs, r) :=
            unpack_repeat (Z.to_nat n) (Z.to_nat (code_width c)) (decode_code e c) data in
          vs ++ unpack_items e rest r
      end
  end.

(** [Struct.unpack]. *)
Definition Struct_unpack (s : Struct) (data : list byte) : result (list pyval) :=
  if Z.of_nat (length data) =? Struct_size s
  then Ok (unpack_items (st_endian s) (st_items s) data)
  else Raise StructError.

(** The chunks of [Struct.iter_unpack] over data whose length is a
    positive multiple of the size. *)
Fixpoint iter_chunks (n : nat) (size : nat) (data : list byte) : list (list byte) :=
  match n with
  | O => []
  | S n' => take size data :: iter_chunks n' size (drop size data)
  end.

(** [NamedStruct.unpack]: a namedtuple, or a tuple of namedtuples when the
    data is a proper multiple of the size.  Calling the namedtuple class
    with a wrong number of values is a [TypeError]. *)
Definition names_call (names : list string) (vals : list pyval) : result pyval :=
  if (length names =? length vals)%nat then Ok (VNamed vals) else Raise TypeError.

Fixpoint names_call_all (names : list string) (s : Struct) (chunks : list (list byte))
  : result (list pyval) :=
  match chunks with
  | [] => Ok []
  | c :: rest =>
      let* v := names_call names (unpack_items (st_endian s) (st_items s) c) in
      let* vs := names_call_all names s rest in
      Ok (v :: vs)
  end.

Definition NamedStruct_unpack (ns : NamedStruct) (data : list byte) : result pyval :=
  let x := Z.of_nat (length data) in
  let y := Struct_size (ns_format ns) in
  if (y <? x) && (y =? 0) then Raise ZeroDivisionError
  else if (y <? x) && (x mod y =? 0) then
    let* vs := names_call_all (ns_names ns) (ns_format ns)
                 (iter_chunks (Z.to_nat (x / y)) (Z.to_nat y) data) in
    Ok (VTuple vs)
  else
    let* vals := Struct_unpack (ns_format ns) data in
    names_call (ns_names ns) vals.

(** The items over which [zip(names, data)] pairs the names. *)
Definition iter_values (v : pyval) : list pyval :=
  match v with
  | VNamed l | VTuple l | VList l => l
  | _ => []
  end.

(* ===================================================================== *)
(** ** Files, factories and the shared world *)
(* ===================================================================== *)

(** A parsed [BlenderFile]: [bf_handle] is the content behind the file
    handle and [bf_closed] tells whether the handle was closed.  Block
    offsets are positions returned by the handle, hence naturals. *)
Record BlenderFile := mkFile {
  bf_header : BlendFileHeader;
  bf_handle : list byte;
  bf_closed : bool;
  bf_blocks : list (BlendBlockHeader * nat);
  bf_index : BlendIndex
}.

Record BlenderObjectFactory := mkFactory {
  _file_ref : nat;
  struct_dna : BlendStructDNA;
  sdna_index : Z;
  has_name : bool;
  object_type : ObjType;
  object_name : string
}.

Definition version_key (v : BlendVersionInfo) : Z * Z * Z :=
  (major v, minor v, v_rev v).

(** The objects that are shared and mutated.  A file, class or factory
    object is alive while it is in its map; a weak reference is the key
    of the object, and calling it is a lookup.  [OBJECT_CACHE] is
    [BlenderObject.CACHE] and [FACTORY_CACHE] is
    [BlenderObjectFactory.CACHE]: version, then name, then weak
    reference.  [lookup_values] holds the [value] slot of each
    [AddressLookup] descriptor, by class and field name; a missing entry
    is the initial [None]. *)
Record world := mkWorld {
  files : gmap nat BlenderFile;
  classes : gmap nat ObjType;
  factories : gmap nat BlenderObjectFactory;
  OBJECT_CACHE : gmap (Z * Z * Z) (gmap string nat);
  FACTORY_CACHE : gmap (Z * Z * Z) (gmap string nat);
  lookup_values : gmap (nat * string) pyval;
  next_id : nat
}.

Definition empty_world : world := mkWorld ∅ ∅ ∅ ∅ ∅ ∅ 0.

(** Computations that read and change the world and may raise. *)
Definition M (A : Type) : Type := world -> result A * world.

Definition ret {A} (a : A) : M A := fun w => (Ok a, w).
Definition raise {A} (e : exn) : M A := fun w => (Raise e, w).
Definition mbind {A B} (c : M A) (k : A -> M B) : M B :=
  fun w => match c w with
           | (Ok a, w') => k a w'
           | (Raise e, w') => (Raise e, w')
           end.
Definition lift {A} (r : result A) : M A := fun w => (r, w).

Notation "'do*' p ':=' c 'in' k" := (mbind c (fun p => k))
  (at level 10, p pattern, c at level 200, k at level 200).

Definition set_files (f : gmap nat BlenderFile) (w : world) : world :=
  mkWorld f (classes w) (factories w) (OBJECT_CACHE w) (FACTORY_CACHE w)
          (lookup_values w) (next_id w).
Definition set_classes (c : gmap nat ObjType) (w : world) : world :=
  mkWorld (files w) c (factories w) (OBJECT_CACHE w) (FACTORY_CACHE w)
          (lookup_values w) (next_id w).
Definition set_factories (f : gmap nat BlenderObjectFactory) (w : world) : world :=
  mkWorld (files w) (classes w) f (OBJECT_CACHE w) (FACTORY_CACHE w)
          (lookup_values w) (next_id w).
Definition set_OBJECT_CACHE (c : gmap (Z * Z * Z) (gmap string nat)) (w : world) : world :=
  mkWorld (files w) (classes w) (factories w) c (FACTORY_CACHE w)
          (lookup_values w) (next_id w).
Definition set_FACTORY_CACHE (c : gmap (Z * Z * Z) (gmap string nat)) (w : world) : world :=
  mkWorld (files w) (classes w) (factories w) (OBJECT_CACHE w) c
          (lookup_values w) (next_id w).
Definition set_lookup_values (v : gmap (nat * string) pyval) (w : world) : world :=
  mkWorld (files w) (classes w) (factories w) (OBJECT_CACHE w) (FACTORY_CACHE w)
          v (next_id w).
Definition set_next_id (n : nat) (w : world) : world :=
  mkWorld (files w) (classes w) (factories w) (OBJECT_CACHE w) (FACTORY_CACHE w)
          (lookup_values w) n.

(** A weak reference to a file, called. *)
Definition deref_file (fid : nat) : M BlenderFile :=
  fun w => match files w !! fid with
           | Some f => (Ok f, w)
           | None => (Raise (RuntimeError "Parent blend file was freed"), w)
           end.

(** [BlenderFile.close]: closes the handle.  The file object itself stays
    alive. *)
Definition BlenderFile_close (fid : nat) (w : world) : world :=
  match files w !! fid with
  | Some f =>
      set_files (<[fid := mkFile (bf_header f) (bf_handle f) true
                                 (bf_blocks f) (bf_index f)]> (files w)) w
  | None => w
  end.

(** The last strong reference to a file object goes away ([del blend]). *)
Definition free_file (fid : nat) (w : world) : world :=
  set_files (delete fid (files w)) w.

(** [handle.read(n)] at position [pos]. *)
Definition handle_read (data : list byte) (pos : nat) (n : Z) : result (list byte) :=
  if n =? -1 then Ok (drop pos data)
  else if n <? 0 then Raise (ValueError "read length must be non-negative or -1")
  else Ok (take (Z.to_nat n) (drop pos data)).

(** [BlenderFile._read_block]. *)
Definition _read_block (file : BlenderFile) (block : BlendBlockHeader) (offset : nat)
  : result (list byte) :=
  if bf_closed file then Raise (ValueError "seek of closed file")
  else handle_read (bf_handle file) offset (b_size block).

(* ===================================================================== *)
(** ** Records: [BlenderObject] *)
(* ===================================================================== *)

(** [data[lo:hi]] with Python's treatment of negative and large bounds. *)
Definition py_slice_Z {A} (lo hi : Z) (l : list A) : list A :=
  let n := Z.of_nat (length l) in
  let norm i := if i <? 0 then Z.max (i + n) 0 else Z.min i n in
  py_slice (Z.to_nat (norm lo)) (Z.to_nat (norm hi)) l.

(** [AddressLookup.__set__] and [AddressLookup.__delete__]. *)
Definition AddressLookup_set {A} : result A :=
  Raise (AttributeError "Attribute cannot be setted").
Definition AddressLookup_delete {A} : result A :=
  Raise (AttributeError "Attribute cannot be deleted").

(** [setattr(obj, name, value)] on an instance whose class binds the
    names [lookups] to [AddressLookup] descriptors: a descriptor refuses
    ([AddressLookup.__set__]), as does the [file] property, which has no
    setter; any other name goes to the instance dictionary. *)
Definition obj_setattr (lookups : list string) (d : pydict) (name : string) (value : pyval)
  : result pydict :=
  if str_in name lookups then AddressLookup_set
  else if String.eqb name "file" then Raise (AttributeError "can't set attribute")
  else Ok (dict_set d name value).

(** The loop of [BlenderObject._set_fields] over [gen = zip(names, data)].
    [pending = Some (field_name, k, arr)] is the state inside the inner
    [for] loop, with [k + 1] values still to take for the array [arr] of
    [field_name].  The loop only ends by an exception, which is returned
    with the dictionary as it then is. *)
Fixpoint set_fields_loop (lookups : list string)
    (pending : option (string * nat * list pyval))
    (gen : list (string * pyval)) (d : pydict) : pydict * exn :=
  match gen with
  | [] => (d, StopIteration)
  | (name, value) :: gen' =>
      match pending with
      | Some (field_name, k, arr) =>
          let arr := arr ++ [value] in
          match k with
          | S k' => set_fields_loop lookups (Some (field_name, k', arr)) gen' d
          | O => match obj_setattr lookups d field_name (VTuple arr) with
                 | Ok d' => set_fields_loop lookups None gen' d'
                 | Raise e => (d, e)
                 end
          end
      | None =>
          match template_first name with
          | None =>
              match obj_setattr lookups d name value with
              | Ok d' => set_fields_loop lookups None gen' d'
              | Raise e => (d, e)
              end
          | Some (field_name, array_len) =>
              match py_int array_len with
              | Raise e => (d, e)
              | Ok n =>
                  match Z.to_nat (n - 1) with
                  | S k => set_fields_loop lookups (Some (field_name, k, [value])) gen' d
                  | O => match obj_setattr lookups d field_name (VTuple [value]) with
                         | Ok d' => set_fields_loop lookups None gen' d'
                         | Raise e => (d, e)
                         end
                  end
              end
          end
      end
  end.

(** [BlenderObject._set_fields(names, data, obj)]. *)
Definition _set_fields (lookups : list string) (names : list string) (data : pyval)
    (d : pydict) : pydict * exn :=
  set_fields_loop lookups None (combine names (iter_values data)) d.

(** The first loop of [BlenderObject.__new__], over [cls.CLASSES]: each
    nested structure is decoded by [new] from its slice of the data and
    stored under its name. *)
Fixpoint new_nested (new : ObjType -> list byte -> result pyval) (lookups : list string)
    (data : list byte) (cs : list (ObjType * (Z * Z) * string)) (d : pydict)
  : result pydict :=
  match cs with
  | [] => Ok d
  | (cls_, (lo, hi), name) :: cs' =>
      let* obj_ := new cls_ (py_slice_Z lo hi data) in
      let* d' := obj_setattr lookups d name obj_ in
      new_nested new lookups data cs' d'
  end.

(** [BlenderObject.__new__(cls, file, data)]: the nested structures first,
    each from its slice of the data, then the fields of the format. *)
Fixpoint BlenderObject_new (cls : ObjType) (file : nat) (data : list byte) : result pyval :=
  let 'mkType _ _ _ FMT CLASSES lookups := cls in
  let* d := new_nested (fun cls_ data_ => BlenderObject_new cls_ file data_)
              lookups data CLASSES [] in
  let* values := NamedStruct_unpack FMT data in
  match _set_fields lookups (ns_names FMT) values d with
  | (d', StopIteration) => Ok (VObject cls file d')
  | (_, e) => Raise e
  end.

(** [del d[k]]. *)
Fixpoint dict_del (d : pydict) (k : string) : pydict :=
  match d with
  | [] => []
  | (k', v) :: d' => if String.eqb k' k then d' else (k', v) :: dict_del d' k
  end.

(** [setattr(obj, name, value)] and [delattr(obj, name)] as the caller of
    the library sees them: what the call does, and the object after it. *)
Definition py_setattr (obj : pyval) (name : string) (value : pyval) : result unit * pyval :=
  match obj with
  | VObject cls file attrs =>
      match obj_setattr (t_lookups cls) attrs name value with
      | Ok attrs' => (Ok tt, VObject cls file attrs')
      | Raise e => (Raise e, obj)
      end
  | _ => (Raise (AttributeError name), obj)
  end.

Definition py_delattr (obj : pyval) (name : string) : result unit * pyval :=
  match obj with
  | VObject cls file attrs =>
      if str_in name (t_lookups cls) then (AddressLookup_delete, obj)
      else if String.eqb name "file" then (Raise (AttributeError "can't delete attribute"), obj)
      else match dict_get attrs name with
           | Some _ => (Ok tt, VObject cls file (dict_del attrs name))
           | None => (Raise (AttributeError name), obj)
           end
  | _ => (Raise (AttributeError name), obj)
  end.

(* ===================================================================== *)
(** ** Building the classes: [_build_object_type] *)
(* ===================================================================== *)

(** [BlenderObject.CACHE.get(version)], with the empty dictionary stored
    when there is none. *)
Definition get_version_cache (version : Z * Z * Z) : M (gmap string nat) :=
  fun w => match OBJECT_CACHE w !! version with
           | Some c => (Ok c, w)
           | None => (Ok ∅, set_OBJECT_CACHE (<[version := ∅]> (OBJECT_CACHE w)) w)
           end.

(** [version_cache.get(name, type(None))()]: the class behind the weak
    reference, if there is one and it is alive. *)
Definition cached_class (version : Z * Z * Z) (name : string) : M (option ObjType) :=
  fun w => (Ok (vc ← OBJECT_CACHE w !! version; id ← vc !! name; classes w !! id), w).

(** [type(name, (BlenderObject,), class_attrs)] followed by
    [version_cache[name] = ref(object_type)]. *)
Definition new_class (name : string) (version : BlendVersionInfo) (FMT : NamedStruct)
    (CLASSES : list (ObjType * (Z * Z) * string)) (lookups : list string) : M ObjType :=
  fun w =>
    let id := next_id w in
    let object_type := mkType id name version FMT CLASSES lookups in
    let vc := default ∅ (OBJECT_CACHE w !! version_key version) in
    (Ok object_type,
     set_OBJECT_CACHE (<[version_key version := <[name := id]> vc]> (OBJECT_CACHE w))
       (set_next_id (S id) (set_classes (<[id := object_type]> (classes w)) w))).

(** Step 2 of [_build_object_type]: the loop over
    [zip(fields, struct_dna.fields)] that collects the classes of the
    nested structures, each with its slice and its name; [build] is the
    recursive call. *)
Fixpoint build_dependencies (build : BlendStructDNA -> M ObjType) (index : BlendIndex)
    (l : list (BlendStructField * (Z * Z))) (offset : Z)
  : M (list (ObjType * (Z * Z) * string)) :=
  match l with
  | [] => ret []
  | (f, dna) :: l' =>
      do* dep :=
        (if negb (in_BASE_TYPES (f_type f)) && negb (f_ptr f) then
           do* tmp_dna := lift (_struct_lookup index (fst dna)) in
           do* t := build tmp_dna in
           ret [(t, (offset, offset + f_size f), f_name f)]
         else ret []) in
      do* rest := build_dependencies build index l' (offset + f_size f) in
      ret (dep ++ rest)
  end.

(** [BlenderObjectFactory._build_object_type], of which the callers only
    use the class.  [fuel] is the depth of recursion that the interpreter
    allows. *)
Fixpoint _build_object_type (fuel : nat) (blend_file : BlenderFile)
    (struct_dna : BlendStructDNA) : M ObjType :=
  match fuel with
  | O => raise RecursionError
  | S fuel' =>
    let head := bf_header blend_file in
    let arch := h_arch head in
    let endian := h_endian head in
    let version := h_version head in
    do* _ := get_version_cache (version_key version) in
    do* name := lift (py_index (type_names (bf_index blend_file)) (dna_index struct_dna)) in
    do* object_type := cached_class (version_key version) name in
    match object_type with
    | Some object_type => ret object_type
    | None =>
      do* st := lift (_export_struct head (bf_index blend_file) struct_dna) in
      let name := s_name st in
      let fields := s_fields st in
      do* dependencies :=
        build_dependencies (_build_object_type fuel' blend_file) (bf_index blend_file)
          (combine fields (dna_fields struct_dna)) 0 in
      let '(fmt, fmt_names) := compile_fmt fields in
      do* fmt_names := lift (namedtuple name fmt_names) in
      do* format := lift (Struct_new endian (replace_P arch fmt)) in
      let FMT := mkNamedStruct fmt_names format in
      let lookups := map f_name (List.filter f_ptr fields) in
      new_class name version FMT dependencies lookups
    end
  end.

(* ===================================================================== *)
(** ** Pointer resolution *)
(* ===================================================================== *)

(** The loop of [_from_address]: every block is visited and a matching
    block replaces the one found before. *)
Fixpoint scan_blocks (found : option (BlendBlockHeader * nat))
    (blocks : list (BlendBlockHeader * nat)) (ptr : Z)
  : option (BlendBlockHeader * nat) :=
  match blocks with
  | [] => found
  | (_block, _offset) :: rest =>
      scan_blocks (if b_addr _block =? ptr then Some (_block, _offset) else found) rest ptr
  end.

(** [range(0, stop, step)] for [0 < step]. *)
Definition py_range_step (stop step : Z) : list Z :=
  map (fun i => Z.of_nat i * step) (seq 0 (Z.to_nat ((stop + step - 1) / step))).

Fixpoint new_all (cls : ObjType) (file : nat) (chunks : list (list byte)) : result (list pyval) :=
  match chunks with
  | [] => Ok []
  | c :: rest =>
      let* o := BlenderObject_new cls file c in
      let* os := new_all cls file rest in
      Ok (o :: os)
  end.

(** The second half of [_from_address], once the scan has settled on
    [block] at [offset]. *)
Definition decode_block (fuel : nat) (fid : nat) (self : BlenderFile)
    (block : BlendBlockHeader) (offset : nat) : M pyval :=
  do* struct_dna := lift (py_index (structures (bf_index self)) (b_sdna block)) in
  do* block_data := lift (_read_block self block offset) in
  do* obj := _build_object_type fuel self struct_dna in
  if b_count block =? 1 then lift (BlenderObject_new obj fid block_data)
  else
    let step := Struct_size (ns_format (t_FMT obj)) in
    if step =? 0 then raise (ValueError "range() arg 3 must not be zero")
    else
      do* objs := lift (new_all obj fid
                          (map (fun x => py_slice_Z x (x + step) block_data)
                               (py_range_step (b_size block) step))) in
      ret (VTuple objs).

(** [BlenderFile._from_address]: [fid] is the file object and [self] its
    state. *)
Definition _from_address (fuel : nat) (fid : nat) (self : BlenderFile) (ptr : Z) : M pyval :=
  match scan_blocks None (bf_blocks self) ptr with
  | None =>
      raise (BlenderFileReadException
               ("Cannot find the address " +:+ py_hex ptr +:+ " in the blend file"))
  | Some (block, offset) => decode_block fuel fid self block offset
  end.

(** [BlenderFile._from_addresses]; the addresses of a pointer array are
    integers. *)
Fixpoint _from_addresses (fuel : nat) (fid : nat) (self : BlenderFile) (ptr_list : list pyval)
  : M (list pyval) :=
  match ptr_list with
  | [] => ret []
  | p :: rest =>
      do* v := match p with
               | VInt ptr => if ptr =? 0 then ret VNone else _from_address fuel fid self ptr
               | _ => raise TypeError
               end in
      do* vs := _from_addresses fuel fid self rest in
      ret (v :: vs)
  end.

Definition get_lookup_value (key : nat * string) : M pyval :=
  fun w => (Ok (default VNone (lookup_values w !! key)), w).

Definition set_lookup_value (key : nat * string) (v : pyval) : M unit :=
  fun w => (Ok tt, set_lookup_values (<[key := v]> (lookup_values w)) w).

(** [AddressLookup.__get__] for the descriptor bound to [name] in the
    class of [instance]; [getattr] reads an attribute of an object.  The
    descriptor belongs to the class: its [value] is shared by all the
    instances. *)
Definition AddressLookup_get (getattr : pyval -> string -> M pyval) (fuel : nat)
    (name : string) (instance : pyval) : M pyval :=
  match instance with
  | VObject cls fref _ =>
      let key := (t_id cls, name) in
      do* ptr := getattr instance ("ptr_" +:+ name) in
      do* _ := match ptr with
               | VInt p =>
                   if negb (p =? 0) then
                     do* file := deref_file fref in
                     do* v := _from_address fuel fref file p in
                     set_lookup_value key v
                   else ret tt
               | VTuple l =>
                   do* file := deref_file fref in
                   do* vs := _from_addresses fuel fref file l in
                   set_lookup_value key (VList vs)
               | _ => ret tt
               end in
      get_lookup_value key
  | _ => raise (AttributeError name)
  end.

(** [getattr(obj, name)] on a record: a descriptor of the class first,
    then the [file] property, then the instance dictionary. *)
Fixpoint getattr (fuel : nat) (obj : pyval) (name : string) : M pyval :=
  match fuel with
  | O => raise RecursionError
  | S fuel' =>
      match obj with
      | VObject cls fref attrs =>
          if str_in name (t_lookups cls) then
            AddressLookup_get (getattr fuel') fuel' name obj
          else if String.eqb name "file" then
            do* _ := deref_file fref in ret (VFile fref)
          else match dict_get attrs name with
               | Some v => ret v
               | None => raise (AttributeError name)
               end
      | _ => raise (AttributeError name)
      end
  end.

(* ===================================================================== *)
(** ** Equality of records: [BlenderObject.__eq__] *)
(* ===================================================================== *)

(** [==] on two floats of the same width, from the bit patterns: a NaN
    is equal to nothing, the two zeros are equal, and any other two
    floats are equal when their bits are. *)
Definition float_is_nan (width bits : Z) : bool :=
  let mant := if width =? 32 then 23 else 52 in
  let expo := if width =? 32 then 255 else 2047 in
  (Z.land (Z.shiftr bits mant) expo =? expo)
  && negb (Z.land bits (2 ^ mant - 1) =? 0).

Definition float_is_zero (width bits : Z) : bool :=
  Z.land bits (2 ^ (width - 1) - 1) =? 0.

Definition float_eqb (w1 b1 w2 b2 : Z) : bool :=
  (w1 =? w2) && negb (float_is_nan w1 b1) && negb (float_is_nan w2 b2)
  && ((b1 =? b2) || (float_is_zero w1 b1 && float_is_zero w2 b2)).

(** The loop of [BlenderObject.__eq__] over [name_iter]; [skip] is the
    number of names that the list comprehension still takes from the
    iterator, and taking one from the exhausted iterator raises
    [StopIteration]. *)
Fixpoint eq_loop (py_eq : pyval -> pyval -> M bool) (getattr : pyval -> string -> M pyval)
    (self other : pyval) (skip : nat) (names : list string) (eq : bool) : M bool :=
  match names with
  | [] => match skip with
          | O => ret eq
          | S _ => raise StopIteration
          end
  | name :: rest =>
      match skip with
      | S k => eq_loop py_eq getattr self other k rest eq
      | O =>
          match template_first name with
          | None =>
              do* a := getattr self name in
              do* b := getattr other name in
              do* e := py_eq a b in
              eq_loop py_eq getattr self other O rest (eq || e)
          | Some (field_name, array_len) =>
              do* a := getattr self field_name in
              do* b := getattr other field_name in
              do* e := py_eq a b in
              do* n := lift (py_int array_len) in
              eq_loop py_eq getattr self other (Z.to_nat (n - 1)) rest (eq || e)
          end
      end
  end.

(** [BlenderObject.__eq__(self, other)]. *)
Definition BlenderObject_eq (py_eq : pyval -> pyval -> M bool)
    (getattr : pyval -> string -> M pyval) (self other : pyval) : M bool :=
  match self, other with
  | VObject cls _ _, VObject cls' _ _ =>
      if negb (t_id cls' =? t_id cls)%nat then ret false
      else eq_loop py_eq getattr self other O (ns_names (t_FMT cls)) false
  | _, _ => ret false
  end.

(** [a == b] on the values of the model.  Two sequences are compared item
    by item; a record is compared by its [__eq__]; values of different
    kinds are unequal (both sides of the comparisons made by [__eq__]
    come from the same piece of the same format). *)
Fixpoint py_eq (fuel : nat) (a b : pyval) : M bool :=
  match fuel with
  | O => raise RecursionError
  | S fuel' =>
      let items :=
        fix items (l1 l2 : list pyval) : M bool :=
          match l1, l2 with
          | [], [] => ret true
          | x :: l1', y :: l2' =>
              do* e := py_eq fuel' x y in
              if e then items l1' l2' else ret false
          | _, _ => ret false
          end in
      match a, b with
      | VNone, VNone => ret true
      | VInt x, VInt y => ret (x =? y)
      | VFloat w1 x, VFloat w2 y => ret (float_eqb w1 x w2 y)
      | VBytes x, VBytes y => ret (bytes_eqb x y)
      | VTuple l1, VTuple l2 | VTuple l1, VNamed l2
      | VNamed l1, VTuple l2 | VNamed l1, VNamed l2
      | VList l1, VList l2 => items l1 l2
      | VFile x, VFile y => ret (x =? y)%nat
      | VObject _ _ _, _ => BlenderObject_eq (py_eq fuel') (getattr fuel') a b
      | _, _ => ret false
      end
  end.

(** [self == other] for two records. *)
Definition record_eq (fuel : nat) (self other : pyval) : M bool :=
  BlenderObject_eq (py_eq fuel) (getattr fuel) self other.

(* ===================================================================== *)
(** ** Factories *)
(* ===================================================================== *)

(** The first structure whose type index is [type_name_index], with its
    position. *)
Fixpoint find_struct (index : Z) (l : list BlendStructDNA) (type_name_index : Z)
  : option (Z * BlendStructDNA) :=
  match l with
  | [] => None
  | struct_dna :: rest =>
      if dna_index struct_dna =? type_name_index then Some (index, struct_dna)
      else find_struct (index + 1) rest type_name_index
  end.

(** ['ID' in (dnatypes[ftype] for ftype, fname in dnafields)]. *)
Fixpoint has_ID (dnatypes : list string) (dnafields : list (Z * Z)) : result bool :=
  match dnafields with
  | [] => Ok false
  | (ftype, _) :: rest =>
      let* t := py_index dnatypes ftype in
      if String.eqb t "ID" then Ok true else has_ID dnatypes rest
  end.

(** [BlenderObjectFactory.__init__(self, file, type_name_index)]. *)
Definition BlenderObjectFactory_init (fuel : nat) (fid : nat) (file : BlenderFile)
    (type_name_index : Z) : M BlenderObjectFactory :=
  match find_struct 0 (structures (bf_index file)) type_name_index with
  | None => raise (AttributeError "struct_dna")
  | Some (index, struct_dna) =>
      do* has_name := lift (has_ID (type_names (bf_index file)) (dna_fields struct_dna)) in
      do* object_type := _build_object_type fuel file struct_dna in
      do* object_name := lift (py_index (type_names (bf_index file)) (dna_index struct_dna)) in
      ret (mkFactory fid struct_dna index has_name object_type object_name)
  end.

(** [type_names.index(type_name)]. *)
Fixpoint list_index (l : list string) (x : string) : option Z :=
  match l with
  | [] => None
  | y :: rest => if String.eqb y x then Some 0
                 else option_map (fun i => i + 1) (list_index rest x)
  end.

(** The end of [BlenderFile.__init__]: the file object [file] comes to
    life and the factory cache gets a dictionary for its version.  The
    header, the block table and the index are taken as parsed. *)
Definition BlenderFile_init (file : BlenderFile) : M nat :=
  fun w =>
    let fid := next_id w in
    let version := version_key (h_version (bf_header file)) in
    let w1 := set_next_id (S fid) (set_files (<[fid := file]> (files w)) w) in
    (Ok fid,
     match FACTORY_CACHE w1 !! version with
     | None => set_FACTORY_CACHE (<[version := ∅]> (FACTORY_CACHE w1)) w1
     | Some _ => w1
     end).

(** [BlenderFile.list(self, type_name)] for the file object [fid] in state
    [self]; the result is the factory object. *)
Definition BlenderFile_list (fuel : nat) (fid : nat) (self : BlenderFile)
    (type_name : string) : M nat :=
  fun w =>
    let version := version_key (h_version (bf_header self)) in
    match FACTORY_CACHE w !! version with
    | None => (Raise (AttributeError "get"), w)
    | Some cached =>
        match cached !! type_name ≫= (fun id => factories w !! id ≫= (fun _ => Some id)) with
        | Some fact => (Ok fact, w)
        | None =>
            let not_found :=
              BlenderFileReadException
                ("Data type " +:+ type_name +:+ " could not be found in the blend file") in
            match list_index (type_names (bf_index self)) type_name with
            | None => (Raise not_found, w)
            | Some i =>
                match BlenderObjectFactory_init fuel fid self i w with
                | (Ok fact, w') =>
                    let id := next_id w' in
                    (Ok id,
                     set_FACTORY_CACHE
                       (<[version := <[type_name := id]> cached]> (FACTORY_CACHE w'))
                       (set_next_id (S id)
                          (set_factories (<[id := fact]> (factories w')) w')))
                | (Raise (ValueError _), w') => (Raise not_found, w')
                | (Raise e, w') => (Raise e, w')
                end
            end
        end
    end.

(** [BlenderObjectFactory.file]. *)
Definition Factory_file (self : BlenderObjectFactory) : M BlenderFile :=
  deref_file (_file_ref self).

(** [BlenderObjectFactory.__len__]. *)
Definition Factory_len (self : BlenderObjectFactory) : M Z :=
  do* file := Factory_file self in
  ret (fold_left (fun count (bo : BlendBlockHeader * nat) =>
                    count + (if b_sdna (fst bo) =? sdna_index self then 1 else 0))
                 (bf_blocks file) 0).

(** [BlenderObjectFactory.__iter__], run to its end: [list(factory)]. *)
Fixpoint iter_blocks (self : BlenderObjectFactory) (file : BlenderFile)
    (blocks : list (BlendBlockHeader * nat)) : result (list pyval) :=
  match blocks with
  | [] => Ok []
  | (block, offset) :: rest =>
      if b_sdna block =? sdna_index self then
        let* data := _read_block file block offset in
        let* obj := BlenderObject_new (object_type self) (_file_ref self) data in
        let* objs := iter_blocks self file rest in
        Ok (obj :: objs)
      else iter_blocks self file rest
  end.

Definition Factory_iter (self : BlenderObjectFactory) : M (list pyval) :=
  do* file := Factory_file self in
  lift (iter_blocks self file (bf_blocks file)).

(** [name.encode()] on ASCII text. *)
Definition encode (name : string) : list byte := list_byte_of_string name.

(** [_name[2:_name.index(0)] == name_bytes] for the value [_name]. *)
Fixpoint bytes_index0 (b : list byte) : option nat :=
  match b with
  | [] => None
  | x :: rest => if byte_val x =? 0 then Some 0%nat
                 else option_map S (bytes_index0 rest)
  end.

Definition name_matches (_name : pyval) (name_bytes : list byte) : result bool :=
  match _name with
  | VBytes b =>
      match bytes_index0 b with
      | Some i => Ok (bytes_eqb (py_slice 2 i b) name_bytes)
      | None => Raise (ValueError "subsection not found")
      end
  | _ => Raise (AttributeError "index")
  end.

(** The loop of [find_by_name] over the generator: each matching block is
    read and decoded when the loop reaches it. *)
Fixpoint find_loop (fuel : nat) (self : BlenderObjectFactory) (file : BlenderFile)
    (name_bytes : list byte) (blocks : list (BlendBlockHeader * nat)) : M (option pyval) :=
  match blocks with
  | [] => ret None
  | (block, offset) :: rest =>
      if b_sdna block =? sdna_index self then
        do* data := lift (_read_block file block offset) in
        do* obj := lift (BlenderObject_new (object_type self) (_file_ref self) data) in
        do* id := getattr fuel obj "id" in
        do* _name := getattr fuel id "name" in
        do* found := lift (name_matches _name name_bytes) in
        if found then ret (Some obj)
        else find_loop fuel self file name_bytes rest
      else find_loop fuel self file name_bytes rest
  end.

(** [BlenderObjectFactory.find_by_name]. *)
Definition find_by_name (fuel : nat) (self : BlenderObjectFactory) (name : string) : M pyval :=
  if negb (has_name self) then
    raise (BlenderFileReadException "Object type do not have a name")
  else
    let name_bytes := encode name in
    do* file := Factory_file self in
    do* r := find_loop fuel self file name_bytes (bf_blocks file) in
    match r with
    | Some obj => ret obj
    | None => raise (KeyError ("File do not have " +:+ object_name self
                               +:+ " objects named '" +:+ name +:+ "'"))
    end.

(** ** Collection *)

(** The last strong reference to a factory goes away; the class it holds
    is collected with it when nothing else holds the class. *)
Definition drop_factory (id : nat) (w : world) : world :=
  set_factories (delete id (factories w)) w.

Definition collect_class (id : nat) (w : world) : world :=
  set_classes (delete id (classes w)) w.

(* ===================================================================== *)
(** ** A small file to run the definitions on *)
(* ===================================================================== *)

Module Fixture.

Definition byte_of_Z (z : Z) : byte :=
  default "000"%byte (Byte.of_N (Z.to_N (z mod 256))).

(** [z] on [n] bytes, least significant first. *)
Fixpoint le_bytes (n : nat) (z : Z) : list byte :=
  match n with
  | O => []
  | S n' => byte_of_Z z :: le_bytes n' (z / 256)
  end.

(** Text padded with zero bytes to [n] bytes. *)
Definition name_bytes (n : nat) (s : string) : list byte :=
  take n (list_byte_of_string s ++ repeat "000"%byte n).

Definition header : BlendFileHeader := mkHeader (mkVersion 2 7 7) X64 Little.

(** [struct ID { ID *next; char name[8]; }],
    [struct World { ID id; float aodist; int pad; }],
    [struct Scene { ID id; World *world; }],
    [struct rctf { float xmin, xmax, ymin, ymax; }],
    [struct Wrap { ID id; }],
    [struct Pads { short _pad[2]; char label[4]; float mat[2][2]; }]. *)
Definition index : BlendIndex :=
  mkIndex
    ["*next"; "name[8]"; "id"; "aodist"; "pad"; "*world";
     "xmin"; "xmax"; "ymin"; "ymax"; "_pad[2]"; "label[4]"; "mat[2][2]"]
    ["char"; "int"; "float"; "ID"; "World"; "Scene"; "rctf"; "Wrap"; "short"; "Pads"]
    [1; 4; 4; 16; 24; 24; 16; 16; 2; 24]
    [mkStructDNA 3 [(3, 0); (0, 1)];
     mkStructDNA 4 [(3, 2); (2, 3); (1, 4)];
     mkStructDNA 5 [(3, 2); (4, 5)];
     mkStructDNA 6 [(2, 6); (2, 7); (2, 8); (2, 9)];
     mkStructDNA 7 [(3, 2)];
     mkStructDNA 9 [(8, 10); (0, 11); (2, 12)]].

Definition id_bytes (next : Z) (name : string) : list byte :=
  le_bytes 8 next ++ name_bytes 8 name.

(** 12.9 as a 32-bit float. *)
Definition aodist_bits : Z := 1095656858.

Definition world1 : list byte :=
  id_bytes 0 "WOTestW" ++ le_bytes 4 aodist_bits ++ le_bytes 4 7.
Definition world2 : list byte :=
  id_bytes 0 "WOOther" ++ le_bytes 4 aodist_bits ++ le_bytes 4 9.
Definition scene1 : list byte := id_bytes 0 "SCMyScn" ++ le_bytes 8 4096.
Definition scene2 : list byte := id_bytes 0 "SCOther" ++ le_bytes 8 0.
Definition wrap1 : list byte := id_bytes 0 "WRwrap".
Definition pads1 : list byte :=
  le_bytes 2 1 ++ le_bytes 2 2 ++ name_bytes 4 "abcd"
  ++ le_bytes 4 1065353216 ++ le_bytes 4 0 ++ le_bytes 4 0 ++ le_bytes 4 1065353216.

Definition handle : list byte :=
  list_byte_of_string "BLENDER-v277" ++ world1 ++ world2 ++ scene1 ++ scene2 ++ wrap1
  ++ pads1.

Definition DATA : list byte := list_byte_of_string "DATA".

(** Two worlds at the addresses 4096 and 4352, two scenes: the first
    points to the first world, the second has a null pointer. *)
Definition blocks : list (BlendBlockHeader * nat) :=
  [(mkBlock DATA 24 4096 1 1, 12%nat);
   (mkBlock DATA 24 4352 1 1, 36%nat);
   (mkBlock DATA 24 8192 2 1, 60%nat);
   (mkBlock DATA 24 8448 2 1, 84%nat);
   (mkBlock DATA 16 12288 4 1, 108%nat);
   (mkBlock DATA 24 16384 5 1, 124%nat)].

Definition file : BlenderFile := mkFile header handle false blocks index.

(** The same file where the second world was written at the address of
    the first. *)
Definition blocks_dup : list (BlendBlockHeader * nat) :=
  [(mkBlock DATA 24 4096 1 1, 12%nat);
   (mkBlock DATA 24 4096 1 1, 36%nat)].

Definition file_dup : BlenderFile := mkFile header handle false blocks_dup index.

Definition fuel : nat := 10.

(** [blend = BlenderFile(...)] in a fresh interpreter. *)
Definition opened : result nat * world := BlenderFile_init file empty_world.
Definition w0 : world := snd opened.
Definition fid : nat := 0.

(** Runs [c] and continues in the world that it leaves. *)
Definition run {A} (c : M A) (w : world) : result A * world := c w.

End Fixture.

(* ===================================================================== *)
(** ** Vocabulary of the statements *)
(* ===================================================================== *)

Definition is_arch_marker (b : byte) (a : BlendFileArch) : Prop :=
  (b = "-"%byte /\ a = X64) \/ (b = "_"%byte /\ a = X32).

Definition is_endian_marker (b : byte) (e : BlendFileEndian) : Prop :=
  (b = "v"%byte /\ e = Little) \/ (b = "V"%byte /\ e = Big).

Definition is_ascii_digit (b : byte) : bool :=
  (48 <=? byte_val b) && (byte_val b <=? 57).

(** The blocks recorded at the address [ptr], in file order. *)
Definition blocks_at (blocks : list (BlendBlockHeader * nat)) (ptr : Z)
  : list (BlendBlockHeader * nat) :=
  List.filter (fun bo => b_addr (fst bo) =? ptr) blocks.

(** The value of a run of digits, and the product of the bracketed
    dimensions of a raw field name. *)
Definition digits_value (s : string) : Z :=
  match DecimalString.NilEmpty.uint_of_string s with
  | Some u => Z.of_uint u
  | None => 0
  end.

Definition dimensions (name : string) : list Z :=
  map digits_value (array_template_findall name).

Definition product (l : list Z) : Z := fold_left Z.mul l 1.

Module Scenario.
Import Fixture.

(** A strong reference to a factory, followed. *)
Definition factory_of (id : nat) : M BlenderObjectFactory :=
  fun w => match factories w !! id with
           | Some f => (Ok f, w)
           | None => (Raise (RuntimeError "no such factory"), w)
           end.

Definition close : M unit := fun w => (Ok tt, BlenderFile_close fid w).

Definition item (l : list pyval) (i : nat) : M pyval :=
  match l !! i with
  | Some v => ret v
  | None => raise IndexError
  end.

(** [worlds = blend.list('World'); blend.close(); len(worlds)]. *)
Definition len_after_close : M Z :=
  do* id := BlenderFile_list fuel fid file "World" in
  do* worlds := factory_of id in
  do* _ := close in
  Factory_len worlds.

(** [worlds = blend.list('World'); blend.close(); list(worlds)]. *)
Definition iter_after_close : M (list pyval) :=
  do* id := BlenderFile_list fuel fid file "World" in
  do* worlds := factory_of id in
  do* _ := close in
  Factory_iter worlds.

(** [... blend.close(); worlds.find_by_name('TestW')]. *)
Definition find_after_close : M pyval :=
  do* id := BlenderFile_list fuel fid file "World" in
  do* worlds := factory_of id in
  do* _ := close in
  find_by_name fuel worlds "TestW".

(** [a, b = list(blend.list('Scene')); b.world]. *)
Definition null_pointer_first : M pyval :=
  do* id := BlenderFile_list fuel fid file "Scene" in
  do* scenes := factory_of id in
  do* l := Factory_iter scenes in
  do* b := item l 1 in
  getattr fuel b "world".

(** [a, b = list(blend.list('Scene')); a.world; b.world]. *)
Definition null_pointer_second : M pyval :=
  do* id := BlenderFile_list fuel fid file "Scene" in
  do* scenes := factory_of id in
  do* l := Factory_iter scenes in
  do* a := item l 0 in
  do* b := item l 1 in
  do* _ := getattr fuel a "world" in
  getattr fuel b "world".

(** [a, b = list(blend.list('Scene')); b.ptr_world]. *)
Definition null_pointer_stored : M pyval :=
  do* id := BlenderFile_list fuel fid file "Scene" in
  do* scenes := factory_of id in
  do* l := Factory_iter scenes in
  do* b := item l 1 in
  getattr fuel b "ptr_world".

(** [a, b = list(blend.list('World'))]. *)
Definition two_worlds : M (pyval * pyval) :=
  do* id := BlenderFile_list fuel fid file "World" in
  do* worlds := factory_of id in
  do* l := Factory_iter worlds in
  do* a := item l 0 in
  do* b := item l 1 in
  ret (a, b).

(** [a == b] for the two worlds, and their [pad] fields. *)
Definition worlds_equal : M bool :=
  do* (a, b) := two_worlds in
  record_eq fuel a b.

Definition worlds_pads : M (pyval * pyval) :=
  do* (a, b) := two_worlds in
  do* x := getattr fuel a "pad" in
  do* y := getattr fuel b "pad" in
  ret (x, y).

(** [w = list(blend.list('Wrap'))[0]; w == w]. *)
Definition wrap_equal_itself : M bool :=
  do* id := BlenderFile_list fuel fid file "Wrap" in
  do* wraps := factory_of id in
  do* l := Factory_iter wraps in
  do* a := item l 0 in
  record_eq fuel a a.

End Scenario.

Module Records.
Import Fixture.

Definition ok_or {A} (d : A) (r : result A) : A :=
  match r with Ok a => a | Raise _ => d end.

(** The first scene of the file, as [list(blend.list('Scene'))[0]]
    returns it. *)
Definition scene1 : pyval :=
  Eval vm_compute in
    ok_or VNone
      (fst ((do* id := BlenderFile_list fuel fid file "Scene" in
             do* scenes := Scenario.factory_of id in
             do* l := Factory_iter scenes in
             Scenario.item l 0) w0)).

(** [worlds = blend.list('World')] and the world it leaves. *)
Definition listed_worlds : result nat * world :=
  BlenderFile_list fuel fid file "World" w0.

Definition w_worlds : world := snd listed_worlds.

Definition worlds : BlenderObjectFactory :=
  Eval vm_compute in
    ok_or (mkFactory 0 (mkStructDNA 0 []) 0 false
             (mkType 0 "" (mkVersion 0 0 0) (mkNamedStruct [] (mkPyStruct Little [])) [] [])
             "")
      (fst ((do* id := BlenderFile_list fuel fid file "World" in
             Scenario.factory_of id) w0)).





(** The world after [worlds = blend.list('World'); del worlds] and a
    collection that frees the factory and the two classes it held. *)
Definition w_collected : world :=
  collect_class 2 (collect_class 1 (drop_factory 3 w_worlds)).

(** [worlds = blend.list('World')] again, in that world. *)
Definition relisted_worlds : result nat * world :=
  BlenderFile_list fuel fid file "World" w_collected.

End Records.

(** [name[-1] == ']']. *)
Definition ends_with_bracket (name : string) : bool :=
  match str_last name with
  | Ok c => Ascii.eqb c "]"
  | Raise _ => false
  end.

Fixpoint all_digits (s : string) : bool :=
  match s with
  | EmptyString => true
  | String c s' => is_digit c && all_digits s'
  end.

(** The bytes of [obj.id.name] for a record that embeds an identity block
    [id], itself a record with a byte string [name], both stored in the
    instance rather than behind a descriptor. *)
Definition identity_name (obj : pyval) : option (list byte) :=
  match obj with
  | VObject cls _ attrs =>
      if str_in "id" (t_lookups cls) then None
      else match dict_get attrs "id" with
           | Some (VObject cls' _ attrs') =>
               if str_in "name" (t_lookups cls') then None
               else match dict_get attrs' "name" with
                    | Some (VBytes b) => Some b
                    | _ => None
                    end
           | _ => None
           end
  | _ => None
  end.

(** The identity block [b] is terminated and carries another name than
    [name] after its two-letter prefix. *)
Definition other_name (b : list byte) (name : string) : Prop :=
  exists i, bytes_index0 b = Some i /\ py_slice 2 i b <> encode name.













(* ===================================================================== *)
(** ** Vocabulary of the cache *)
(* ===================================================================== *)

(** A class without the identities of the class objects in it. *)
Fixpoint shape (t : ObjType) : ObjType :=
  let 'mkType _ name version FMT CLASSES lookups := t in
  mkType 0 name version FMT
         (map (fun x : ObjType * (Z * Z) * string =>
                 (shape (fst (fst x)), snd (fst x), snd x)) CLASSES)
         lookups.

(** A value without the identities of the classes of the records in it:
    two records are value-equal when they are equal as such. *)
Fixpoint shape_value (v : pyval) : pyval :=
  match v with
  | VTuple l => VTuple (map shape_value l)
  | VList l => VList (map shape_value l)
  | VNamed l => VNamed (map shape_value l)
  | VObject cls file attrs =>
      VObject (shape cls) file
              (map (fun kv : string * pyval => (fst kv, shape_value (snd kv))) attrs)
  | _ => v
  end.

Definition result_map {A B} (f : A -> B) (r : result A) : result B :=
  match r with
  | Ok a => Ok (f a)
  | Raise e => Raise e
  end.






(** A collection that frees the factory [id]: files, caches and counter
    are as before, the factory is gone, and no class object appears. *)
Definition collected (id : nat) (w w' : world) : Prop :=
  files w' = files w
  /\ OBJECT_CACHE w' = OBJECT_CACHE w
  /\ FACTORY_CACHE w' = FACTORY_CACHE w
  /\ next_id w' = next_id w
  /\ factories w' !! id = None
  /\ forall i t, classes w' !! i = Some t -> classes w !! i = Some t.



(** The nested classes of a class, without identities. *)
Definition shape_deps (ds : list (ObjType * (Z * Z) * string))
  : list (ObjType * (Z * Z) * string) :=
  map (fun x : ObjType * (Z * Z) * string =>
         (shape (fst (fst x)), snd (fst x), snd x)) ds.



(** The factory that [BlenderObjectFactory.CACHE] holds alive for a name. *)
Definition live_factory (w : world) (version : Z * Z * Z) (name : string) : option nat :=
  cached ← FACTORY_CACHE w !! version;
  cached !! name ≫= (fun id => factories w !! id ≫= (fun _ => Some id)).

(* ===================================================================== *)
(** ** Further runs on the small file *)
(* ===================================================================== *)

Module Runs.
Import Fixture.

(** [list(worlds)] for the factory of the worlds. *)
Definition world_records : list pyval :=
  Eval vm_compute in Records.ok_or [] (fst (Factory_iter Records.worlds Records.w_worlds)).

(** [blend._from_addresses((0, 4096))]: a null address and the address
    of the first world. *)
Definition resolved : result (list pyval) * world :=
  _from_addresses fuel fid file [VInt 0; VInt 4096] w0.

(** A second file object of the same version, opened after the worlds of
    the first were listed. *)
Definition second_file : BlenderFile :=
  mkFile header (list_byte_of_string "BLENDER-v277") false [] (mkIndex [] [] [] []).

End Runs.

(** The identity block [b] is terminated and carries the name [name]
    after its two-letter prefix. *)
Definition carries_name (b : list byte) (name : string) : Prop :=
  exists i, bytes_index0 b = Some i /\ py_slice 2 i b = encode name.

(** The number of values that the pieces of a format unpack to: none for
    padding, one for a string, one per item otherwise. *)
Definition values_count (items : list fmt_item) : nat :=
  fold_right (fun (it : fmt_item) acc =>
                (match snd it with
                 | Cx => 0
                 | Cs => 1
                 | _ => Z.to_nat (fst it)
                 end + acc)%nat) 0%nat items.

(** A field for which [compile_fmt] produces as many names as its piece of
    the format has values: at least one item, and no array of pointers
    to [char]. *)
Definition matched_field (g : BlendStructField) : Prop :=
  1 <= f_count g
  /\ (f_ptr g = true -> f_type g = "char" -> f_count g = 1).

(** An array of pointers to [char], as [char *names[4]]. *)
Definition char_pointer_array (g : BlendStructField) : Prop :=
  f_ptr g = true /\ f_type g = "char" /\ 1 < f_count g.

Module Runs2.
Import Fixture.

Definition first_world : pyval :=
  Eval vm_compute in default VNone (Runs.world_records !! 0%nat).
Definition second_world : pyval :=
  Eval vm_compute in default VNone (Runs.world_records !! 1%nat).

(** [struct Names { char *names[4]; int n; }] *)
Definition names_fields : list BlendStructField :=
  [mkField "names" "char" 32 true 4; mkField "n" "int" 4 false 1].

End Runs2.

(** The results of a list of computations, or the first exception. *)
Fixpoint result_all {A} (l : list (result A)) : result (list A) :=
  match l with
  | [] => Ok []
  | r :: rest =>
      let* a := r in
      let* rest' := result_all rest in
      Ok (a :: rest')
  end.

(** The attribute that [_set_fields] assigns when it meets the name [n]
    of the format outside an array: the field of a generated item name,
    the name itself otherwise. *)
Definition stored_name (n : string) : string :=
  match template_first n with
  | Some (field_name, _) => field_name
  | None => n
  end.

(** The bytes that the fields take, as [_build_object_type] adds them up
    in [offset]. *)
Definition fields_size (fields : list BlendStructField) : Z :=
  fold_right (fun f acc => f_size f + acc) 0 fields.

Module Runs3.
Import Fixture.

(** The class of the identity block inside the class of the worlds. *)
Definition id_class : ObjType :=
  Eval vm_compute in
    match t_CLASSES (object_type Records.worlds) with
    | (t, _, _) :: _ => t
    | [] => object_type Records.worlds
    end.

End Runs3.

(** The fields for which [_build_object_type] records a nested class:
    those of a structure type that are no pointers. *)
Definition nested_field (f : BlendStructField) : bool :=
  negb (in_BASE_TYPES (f_type f)) && negb (f_ptr f).

Module Runs4.
Import Fixture.

(** The fields of [World] with their entries in the index, and step 2 of
    [_build_object_type] on them in a fresh interpreter. *)
Definition world_fields : list (BlendStructField * (Z * Z)) :=
  [(mkField "id" "ID" 16 false 1, (3, 2));
   (mkField "aodist" "float" 4 false 1, (2, 3));
   (mkField "pad" "int" 4 false 1, (1, 4))].

Definition world_dependencies : result (list (ObjType * (Z * Z) * string)) * world :=
  build_dependencies (_build_object_type fuel file) index world_fields 0 w0.

End Runs4.

(* ===================================================================== *)
(** ** Listings: [list_structures] and [tree] *)
(* ===================================================================== *)

(** [a <= b] on text: the order of the codes of the characters, a proper
    prefix first. *)
Fixpoint str_leb (a b : string) : bool :=
  match a, b with
  | EmptyString, _ => true
  | String _ _, EmptyString => false
  | String c a', String d b' =>
      if (N_of_ascii c <? N_of_ascii d)%N then true
      else if (N_of_ascii d <? N_of_ascii c)%N then false
      else str_leb a' b'
  end.

Definition str_le (a b : string) : Prop := str_leb a b = true.

#[global] Instance str_le_dec : RelDecision str_le :=
  fun a b => decide (str_leb a b = true).

(** [sorted(names)]: ascending, equal names staying in their order. *)
Definition py_sorted (names : list string) : list string := merge_sort str_le names.

(** The loop of [list_structures]: [names.append(types[s.index])]. *)
Fixpoint structure_names (types : list string) (structures : list BlendStructDNA)
  : result (list string) :=
  match structures with
  | [] => Ok []
  | s :: rest =>
      let* name := py_index types (dna_index s) in
      let* names := structure_names types rest in
      Ok (name :: names)
  end.

(** [BlenderFile.list_structures]. *)
Definition list_structures (self : BlenderFile) : result (list string) :=
  let* names := structure_names (type_names (bf_index self)) (structures (bf_index self)) in
  Ok (py_sorted names).

Definition newline : string := String "010" EmptyString.

(** [s * n]. *)
Fixpoint str_repeat (s : string) (n : nat) : string :=
  match n with
  | O => EmptyString
  | S n' => s +:+ str_repeat s n'
  end.

(** ['*' in s]. *)
Fixpoint has_star (s : string) : bool :=
  match s with
  | EmptyString => false
  | String c s' => Ascii.eqb c "*" || has_star s'
  end.

(** [str(version)] for the namedtuple [BlendVersionInfo]. *)
Definition version_repr (v : BlendVersionInfo) : string :=
  "BlendVersionInfo(major=" +:+ py_str (major v) +:+ ", minor=" +:+ py_str (minor v)
  +:+ ", rev=" +:+ py_str (v_rev v) +:+ ")".

(** ['|-- {} {}'.format(_type_name, _field_name)] after the indentation,
    with the end of the line. *)
Definition tree_line (indent _type_name _field_name : string) : string :=
  indent +:+ "|-- " +:+ _type_name +:+ " " +:+ _field_name +:+ newline.

(** [field_lookup], local to [tree]; [fuel] is the depth of recursion
    that the interpreter allows. *)
Fixpoint field_lookup (fuel : nat) (index : BlendIndex) (recursive : bool) (max_level : Z)
    (struct : BlendStructDNA) (indent_level : Z) : result string :=
  match fuel with
  | O => Raise RecursionError
  | S fuel' =>
      let indent := str_repeat "    " (Z.to_nat indent_level) in
      let struct_indexes := map dna_index (structures index) in
      (fix loop (l : list (Z * Z)) (fields : string) : result string :=
         match l with
         | [] => Ok fields
         | (ftype, fname) :: rest =>
             let* _type_name := py_index (type_names index) ftype in
             let* _field_name := py_index (field_names index) fname in
             let fields := fields +:+ tree_line indent _type_name _field_name in
             if recursive && (indent_level <? max_level)
                && existsb (Z.eqb ftype) struct_indexes && negb (has_star _field_name)
             then
               let* s := _struct_lookup index ftype in
               let* sub := field_lookup fuel' index recursive max_level s (indent_level + 1) in
               loop rest (fields +:+ sub)
             else loop rest fields
         end) (dna_fields struct) EmptyString
  end.

(** [BlenderFile.tree(type_name, recursive, max_level)]. *)
Definition tree (fuel : nat) (self : BlenderFile) (type_name : string) (recursive : bool)
    (max_level : Z) : result string :=
  match list_index (type_names (bf_index self)) type_name with
  | None => Raise (ValueError "tuple.index(x): x not in tuple")
  | Some type_index =>
      let* dna := _struct_lookup (bf_index self) type_index in
      let repr_str :=
        type_name +:+ " (" +:+ version_repr (h_version (bf_header self)) +:+ ")"
        +:+ newline in
      let* fields := field_lookup fuel (bf_index self) recursive max_level dna 0 in
      Ok (repr_str +:+ fields)
  end.

(** [BlenderObject.tree(recursive, max_level)]: the tree of the class of
    the record, asked of its file. *)
Definition BlenderObject_tree (fuel : nat) (obj : pyval) (recursive : bool) (max_level : Z)
  : M string :=
  match obj with
  | VObject cls fref _ =>
      do* file := deref_file fref in
      lift (tree fuel file (t_name cls) recursive max_level)
  | _ => raise (AttributeError "tree")
  end.

Module Listings.
Import Fixture.

Definition scene_tree : string :=
  "Scene (BlendVersionInfo(major=2, minor=7, rev=7))" +:+ newline
  +:+ "|-- ID id" +:+ newline
  +:+ "    |-- ID *next" +:+ newline
  +:+ "    |-- char name[8]" +:+ newline
  +:+ "|-- World *world" +:+ newline.

End Listings.

(* ===================================================================== *)
(** ** Reading the file: [_parse_blocks] and [_parse_index] *)
(* ===================================================================== *)

(** What the code that reads the file itself does: it returns, raises an
    exception of [exn], raises the [OSError] of a seek before the start of
    the file, meets a name that is not ASCII text (which this model of
    text does not cover), or is still in its loop when the fuel is
    spent. *)
Inductive outcome (A : Type) : Type :=
| Returns (a : A)
| Raises (e : exn)
| RaisesOSError
| NotAscii
| Unfinished.
Arguments Returns {A} a.
Arguments Raises {A} e.
Arguments RaisesOSError {A}.
Arguments NotAscii {A}.
Arguments Unfinished {A}.

Definition obind {A B} (c : outcome A) (k : A -> outcome B) : outcome B :=
  match c with
  | Returns a => k a
  | Raises e => Raises e
  | RaisesOSError => RaisesOSError
  | NotAscii => NotAscii
  | Unfinished => Unfinished
  end.

Notation "'let+' p ':=' c 'in' k" := (obind c (fun p => k))
  (at level 10, p pattern, c at level 200, k at level 200).

Definition of_result {A} (r : result A) : outcome A :=
  match r with
  | Ok a => Returns a
  | Raise e => Raises e
  end.

(** [BlenderFile._fmt_strct(fmt)] followed by [Struct(...)]: the byte
    order of the file before the format, its pointer code for ['P']. *)
Definition _fmt_strct (header : BlendFileHeader) (fmt : list fmt_item)
  : BlendFileEndian * list fmt_item :=
  (h_endian header, replace_P (h_arch header) fmt).

(** [NamedStruct(name, fmt, *fields)] and
    [NamedStruct.from_namedtuple(ntuple, fmt)] for a format made by
    [_fmt_strct] and names that are valid. *)
Definition NamedStruct_new (names : list string) (fmt : BlendFileEndian * list fmt_item)
  : result NamedStruct :=
  let* format := Struct_new (fst fmt) (snd fmt) in
  Ok (mkNamedStruct names format).

(** [Struct.unpack_from(data, offset)]: a negative offset counts from the
    end of the data. *)
Definition Struct_unpack_from (s : Struct) (data : list byte) (offset : Z)
  : result (list pyval) :=
  let n := Z.of_nat (length data) in
  let size := Struct_size s in
  let at_ (o : Z) :=
    if n - o <? size then Raise StructError
    else Ok (unpack_items (st_endian s) (st_items s)
               (take (Z.to_nat size) (drop (Z.to_nat o) data))) in
  if offset <? 0 then
    if 0 <? offset + size then Raise StructError
    else if offset + n <? 0 then Raise StructError
    else at_ (offset + n)
  else at_ offset.

(** [NamedStruct.unpack_from]. *)
Definition NamedStruct_unpack_from (ns : NamedStruct) (data : list byte) (offset : Z)
  : result pyval :=
  let* vals := Struct_unpack_from (ns_format ns) data offset in
  names_call (ns_names ns) vals.

(** [NamedStruct.iter_unpack], run to its end: the data must be a
    multiple of the size of the format, which is not zero. *)
Definition NamedStruct_iter_unpack (ns : NamedStruct) (data : list byte)
  : result (list pyval) :=
  let y := Struct_size (ns_format ns) in
  if (y =? 0) || negb (Z.of_nat (length data) mod y =? 0) then Raise StructError
  else names_call_all (ns_names ns) (ns_format ns)
         (iter_chunks (Z.to_nat (Z.of_nat (length data) / y)) (Z.to_nat y) data).

(** [x.val] for a record of [Int] or [Short]. *)
Definition val (v : pyval) : result Z :=
  match v with
  | VNamed [VInt z] => Ok z
  | _ => Raise (AttributeError "val")
  end.

(** [data.split(b'\x00', maxsplit)] for [maxsplit] splits at most, or
    any number when [unlimited]. *)
Fixpoint split_nul (unlimited : bool) (maxsplit : nat) (data : list byte)
  : list (list byte) :=
  match data with
  | [] => [[]]
  | b :: rest =>
      if (byte_val b =? 0) && (unlimited || (0 <? maxsplit)%nat) then
        [] :: split_nul unlimited (pred maxsplit) rest
      else match split_nul unlimited maxsplit rest with
           | piece :: pieces => (b :: piece) :: pieces
           | [] => [[b]]
           end
  end.

Definition py_split (data : list byte) (maxsplit : Z) : list (list byte) :=
  split_nul (maxsplit <? 0) (Z.to_nat maxsplit) data.

(** [n.decode('utf-8')] on ASCII bytes. *)
Definition decode (b : list byte) : outcome string :=
  if forallb (fun x => byte_val x <? 128) b then Returns (string_of_list_byte b)
  else NotAscii.

Fixpoint decode_all (l : list (list byte)) : outcome (list string) :=
  match l with
  | [] => Returns []
  | b :: rest =>
      let+ s := decode b in
      let+ ss := decode_all rest in
      Returns (s :: ss)
  end.

(** [[n.decode('utf-8') for n in data[start::].split(b'\x00', count)[:-1]]]. *)
Definition read_names (data : list byte) (start : Z) (count : Z) : outcome (list string) :=
  decode_all
    (removelast (py_split (py_slice_Z start (Z.of_nat (length data)) data) count)).

(** [sum((len(n) for n in names)) + len(names)]. *)
Definition names_span (names : list string) : Z :=
  fold_right (fun n acc => Z.of_nat (String.length n) + acc) 0 names
  + Z.of_nat (length names).

(** [align], local to [_parse_index]. *)
Definition align (offset : Z) : Z :=
  let tmp := offset mod 4 in
  offset + (if tmp =? 0 then 0 else 4 - tmp).

(** [data[offset:offset + 4] != tag]. *)
Definition tag_missing (data : list byte) (offset : Z) (tag : string) : bool :=
  negb (bytes_eqb (py_slice_Z offset (offset + 4) data) (list_byte_of_string tag)).

Definition Malformed {A} : outcome A :=
  Raises (BlenderFileImportException "Malformed index").

(** The inner loop of [_parse_index] over [range(field_count)]: the
    fields read and the offset after them. *)
Fixpoint parse_fields (StructFieldDNA : NamedStruct) (data : list byte)
    (n : nat) (offset : Z) : result (list (Z * Z) * Z) :=
  match n with
  | O => Ok ([], offset)
  | S n' =>
      let* v := NamedStruct_unpack_from StructFieldDNA data offset in
      let* f := match v with
                | VNamed [VInt index_type; VInt index_name] => Ok (index_type, index_name)
                | _ => Raise TypeError
                end in
      let* (fs, offset') := parse_fields StructFieldDNA data n' (offset + 4) in
      Ok (f :: fs, offset')
  end.

(** The loop of [_parse_index] over [range(structure_count)]. *)
Fixpoint parse_structures (Short StructFieldDNA : NamedStruct) (data : list byte)
    (n : nat) (offset : Z) : result (list BlendStructDNA) :=
  match n with
  | O => Ok []
  | S n' =>
      let* structure_type_index :=
        (let* v := NamedStruct_unpack_from Short data offset in val v) in
      let* field_count :=
        (let* v := NamedStruct_unpack_from Short data (offset + 2) in val v) in
      let* (fields, offset') :=
        parse_fields StructFieldDNA data (Z.to_nat field_count) (offset + 4) in
      let* rest := parse_structures Short StructFieldDNA data n' offset' in
      Ok (mkStructDNA structure_type_index fields :: rest)
  end.

(** [BlenderFile._parse_index(head)] with the handle of the content
    [content] at the position [pos]; the handle is at [pos] again when the
    call returns. *)
Definition _parse_index (header : BlendFileHeader) (content : list byte) (pos : nat)
    (head : BlendBlockHeader) : outcome BlendIndex :=
  let+ Int := of_result (NamedStruct_new ["val"] (_fmt_strct header [(1, Ci)])) in
  let+ Short := of_result (NamedStruct_new ["val"] (_fmt_strct header [(1, Ch)])) in
  let+ StructFieldDNA :=
    of_result (NamedStruct_new ["index_type"; "index_name"]
                 (_fmt_strct header [(1, Ch); (1, Ch)])) in
  let+ data := of_result (handle_read content pos (b_size head)) in
  let offset := 8 in
  if negb (bytes_eqb (py_slice_Z 0 8 data) (list_byte_of_string "SDNANAME"))
  then Malformed else
  let+ name_count :=
    of_result (let* v := NamedStruct_unpack_from Int data offset in val v) in
  let+ field_names := read_names data (offset + 4) name_count in
  let offset := align (offset + (names_span field_names + 4)) in
  if tag_missing data offset "TYPE" then Malformed else
  let+ type_count :=
    of_result (let* v := NamedStruct_unpack_from Int data (offset + 4) in val v) in
  let+ type_names := read_names data (offset + 8) type_count in
  let offset := align (offset + (names_span type_names + 8)) in
  if tag_missing data offset "TLEN" then Malformed else
  let offset := offset + 4 in
  let type_data_length := Struct_size (ns_format Short) * type_count in
  let+ type_sizes :=
    of_result
      (let* vs := NamedStruct_iter_unpack Short
                    (py_slice_Z offset (offset + type_data_length) data) in
       result_all (map val vs)) in
  let offset := align (offset + type_data_length) in
  if tag_missing data offset "STRC" then Malformed else
  let offset := offset + 8 in
  let+ structure_count :=
    of_result (let* v := NamedStruct_unpack_from Int data (offset - 4) in val v) in
  let+ structures :=
    of_result (parse_structures Short StructFieldDNA data
                 (Z.to_nat structure_count) offset) in
  Returns (mkIndex field_names type_names type_sizes structures).

(** The record [BlendBlockHeader] of the values of a block header. *)
Definition block_of (v : pyval) : result BlendBlockHeader :=
  match v with
  | VNamed [VBytes code; VInt size; VInt addr; VInt sdna; VInt count] =>
      Ok (mkBlock code size addr sdna count)
  | _ => Raise TypeError
  end.

(** ['4siPii']. *)
Definition block_header_fmt : list fmt_item :=
  [(4, Cs); (1, Ci); (1, CP); (1, Ci); (1, Ci)].

Definition BlockHeader (header : BlendFileHeader) : result NamedStruct :=
  NamedStruct_new ["code"; "size"; "addr"; "sdna"; "count"]
    (_fmt_strct header block_header_fmt).

(** The end of [_parse_blocks], after the loop. *)
Definition parse_end (blend_index : option BlendIndex) (end_found : bool)
    (pairs : list (BlendBlockHeader * nat))
  : outcome (list (BlendBlockHeader * nat) * BlendIndex) :=
  match blend_index with
  | None => Raises (BlenderFileImportException "Could not find blend file index")
  | Some index =>
      if end_found then Returns (pairs, index)
      else Raises (BlenderFileImportException "End of the blend file was not found")
  end.

(** The loop of [_parse_blocks] with the handle at [pos]; it is entered
    with [end_found] false, and [fuel] bounds the number of its rounds.
    A read at or after the end of the content returns nothing. *)
Fixpoint parse_loop (fuel : nat) (header : BlendFileHeader) (BlockHeader : NamedStruct)
    (content : list byte) (pos : Z) (blend_index : option BlendIndex)
    (pairs : list (BlendBlockHeader * nat))
  : outcome (list (BlendBlockHeader * nat) * BlendIndex) :=
  match fuel with
  | O => Unfinished
  | S fuel' =>
      let end_ := Z.of_nat (length content) in
      if end_ =? pos then parse_end blend_index false pairs
      else
        let header_block_size := Struct_size (ns_format BlockHeader) in
        let buf := if end_ <? pos then []
                   else take (Z.to_nat header_block_size) (drop (Z.to_nat pos) content) in
        let pos := pos + Z.of_nat (length buf) in
        let+ block_head :=
          of_result (let* v := NamedStruct_unpack BlockHeader buf in block_of v) in
        let+ (blend_index, end_found, pairs) :=
          (if bytes_eqb (b_code block_head) (list_byte_of_string "DNA1") then
             let+ index := _parse_index header content (Z.to_nat pos) block_head in
             Returns (Some index, false, pairs)
           else if bytes_eqb (b_code block_head) (list_byte_of_string "ENDB") then
             Returns (blend_index, true, pairs)
           else Returns (blend_index, false, pairs ++ [(block_head, Z.to_nat pos)])) in
        let target := pos + b_size block_head in
        if target <? 0 then RaisesOSError
        else if end_found then parse_end blend_index true pairs
        else parse_loop fuel' header BlockHeader content target blend_index pairs
  end.

(** [BlenderFile._parse_blocks] for a file of the content [content] whose
    header is [header]. *)
Definition _parse_blocks (fuel : nat) (header : BlendFileHeader) (content : list byte)
  : outcome (list (BlendBlockHeader * nat) * BlendIndex) :=
  let+ BlockHeader := of_result (BlockHeader header) in
  parse_loop fuel header BlockHeader content 12 None [].

(** [BlenderFile.__init__] on a file of the content [content]: the
    header, the blocks and the index, and the new file object. *)
Definition BlenderFile_open (fuel : nat) (content : list byte) (w : world)
  : outcome nat * world :=
  match _parse_header (take 12 content) with
  | None => (Raises (BlenderFileImportException "Bad file header"), w)
  | Some header =>
      match _parse_blocks fuel header content with
      | Returns (blocks, index) =>
          let '(r, w') := BlenderFile_init (mkFile header content false blocks index) w in
          (of_result r, w')
      | Raises e => (Raises e, w)
      | RaisesOSError => (RaisesOSError, w)
      | NotAscii => (NotAscii, w)
      | Unfinished => (Unfinished, w)
      end
  end.

(** ** Vocabulary of the block table *)

Definition DNA1 : list byte := list_byte_of_string "DNA1".
Definition ENDB : list byte := list_byte_of_string "ENDB".

(** The block header that the bytes of [content] from the position [pos]
    on decode to. *)
Definition header_at (BH : NamedStruct) (content : list byte) (pos : nat)
  : result BlendBlockHeader :=
  let* v := NamedStruct_unpack BH
              (take (Z.to_nat (Struct_size (ns_format BH))) (drop pos content)) in
  block_of v.

(** An entry of the block table as the file holds it: the header is the
    one stored right before the offset, it is neither the index nor the
    end marker, and the block that it announces, together with the header
    of the next block, lies within the file. *)
Definition block_in_file (BH : NamedStruct) (content : list byte)
    (entry : BlendBlockHeader * nat) : Prop :=
  let hs := Z.to_nat (Struct_size (ns_format BH)) in
  let '(block, offset) := entry in
  (hs <= offset)%nat
  /\ header_at BH content (offset - hs) = Ok block
  /\ b_code block <> DNA1 /\ b_code block <> ENDB
  /\ 0 <= Z.of_nat offset + b_size block
  /\ Z.of_nat offset + b_size block + Z.of_nat hs <= Z.of_nat (length content).

(** ** The layout of a file *)

(** [z] on [n] bytes in the byte order [e], two's complement. *)
Definition encode_int (e : BlendFileEndian) (n : nat) (z : Z) : list byte :=
  match e with
  | Little => Fixture.le_bytes n z
  | Big => rev (Fixture.le_bytes n z)
  end.

(** A block header as the file stores it: the code, the size, the old
    address on the width of a pointer, the structure and the count. *)
Definition encode_block (header : BlendFileHeader) (b : BlendBlockHeader) : list byte :=
  let e := h_endian header in
  b_code b ++ encode_int e 4 (b_size b)
  ++ encode_int e (Z.to_nat (ptr_size (h_arch header))) (b_addr b)
  ++ encode_int e 4 (b_sdna b) ++ encode_int e 4 (b_count b).

(** A header whose values fit their places. *)
Definition fits_header (header : BlendFileHeader) (b : BlendBlockHeader) : Prop :=
  length (b_code b) = 4%nat
  /\ - 2 ^ 31 <= b_size b < 2 ^ 31
  /\ 0 <= b_addr b < 2 ^ (8 * ptr_size (h_arch header))
  /\ - 2 ^ 31 <= b_sdna b < 2 ^ 31
  /\ - 2 ^ 31 <= b_count b < 2 ^ 31.

(** A data block with its bytes: a header that fits, that is neither the
    index nor the end marker, and that announces the size of the bytes. *)
Definition data_block (header : BlendFileHeader) (d : BlendBlockHeader * list byte) : Prop :=
  fits_header header (fst d)
  /\ b_code (fst d) <> DNA1 /\ b_code (fst d) <> ENDB
  /\ b_size (fst d) = Z.of_nat (length (snd d)).

(** The blocks one after the other, and the table of their headers with
    the positions of their bytes when the first header is at [pos]. *)
Definition blocks_bytes (header : BlendFileHeader) (ds : list (BlendBlockHeader * list byte))
  : list byte :=
  concat (map (fun d => encode_block header (fst d) ++ snd d) ds).

Fixpoint blocks_table (header : BlendFileHeader) (pos : nat)
    (ds : list (BlendBlockHeader * list byte)) : list (BlendBlockHeader * nat) :=
  match ds with
  | [] => []
  | (b, payload) :: rest =>
      let offset := (pos + Z.to_nat (16 + ptr_size (h_arch header)))%nat in
      (b, offset) :: blocks_table header (offset + length payload) rest
  end.

(** A file: the twelve bytes of the header, the data blocks, the index
    block, the end marker and whatever follows it. *)
Definition file_bytes (header : BlendFileHeader) (magic : list byte)
    (ds : list (BlendBlockHeader * list byte))
    (dna : BlendBlockHeader) (dna_bytes : list byte)
    (endb : BlendBlockHeader) (trailing : list byte) : list byte :=
  magic ++ blocks_bytes header ds
  ++ encode_block header dna ++ dna_bytes
  ++ encode_block header endb ++ trailing.

Module Disk.
Import Fixture.

(** The layout of an index: names, types, sizes and structures, each
    part after its tag and aligned on four bytes. *)
Definition names_bytes (l : list string) : list byte :=
  concat (map (fun n => list_byte_of_string n ++ ["000"%byte]) l).

Definition pad4 (b : list byte) : list byte :=
  b ++ repeat "000"%byte ((4 - length b mod 4) mod 4).

Definition index_bytes (e : BlendFileEndian) (index : BlendIndex) : list byte :=
  let part1 :=
    pad4 (list_byte_of_string "SDNANAME"
          ++ encode_int e 4 (Z.of_nat (length (field_names index)))
          ++ names_bytes (field_names index)) in
  let part2 :=
    pad4 (part1 ++ list_byte_of_string "TYPE"
          ++ encode_int e 4 (Z.of_nat (length (type_names index)))
          ++ names_bytes (type_names index)) in
  let part3 :=
    pad4 (part2 ++ list_byte_of_string "TLEN"
          ++ concat (map (encode_int e 2) (type_sizes index))) in
  part3 ++ list_byte_of_string "STRC"
  ++ encode_int e 4 (Z.of_nat (length (structures index)))
  ++ concat (map (fun s =>
                    encode_int e 2 (dna_index s)
                    ++ encode_int e 2 (Z.of_nat (length (dna_fields s)))
                    ++ concat (map (fun f : Z * Z =>
                                      encode_int e 2 (fst f) ++ encode_int e 2 (snd f))
                                   (dna_fields s)))
                 (structures index)).

(** The small file on disk: its data blocks, its index and the end. *)
Definition data_blocks : list (BlendBlockHeader * list byte) :=
  [(mkBlock DATA 24 4096 1 1, world1);
   (mkBlock DATA 24 4352 1 1, world2);
   (mkBlock DATA 24 8192 2 1, scene1);
   (mkBlock DATA 24 8448 2 1, scene2);
   (mkBlock DATA 16 12288 4 1, wrap1);
   (mkBlock DATA 24 16384 5 1, pads1)].

Definition dna_bytes : list byte := index_bytes Little index.

Definition dna_head : BlendBlockHeader :=
  mkBlock DNA1 (Z.of_nat (length dna_bytes)) 0 0 1.

Definition endb_head : BlendBlockHeader := mkBlock ENDB 0 0 0 0.

Definition content : list byte :=
  file_bytes header (list_byte_of_string "BLENDER-v277") data_blocks
    dna_head dna_bytes endb_head [].

End Disk.

(** ** The layout of an index *)

(** A name of the index as it can be written: ASCII characters, none of
    them the terminator. *)
Definition plain_name (s : string) : Prop :=
  Forall (fun b => 0 < byte_val b < 128) (list_byte_of_string s).

Definition int16 (z : Z) : Prop := - 2 ^ 15 <= z < 2 ^ 15.

(** An index whose counts and values fit their places in the layout, with
    one size per type. *)
Definition writable_index (index : BlendIndex) : Prop :=
  Forall plain_name (field_names index)
  /\ Forall plain_name (type_names index)
  /\ Z.of_nat (length (field_names index)) < 2 ^ 31
  /\ Z.of_nat (length (type_names index)) < 2 ^ 31
  /\ length (type_sizes index) = length (type_names index)
  /\ Forall int16 (type_sizes index)
  /\ Z.of_nat (length (structures index)) < 2 ^ 31
  /\ Forall (fun s => int16 (dna_index s)
                      /\ Z.of_nat (length (dna_fields s)) < 2 ^ 15
                      /\ Forall (fun f : Z * Z => int16 (fst f) /\ int16 (snd f))
                                (dna_fields s))
            (structures index).


Module Links.
Import Fixture.

(** [struct ID { ID *next; char name[8]; }],
    [struct Link { ID *owner; int x; }], whose one field of the type
    [ID] is a pointer,
    [struct Tag { ID id; int x; }],
    [struct Key { char in[4]; int n; short in[2]; }], whose first field
    has the name of a keyword, and
    [struct Slots { int n; Tag *slots[2]; }]. *)
Definition index : BlendIndex :=
  mkIndex
    ["*next"; "name[8]"; "*owner"; "x"; "id"; "in[4]"; "in[2]"; "n"; "*slots[2]"]
    ["char"; "int"; "ID"; "Link"; "Tag"; "Key"; "short"; "Slots"]
    [1; 4; 16; 12; 20; 12; 2; 20]
    [mkStructDNA 2 [(2, 0); (0, 1)];
     mkStructDNA 3 [(2, 2); (1, 3)];
     mkStructDNA 4 [(2, 4); (1, 3)];
     mkStructDNA 5 [(0, 5); (1, 7); (6, 6)];
     mkStructDNA 7 [(1, 7); (4, 8)]].

(** One link, one tag whose name fills its eight bytes and has no
    terminating zero, one key, and two slots: the address of the tag and
    a null pointer. *)
Definition link1 : list byte := le_bytes 8 0 ++ le_bytes 4 5.
Definition tag1 : list byte :=
  le_bytes 8 0 ++ list_byte_of_string "TGabcdef" ++ le_bytes 4 5.
Definition key1 : list byte :=
  list_byte_of_string "abcd" ++ le_bytes 4 7 ++ le_bytes 2 1 ++ le_bytes 2 2.
Definition slots1 : list byte := le_bytes 4 3 ++ le_bytes 8 8192 ++ le_bytes 8 0.

Definition handle : list byte :=
  list_byte_of_string "BLENDER-v277" ++ link1 ++ tag1 ++ key1 ++ slots1.

Definition blocks : list (BlendBlockHeader * nat) :=
  [(mkBlock DATA 12 4096 1 1, 12%nat);
   (mkBlock DATA 20 8192 2 1, 24%nat);
   (mkBlock DATA 12 12288 3 1, 44%nat);
   (mkBlock DATA 20 16384 4 1, 56%nat)].

Definition file : BlenderFile := mkFile header handle false blocks index.

(** [blend = BlenderFile(...)] in a fresh interpreter. *)
Definition w0 : world := snd (BlenderFile_init file empty_world).

Definition key_dna : BlendStructDNA := mkStructDNA 5 [(0, 5); (1, 7); (6, 6)].






End Links.


(*!DEFS-END*)

(* ===================================================================== *)
(** * Properties *)
(* ===================================================================== *)

Lemma mbind_lift_ok {A B} (a : A) (k : A -> M B) (w : world) :
  mbind (lift (Ok a)) k w = k a w.
Proof. reflexivity. Qed.

Lemma mbind_ok {A B} (c : M A) (k : A -> M B) (w w' : world) (a : A) :
  c w = (Ok a, w') -> mbind c k w = k a w'.
Proof. intros H. unfold mbind. rewrite H. reflexivity. Qed.

Lemma mbind_raise {A B} (c : M A) (k : A -> M B) (w w' : world) (e : exn) :
  c w = (Raise e, w') -> mbind c k w = (Raise e, w').
Proof. intros H. unfold mbind. rewrite H. reflexivity. Qed.

(** An outcome is known by its two parts. *)
Lemma outcome_eq {A} (c : result A * world) (r : result A) (w : world) :
  fst c = r -> snd c = w -> c = (r, w).
Proof. destruct c. simpl. congruence. Qed.

Lemma bytes_eqb_eq a b : bytes_eqb a b = true <-> a = b.
Proof.
  revert b; induction a as [|x a IH]; intros [|y b]; simpl; try easy.
  rewrite andb_true_iff, IH. unfold byte_eqb.
  split.
  - intros [H1 H2]. apply Byte.byte_dec_bl in H1. congruence.
  - intros H; injection H as -> ->. split; [apply Byte.byte_dec_lb|]; reflexivity.
Qed.

Example export_field_pointer_array :
  export_field X64 (mkIndex ["*mtex[18]"] ["MTex"] [296] []) 0 0
  = Ok (mkField "mtex" "MTex" 144 true 18).
Proof. reflexivity. Qed.

Example export_field_matrix :
  export_field X32 (mkIndex ["mat[4][4]"] ["float"] [4] []) 0 0
  = Ok (mkField "mat" "float" 64 false 16).
Proof. reflexivity. Qed.

Example template_first_array : template_first "mat4_0_16" = Some ("mat4", "16").
Proof. reflexivity. Qed.

Example template_first_scalar : template_first "aodist" = None.
Proof. reflexivity. Qed.

(* ===================================================================== *)
(** ** The header *)
(* ===================================================================== *)

Lemma byte_eqb_eq (a b : byte) : byte_eqb a b = true <-> a = b.
Proof.
  unfold byte_eqb. split.
  - apply Byte.byte_dec_bl.
  - apply Byte.byte_dec_lb.
Qed.

Lemma bytes_eqb_one (l : list byte) (b : byte) :
  bytes_eqb l [b] = true <-> l = [b].
Proof. apply bytes_eqb_eq. Qed.

Lemma parse_header_some (header : list byte) (hd : BlendFileHeader) :
  _parse_header header = Some hd <->
  exists a e d1 d2 d3,
    header = BLENDER ++ [a; e; d1; d2; d3]
    /\ is_arch_marker a (h_arch hd) /\ is_endian_marker e (h_endian hd)
    /\ h_version hd = mkVersion (byte_val d1 - 48) (byte_val d2 - 48) (byte_val d3 - 48).
Proof.
  unfold _parse_header. split.
  - destruct (length header =? 12)%nat eqn:Hlen; simpl; [|discriminate].
    apply Nat.eqb_eq in Hlen.
    do 13 (destruct header as [|? header]; try discriminate Hlen). clear Hlen.
    destruct (bytes_eqb _ BLENDER) eqn:Htag; simpl; [|discriminate].
    apply bytes_eqb_eq in Htag. unfold py_slice in Htag. simpl in Htag.
    change BLENDER with ["B"%byte; "L"%byte; "E"%byte; "N"%byte; "D"%byte;
                         "E"%byte; "R"%byte] in *.
    injection Htag as -> -> -> -> -> -> ->.
    unfold py_slice; simpl.
    destruct (byte_eqb b6 "-") eqn:Ha; simpl;
      [apply byte_eqb_eq in Ha; subst b6
      |destruct (byte_eqb b6 "_") eqn:Ha'; simpl;
       [apply byte_eqb_eq in Ha'; subst b6|discriminate]];
      (destruct (byte_eqb b7 "v") eqn:He; simpl;
       [apply byte_eqb_eq in He; subst b7
       |destruct (byte_eqb b7 "V") eqn:He'; simpl;
        [apply byte_eqb_eq in He'; subst b7|discriminate]]);
      intros [= <-]; eexists _, _, _, _, _;
      unfold is_arch_marker, is_endian_marker; simpl;
      (split; [reflexivity|]); tauto.
  - intros (a & e & d1 & d2 & d3 & -> & Ha & He & Hv).
    destruct hd as [v ar en]; simpl in *. subst v.
    destruct Ha as [[-> ->] | [-> ->]]; destruct He as [[-> ->] | [-> ->]];
      reflexivity.
Qed.

(** C5 (as amended): opening succeeds exactly when the first twelve bytes
    are the tag, one of the two architecture markers and one of the two
    byte-order markers, followed by any three bytes; the version is made
    of these three bytes minus 48 each, digits or not; every other prefix
    raises the import exception with the message of a bad header. *)
Theorem C5_open_header (file_bytes : list byte) :
  (forall hd, open_header file_bytes = Ok hd <->
     exists a e d1 d2 d3 rest,
       file_bytes = BLENDER ++ [a; e; d1; d2; d3] ++ rest
       /\ is_arch_marker a (h_arch hd) /\ is_endian_marker e (h_endian hd)
       /\ h_version hd
          = mkVersion (byte_val d1 - 48) (byte_val d2 - 48) (byte_val d3 - 48))
  /\ ((exists hd, open_header file_bytes = Ok hd)
      \/ open_header file_bytes = Raise (BlenderFileImportException "Bad file header")).
Proof.
  split.
  - intros hd. unfold open_header.
    destruct (_parse_header (take 12 file_bytes)) as [hd'|] eqn:Hp.
    + split.
      * intros [= ->]. apply parse_header_some in Hp.
        destruct Hp as (a & e & d1 & d2 & d3 & Htake & Ha & He & Hv).
        exists a, e, d1, d2, d3, (drop 12 file_bytes).
        repeat split; try assumption.
        rewrite <- (take_drop 12 file_bytes) at 1. rewrite Htake.
        rewrite <- app_assoc. reflexivity.
      * intros (a & e & d1 & d2 & d3 & rest & -> & Ha & He & Hv).
        f_equal.
        assert (Hs : _parse_header (take 12 (BLENDER ++ [a; e; d1; d2; d3] ++ rest)) = Some hd).
        { apply parse_header_some. exists a, e, d1, d2, d3. simpl. tauto. }
        congruence.
    + split; [discriminate|].
      intros (a & e & d1 & d2 & d3 & rest & -> & Ha & He & Hv).
      assert (Hs : _parse_header (take 12 (BLENDER ++ [a; e; d1; d2; d3] ++ rest)) = Some hd).
      { apply parse_header_some. exists a, e, d1, d2, d3. simpl. tauto. }
      congruence.
  - unfold open_header. destruct (_parse_header (take 12 file_bytes)); eauto.
Qed.

(** The claim of C5 fails on a header whose last three bytes are letters:
    the file opens, with the version (49, 50, 51). *)
Lemma C5_letters_accepted :
  open_header (list_byte_of_string "BLENDER-vabc")
  = Ok (mkHeader (mkVersion 49 50 51) X64 Little)
  /\ forallb is_ascii_digit (drop 9 (list_byte_of_string "BLENDER-vabc")) = false.
Proof. split; reflexivity. Qed.

Lemma C5_open_header_witness :
  open_header (list_byte_of_string "BLENDER_V280")
  = Ok (mkHeader (mkVersion 2 8 0) X32 Big).
Proof.
  apply (proj1 (C5_open_header (list_byte_of_string "BLENDER_V280"))).
  exists "_"%byte, "V"%byte, "2"%byte, "8"%byte, "0"%byte, [].
  unfold is_arch_marker, is_endian_marker. simpl. tauto.
Defined.

(* ===================================================================== *)
(** ** Equality of records *)
(* ===================================================================== *)

(** A record whose format has no names is equal to no record, itself
    included: the loop of [__eq__] keeps its initial [False]. *)
Lemma record_eq_no_names fuel cls f1 d1 f2 d2 w :
  ns_names (t_FMT cls) = [] ->
  record_eq fuel (VObject cls f1 d1) (VObject cls f2 d2) w = (Ok false, w).
Proof.
  intros H. unfold record_eq, BlenderObject_eq.
  rewrite Nat.eqb_refl. simpl. rewrite H. reflexivity.
Qed.

(** C1, at the failing input: the two worlds of the file have the same
    [aodist] and different [pad] (7 and 9), and [==] answers [True]; the
    comparisons of the fields are joined by [|=] from [False]. *)
Theorem C1_equal_with_a_different_field :
  fst (Scenario.worlds_equal Fixture.w0) = Ok true
  /\ fst (Scenario.worlds_pads Fixture.w0) = Ok (VInt 7, VInt 9).
Proof. split; vm_compute; reflexivity. Qed.

(** The other side of the same defect: a record without scalar fields is
    not equal to itself. *)
Lemma wrap_not_equal_to_itself :
  fst (Scenario.wrap_equal_itself Fixture.w0) = Ok false.
Proof. vm_compute; reflexivity. Qed.

(* ===================================================================== *)
(** ** The scan of the block table *)
(* ===================================================================== *)

Lemma scan_blocks_last found blocks ptr :
  scan_blocks found blocks ptr
  = match last (blocks_at blocks ptr) with
    | Some bo => Some bo
    | None => found
    end.
Proof.
  revert found. induction blocks as [|[b o] rest IH]; intros found; simpl.
  - reflexivity.
  - rewrite IH. unfold blocks_at. simpl.
    destruct (b_addr b =? ptr) eqn:E.
    + fold (blocks_at rest ptr).
      destruct (blocks_at rest ptr) as [|x l] eqn:Hr.
      * reflexivity.
      * rewrite last_cons_cons.
        destruct (last (x :: l)) eqn:Hl; [reflexivity|].
        apply last_None in Hl. discriminate Hl.
    + reflexivity.
Qed.

(** C2 (as amended): for every address, the block table is scanned in
    file order to its end and the block that is decoded is the LAST one
    recorded at that address; when no block is recorded there, the call
    fails with the read exception whose message names the address. *)
Theorem C2_from_address_last_match (fuel fid : nat) (self : BlenderFile) (ptr : Z) (w : world) :
  _from_address fuel fid self ptr w
  = match last (blocks_at (bf_blocks self) ptr) with
    | Some (block, offset) => decode_block fuel fid self block offset w
    | None =>
        (Raise (BlenderFileReadException
                  ("Cannot find the address " +:+ py_hex ptr +:+ " in the blend file")), w)
    end.
Proof.
  unfold _from_address. rewrite scan_blocks_last.
  destruct (last (blocks_at (bf_blocks self) ptr)) as [[b o]|]; reflexivity.
Qed.

(** The claim of C2 fails when two blocks share an address: the first
    block recorded at 4096 is the one at offset 12, and the record that
    comes back is the one decoded from the block at offset 36. *)
Lemma C2_second_of_two_blocks_decoded :
  head (blocks_at (bf_blocks Fixture.file_dup) 4096)
  = Some (mkBlock Fixture.DATA 24 4096 1 1, 12%nat)
  /\ fst (_from_address Fixture.fuel Fixture.fid Fixture.file_dup 4096 Fixture.w0)
     = fst (decode_block Fixture.fuel Fixture.fid Fixture.file_dup
              (mkBlock Fixture.DATA 24 4096 1 1) 36 Fixture.w0)
  /\ fst (_from_address Fixture.fuel Fixture.fid Fixture.file_dup 4096 Fixture.w0)
     <> fst (decode_block Fixture.fuel Fixture.fid Fixture.file_dup
               (mkBlock Fixture.DATA 24 4096 1 1) 12 Fixture.w0).
Proof.
  split; [reflexivity|]. split.
  - vm_compute; reflexivity.
  - vm_compute. intros H. discriminate H.
Qed.

(* ===================================================================== *)
(** ** Closing the file *)
(* ===================================================================== *)

(** C3, at the failing input: after [close()] the factory still follows
    its weak reference to the file object, which is alive; [len] answers
    from the block table (2 worlds) and the iteration and the lookup by
    name fail in the closed handle with a [ValueError], where the
    docstring of the factory announces a [RuntimeError]. *)
Theorem C3_closed_file_is_still_read :
  fst (Scenario.len_after_close Fixture.w0) = Ok 2
  /\ fst (Scenario.iter_after_close Fixture.w0) = Raise (ValueError "seek of closed file")
  /\ fst (Scenario.find_after_close Fixture.w0) = Raise (ValueError "seek of closed file").
Proof. repeat split; vm_compute; reflexivity. Qed.

(** What the docstring describes happens when the file object is freed. *)
Lemma freed_file_raises (self : BlenderObjectFactory) (w : world) :
  files w !! _file_ref self = None ->
  Factory_len self w = (Raise (RuntimeError "Parent blend file was freed"), w)
  /\ Factory_iter self w = (Raise (RuntimeError "Parent blend file was freed"), w).
Proof.
  intros H. unfold Factory_len, Factory_iter, Factory_file, deref_file, mbind.
  rewrite H. split; reflexivity.
Qed.

(* ===================================================================== *)
(** ** Pointer fields *)
(* ===================================================================== *)

(** C4, at the failing input: the second scene stores the address 0 in
    [world]; read first, the field is [None]; read after the [world] of
    the first scene, it is the record that the first read resolved. *)
Theorem C4_null_pointer_after_a_resolved_one :
  fst (Scenario.null_pointer_stored Fixture.w0) = Ok (VInt 0)
  /\ fst (Scenario.null_pointer_first Fixture.w0) = Ok VNone
  /\ exists cls file attrs,
       fst (Scenario.null_pointer_second Fixture.w0) = Ok (VObject cls file attrs)
       /\ t_name cls = "World".
Proof.
  split; [vm_compute; reflexivity|]. split; [vm_compute; reflexivity|].
  eexists _, _, _. split; vm_compute; reflexivity.
Qed.

Lemma str_in_In (s : string) (l : list string) : str_in s l = true <-> In s l.
Proof.
  unfold str_in. rewrite existsb_exists. split.
  - intros (x & Hx & E). apply String.eqb_eq in E. subst. assumption.
  - intros H. exists s. split; [assumption|apply String.eqb_refl].
Qed.

(** The descriptors of a class that was just built are bound to the names
    of its pointer fields. *)
Lemma new_class_lookups name version FMT CLASSES lookups w cls w' :
  new_class name version FMT CLASSES lookups w = (Ok cls, w') ->
  t_lookups cls = lookups.
Proof. unfold new_class. intros [= <- _]. reflexivity. Qed.

(** C10: on every record, assigning to a pointer field (a name that the
    class of the record binds to an [AddressLookup] descriptor) raises
    [AttributeError], deleting it raises [AttributeError], and the
    record after the call is the record before it. *)
Theorem C10_pointer_fields_read_only
    (cls : ObjType) (file : nat) (attrs : pydict) (name : string) (value : pyval) :
  In name (t_lookups cls) ->
  py_setattr (VObject cls file attrs) name value
  = (Raise (AttributeError "Attribute cannot be setted"), VObject cls file attrs)
  /\ py_delattr (VObject cls file attrs) name
     = (Raise (AttributeError "Attribute cannot be deleted"), VObject cls file attrs).
Proof.
  intros H. apply str_in_In in H. unfold py_setattr, py_delattr, obj_setattr.
  rewrite H. split; reflexivity.
Qed.

Lemma C10_pointer_fields_read_only_witness :
  py_setattr Records.scene1 "world" (VInt 0)
  = (Raise (AttributeError "Attribute cannot be setted"), Records.scene1)
  /\ py_delattr Records.scene1 "world"
     = (Raise (AttributeError "Attribute cannot be deleted"), Records.scene1).
Proof.
  unfold Records.scene1.
  apply C10_pointer_fields_read_only. simpl. left. reflexivity.
Defined.

(* ===================================================================== *)
(** ** Compiling the fields: [_export_struct] *)
(* ===================================================================== *)

Lemma uint_of_char_digit (c : ascii) (d : Decimal.uint) :
  is_digit c = true ->
  exists d', DecimalString.uint_of_char c (Some d) = Some d'.
Proof.
  destruct c as [[] [] [] [] [] [] [] []]; intros H;
    try discriminate H; eexists; reflexivity.
Qed.

Lemma uint_of_string_digits (s : string) :
  all_digits s = true ->
  exists u, DecimalString.NilEmpty.uint_of_string s = Some u.
Proof.
  induction s as [|c s IH]; simpl; intros H.
  - eexists; reflexivity.
  - apply andb_true_iff in H as [Hc Hs].
    destruct (IH Hs) as [u ->]. apply uint_of_char_digit. assumption.
Qed.

Lemma py_int_digits (s : string) :
  all_digits s = true -> s <> EmptyString ->
  py_int s = Ok (digits_value s).
Proof.
  intros H Hne. unfold py_int, digits_value.
  destruct (uint_of_string_digits s H) as [u ->].
  destruct s; [congruence|reflexivity].
Qed.

Lemma all_digits_app (s : string) (c : ascii) :
  all_digits s = true -> is_digit c = true ->
  all_digits (s +:+ String c EmptyString) = true.
Proof.
  induction s as [|d s IH]; simpl; intros H Hc.
  - rewrite Hc. reflexivity.
  - apply andb_true_iff in H as [Hd Hs]. rewrite Hd. simpl. auto.
Qed.

(** Every group captured by [array_template] is a run of digits. *)
Lemma array_template_scan_digits (s : string) (st : option string) :
  (forall ds, st = Some ds -> all_digits ds = true) ->
  Forall (fun v => all_digits v = true /\ v <> EmptyString)
         (array_template_scan st s).
Proof.
  revert st. induction s as [|c s IH]; intros st Hst; simpl.
  - constructor.
  - destruct st as [ds|].
    + destruct (is_digit c) eqn:Hc.
      * apply IH. intros ds' [= <-]. apply all_digits_app; auto.
      * destruct (Ascii.eqb c "]" && negb (String.eqb ds EmptyString)) eqn:Hb.
        -- apply andb_true_iff in Hb as [_ Hne]. constructor.
           ++ split; [auto|]. intros ->. discriminate Hne.
           ++ apply IH. discriminate.
        -- destruct (Ascii.eqb c "["); apply IH; try discriminate.
           intros ds' [= <-]. reflexivity.
    + destruct (Ascii.eqb c "["); apply IH; try discriminate.
      intros ds' [= <-]. reflexivity.
Qed.

Lemma dims_product_ok (vs : list string) (count : Z) :
  Forall (fun v => all_digits v = true /\ v <> EmptyString) vs ->
  dims_product count vs = Ok (fold_left Z.mul (map digits_value vs) count).
Proof.
  revert count. induction vs as [|v vs IH]; intros count H; simpl.
  - reflexivity.
  - inversion H as [|? ? [Hd Hne] Hrest]; subst.
    rewrite (py_int_digits v Hd Hne). simpl. apply IH. assumption.
Qed.

Lemma dims_product_dimensions (name : string) :
  dims_product 1 (array_template_findall name) = Ok (product (dimensions name)).
Proof.
  unfold product, dimensions. apply dims_product_ok.
  apply array_template_scan_digits. discriminate.
Qed.

Lemma findall_lstrip_star (name : string) :
  array_template_findall (lstrip_star name) = array_template_findall name.
Proof.
  unfold array_template_findall.
  induction name as [|c s IH]; simpl; [reflexivity|].
  destruct (Ascii.eqb c "*") eqn:E.
  - apply Ascii.eqb_eq in E. subst c. simpl. assumption.
  - reflexivity.
Qed.

Lemma str_last_nonempty (c : ascii) (s : string) :
  exists c', str_last (String c s) = Ok c'.
Proof.
  revert c. induction s as [|d s IH]; intros c.
  - eexists; reflexivity.
  - destruct (IH d) as [c' Hc']. exists c'. simpl in *. assumption.
Qed.

(** C6 (as amended): for a field of the index whose raw name starts with
    the pointer sigil, [_export_struct] fails with [ValueError] when the
    name ends with a closing bracket and has no opening bracket.
    Otherwise the compiled field has is-pointer true, the declared type
    and a size that is the pointer width of the architecture times its
    arity, whatever the size of the declared type.  When the name ends
    with a bracket, the arity is the product of the bracketed dimensions
    of the name and the name of the field is the raw name without the
    leading sigils, cut at the first bracket; when it does not, the
    arity is 1 and the name is the raw name without the leading
    sigils. *)
Theorem C6_pointer_field (arch : BlendFileArch) (index : BlendIndex) (ftype fname : Z)
    (name _type : string) (size : Z) :
  py_index (field_names index) fname = Ok name ->
  py_index (type_names index) ftype = Ok _type ->
  py_index (type_sizes index) ftype = Ok size ->
  str_first name = Ok "*"%char ->
  if ends_with_bracket name && negb (is_ok (str_index "[" (lstrip_star name)))
  then export_field arch index ftype fname = Raise (ValueError "substring not found")
  else
    exists f,
      export_field arch index ftype fname = Ok f
      /\ f_ptr f = true
      /\ f_type f = _type
      /\ f_size f = ptr_size arch * f_count f
      /\ if ends_with_bracket name
         then f_count f = product (dimensions name)
              /\ exists k, str_index "[" (lstrip_star name) = Ok k
                           /\ f_name f = str_take k (lstrip_star name)
         else f_count f = 1 /\ f_name f = lstrip_star name.
Proof.
  intros Hn Ht Hs Hfirst. unfold export_field.
  rewrite Hn; cbn [rbind]. rewrite Ht; cbn [rbind]. rewrite Hs; cbn [rbind].
  rewrite Hfirst; cbn [rbind]. rewrite Ascii.eqb_refl.
  unfold ends_with_bracket in *.
  destruct (str_last name) as [cl|e] eqn:Hl; cbn [rbind].
  - destruct (Ascii.eqb cl "]") eqn:Hb; cbn [andb].
    + rewrite findall_lstrip_star, dims_product_dimensions. cbn [rbind].
      destruct (str_index "[" (lstrip_star name)) as [k|e] eqn:Hk; cbn [is_ok negb rbind].
      * eexists. split; [reflexivity|]. cbn [f_ptr f_type f_size f_count f_name].
        repeat split; try lia. exists k. split; reflexivity.
      * f_equal. revert Hk. generalize (lstrip_star name) as s. clear.
        induction s as [|d s IH]; cbn [str_index]; [congruence|].
        destruct (Ascii.eqb d "["); [discriminate|].
        destruct (str_index "[" s) as [i|e']; cbn [rbind]; [discriminate|].
        intros [= <-]. apply IH. reflexivity.
    + eexists. split; [reflexivity|]. cbn [f_ptr f_type f_size f_count f_name].
      repeat split; lia.
  - destruct name as [|c s]; [discriminate Hfirst|].
    destruct (str_last_nonempty c s) as [c' Hc']. congruence.
Qed.

(** The claim of C6 fails on an array of pointers: [MTex *mtex[18]] on a
    64-bit file has arity 18 and size 144, not arity 1 and size 8. *)
Lemma C6_pointer_array_keeps_its_dimensions :
  exists f,
    export_field X64 (mkIndex ["*mtex[18]"] ["MTex"] [296] []) 0 0 = Ok f
    /\ f_ptr f = true /\ f_count f <> 1 /\ f_size f <> ptr_size X64.
Proof.
  eexists. split; [reflexivity|]. simpl. repeat split; discriminate.
Qed.

Lemma C6_pointer_field_witness :
  (exists f,
      export_field X64 (mkIndex ["*mtex[18]"] ["MTex"] [296] []) 0 0 = Ok f
      /\ f_ptr f = true
      /\ f_type f = "MTex"
      /\ f_size f = 8 * f_count f
      /\ f_count f = 18
      /\ exists k, str_index "[" "mtex[18]" = Ok k /\ f_name f = str_take k "mtex[18]")
  /\ export_field X32 (mkIndex ["*p]"] ["MTex"] [296] []) 0 0
     = Raise (ValueError "substring not found").
Proof.
  split.
  - apply (C6_pointer_field X64 (mkIndex ["*mtex[18]"] ["MTex"] [296] []) 0 0
             "*mtex[18]" "MTex" 296); reflexivity.
  - apply (C6_pointer_field X32 (mkIndex ["*p]"] ["MTex"] [296] []) 0 0
             "*p]" "MTex" 296); reflexivity.
Defined.

(* ===================================================================== *)
(** ** Lookup by name *)
(* ===================================================================== *)

Lemma getattr_identity_name (fuel : nat) (obj : pyval) (b : list byte) (w : world) :
  identity_name obj = Some b ->
  exists idv,
    getattr (S fuel) obj "id" w = (Ok idv, w)
    /\ getattr (S fuel) idv "name" w = (Ok (VBytes b), w).
Proof.
  unfold identity_name. destruct obj as [| | | | | | | |cls f attrs]; try discriminate.
  destruct (str_in "id" (t_lookups cls)) eqn:Hid; [discriminate|].
  destruct (dict_get attrs "id") as [[| | | | | | | |cls' f' attrs']|] eqn:Hget;
    try discriminate.
  destruct (str_in "name" (t_lookups cls')) eqn:Hname; [discriminate|].
  destruct (dict_get attrs' "name") as [[| | |b'| | | | |]|] eqn:Hget'; try discriminate.
  intros [= ->]. exists (VObject cls' f' attrs'). split.
  - simpl. rewrite Hid, Hget. reflexivity.
  - simpl. rewrite Hname, Hget'. reflexivity.
Qed.

Lemma name_matches_other (b : list byte) (name : string) :
  other_name b name -> name_matches (VBytes b) (encode name) = Ok false.
Proof.
  intros (i & Hi & Hne). unfold name_matches. rewrite Hi. f_equal.
  destruct (bytes_eqb (py_slice 2 i b) (encode name)) eqn:E; [|reflexivity].
  apply bytes_eqb_eq in E. contradiction.
Qed.


(* ===================================================================== *)
(** ** Decimal text *)
(* ===================================================================== *)

Lemma string_of_uint_digits (d : Decimal.uint) :
  all_digits (DecimalString.NilEmpty.string_of_uint d) = true.
Proof. induction d; simpl; auto. Qed.

Lemma py_str_uint (n : Z) :
  0 <= n ->
  exists d, d <> Decimal.Nil /\ Z.to_int n = Decimal.Pos d
            /\ py_str n = DecimalString.NilEmpty.string_of_uint d.
Proof.
  intros H. destruct n as [|p|p]; [| |lia].
  - exists (Decimal.D0 Decimal.Nil). repeat split. discriminate.
  - exists (Pos.to_uint p). repeat split. apply DecimalPos.Unsigned.to_uint_nonnil.
Qed.

Lemma py_str_digits (n : Z) :
  0 <= n -> all_digits (py_str n) = true /\ py_str n <> EmptyString.
Proof.
  intros H. destruct (py_str_uint n H) as (d & Hd & _ & ->). split.
  - apply string_of_uint_digits.
  - destruct d; simpl; congruence.
Qed.

Lemma py_int_py_str (n : Z) : 0 <= n -> py_int (py_str n) = Ok n.
Proof.
  intros H. destruct (py_str_digits n H) as [Hd Hne].
  rewrite (py_int_digits _ Hd Hne). f_equal. unfold digits_value.
  destruct (py_str_uint n H) as (d & _ & Hto & ->).
  rewrite DecimalString.NilEmpty.usu.
  pose proof (DecimalZ.of_to n) as Hz. rewrite Hto in Hz. exact Hz.
Qed.

(* ===================================================================== *)
(** ** The template of the generated names *)
(* ===================================================================== *)












(* ===================================================================== *)
(** ** The names and the values of one field *)
(* ===================================================================== *)









(* ===================================================================== *)
(** ** [_set_fields], one field at a time *)
(* ===================================================================== *)


Lemma py_range_length (n : Z) : length (py_range n) = Z.to_nat n.
Proof. unfold py_range. rewrite length_map, length_seq. reflexivity. Qed.





(* ===================================================================== *)
(** ** The values of a format, one field at a time *)
(* ===================================================================== *)

Lemma unpack_repeat_spec (n w : nat) dec (data : list byte) :
  length (fst (unpack_repeat n w dec data)) = n
  /\ snd (unpack_repeat n w dec data) = drop (n * w) data.
Proof.
  revert data. induction n as [|n IH]; intros data; simpl.
  - split; reflexivity.
  - destruct (IH (drop w data)) as [Hl Hr].
    destruct (unpack_repeat n w dec (drop w data)) as [vs r]. simpl in *.
    split; [congruence|]. rewrite Hr, drop_drop. reflexivity.
Qed.

Lemma unpack_items_cons e (n : Z) (c : fmt_code) rest (data : list byte) :
  0 <= n ->
  unpack_items e ((n, c) :: rest) data
  = unpack_items e [(n, c)] data
    ++ unpack_items e rest (drop (Z.to_nat (n * code_width c)) data).
Proof.
  intros Hn.
  assert (Hw : 0 <= code_width c) by (destruct c; simpl; lia).
  assert (Hmul : Z.to_nat (n * code_width c)
                 = (Z.to_nat n * Z.to_nat (code_width c))%nat) by (apply Z2Nat.inj_mul; lia).
  assert (Hgen :
    (let '(vs, r) := unpack_repeat (Z.to_nat n) (Z.to_nat (code_width c))
                       (decode_code e c) data in vs ++ unpack_items e rest r)
    = (let '(vs, r) := unpack_repeat (Z.to_nat n) (Z.to_nat (code_width c))
                         (decode_code e c) data in vs ++ unpack_items e [] r)
      ++ unpack_items e rest (drop (Z.to_nat (n * code_width c)) data)).
  { destruct (unpack_repeat_spec (Z.to_nat n) (Z.to_nat (code_width c))
                (decode_code e c) data) as [_ Hr].
    destruct (unpack_repeat _ _ _ data) as [vs r]. simpl in *.
    rewrite app_nil_r, Hr, Hmul. reflexivity. }
  destruct c; cbn [unpack_items]; try exact Hgen;
    cbn [code_width]; rewrite Z.mul_1_r; simpl; reflexivity.
Qed.



Lemma base_type_code (t : string) (code : fmt_code) :
  _BASE_TYPES t = Some code ->
  code <> Cx /\ code <> Cs /\ code <> CP
  /\ (String.eqb t "char" = true <-> code = Cc).
Proof.
  unfold _BASE_TYPES. intros H.
  destruct (String.eqb t "char") eqn:Hc.
  - apply String.eqb_eq in Hc. subst t. simpl in H. injection H as <-.
    repeat split; discriminate.
  - repeat match type of H with
           | context [String.eqb t ?s] => destruct (String.eqb t s)
           end;
      try discriminate H; injection H as <-;
      repeat split; try discriminate; intros X; discriminate X.
Qed.






(* ===================================================================== *)
(** ** Where the value of a field ends up *)
(* ===================================================================== *)

Lemma dict_get_set_eq (d : pydict) (k : string) (v : pyval) :
  dict_get (dict_set d k v) k = Some v.
Proof.
  induction d as [|[k' v'] d IH]; simpl.
  - rewrite String.eqb_refl. reflexivity.
  - destruct (String.eqb k' k) eqn:E; simpl.
    + rewrite String.eqb_refl. reflexivity.
    + rewrite E. exact IH.
Qed.

Lemma dict_get_set_ne (d : pydict) (k k' : string) (v : pyval) :
  k <> k' -> dict_get (dict_set d k v) k' = dict_get d k'.
Proof.
  intros Hne. induction d as [|[k0 v0] d IH]; simpl.
  - destruct (String.eqb k k') eqn:E; [apply String.eqb_eq in E; contradiction|reflexivity].
  - destruct (String.eqb k0 k) eqn:E; simpl.
    + apply String.eqb_eq in E. subst k0.
      destruct (String.eqb k k') eqn:E'; [apply String.eqb_eq in E'; contradiction|reflexivity].
    + destruct (String.eqb k0 k'); [reflexivity|exact IH].
Qed.

Lemma obj_setattr_ok lookups d name v d' :
  obj_setattr lookups d name v = Ok d' ->
  d' = dict_set d name v /\ str_in name lookups = false /\ String.eqb name "file" = false.
Proof.
  unfold obj_setattr, AddressLookup_set.
  destruct (str_in name lookups); [discriminate|].
  destruct (String.eqb name "file"); [discriminate|].
  intros [= <-]. auto.
Qed.








Lemma getattr_instance (fuel : nat) cls file attrs (name : string) (v : pyval) (w : world) :
  str_in name (t_lookups cls) = false ->
  String.eqb name "file" = false ->
  dict_get attrs name = Some v ->
  getattr (S fuel) (VObject cls file attrs) name w = (Ok v, w).
Proof. intros H1 H2 H3. simpl. rewrite H1, H2, H3. reflexivity. Qed.



(* ===================================================================== *)
(** ** Array fields, from the schema to the record *)
(* ===================================================================== *)



(* ===================================================================== *)
(** ** The shape of a class does not depend on the cache *)
(* ===================================================================== *)






Lemma mbind_inv {A B} (c : M A) (k : A -> M B) (w w' : world) (b : B) :
  mbind c k w = (Ok b, w') ->
  exists a w1, c w = (Ok a, w1) /\ k a w1 = (Ok b, w').
Proof.
  unfold mbind. destruct (c w) as [[a|e] w1]; [|discriminate].
  intros H. exists a, w1. auto.
Qed.

Lemma lift_inv {A} (r : result A) (w w' : world) (a : A) :
  lift r w = (Ok a, w') -> r = Ok a /\ w' = w.
Proof. unfold lift. intros [= -> ->]. auto. Qed.

Lemma ret_inv {A} (x a : A) (w w' : world) :
  ret x w = (Ok a, w') -> a = x /\ w' = w.
Proof. unfold ret. intros [= -> ->]. auto. Qed.

Lemma shape_deps_app ds1 ds2 : shape_deps (ds1 ++ ds2) = shape_deps ds1 ++ shape_deps ds2.
Proof. unfold shape_deps. apply map_app. Qed.







(* ===================================================================== *)
(** ** Decoding with a class and with its shape *)
(* ===================================================================== *)
















(* ===================================================================== *)
(** ** The cache of factories *)
(* ===================================================================== *)



Lemma list_hit (fuel fid : nat) (self : BlenderFile) (name : string) (w : world) (id : nat) :
  live_factory w (version_key (h_version (bf_header self))) name = Some id ->
  BlenderFile_list fuel fid self name w = (Ok id, w).
Proof.
  unfold live_factory, BlenderFile_list.
  destruct (FACTORY_CACHE w !! version_key (h_version (bf_header self))) as [cached|];
    [|discriminate].
  cbn. intros ->. reflexivity.
Qed.

(** What a call of [list] that finds no live factory does. *)
Lemma list_miss (fuel fid : nat) (self : BlenderFile) (name : string) (w w' : world) (id : nat) :
  live_factory w (version_key (h_version (bf_header self))) name = None ->
  BlenderFile_list fuel fid self name w = (Ok id, w') ->
  exists cached i f w1,
    FACTORY_CACHE w !! version_key (h_version (bf_header self)) = Some cached
    /\ list_index (type_names (bf_index self)) name = Some i
    /\ BlenderObjectFactory_init fuel fid self i w = (Ok f, w1)
    /\ id = next_id w1
    /\ w' = set_FACTORY_CACHE
              (<[version_key (h_version (bf_header self)) := <[name := id]> cached]>
                 (FACTORY_CACHE w1))
              (set_next_id (S id) (set_factories (<[id := f]> (factories w1)) w1)).
Proof.
  unfold live_factory, BlenderFile_list.
  destruct (FACTORY_CACHE w !! version_key (h_version (bf_header self))) as [cached|];
    [|discriminate].
  cbn. intros ->.
  destruct (list_index (type_names (bf_index self)) name) as [i|]; [|discriminate].
  destruct (BlenderObjectFactory_init fuel fid self i w) as [[f|e] w1] eqn:Hinit.
  - intros [= <- <-]. exists cached, i, f, w1. auto.
  - destruct e; discriminate.
Qed.













(** Dropping a factory and collecting classes is a collection in the
    sense of [collected], in any world. *)
Lemma drop_and_collect_collected (id a b : nat) (w : world) :
  collected id w (collect_class a (collect_class b (drop_factory id w))).
Proof.
  unfold collected, collect_class, drop_factory, set_classes, set_factories.
  destruct w as [fl cl fa oc fc lv nx]. cbn.
  split; [reflexivity|]. split; [reflexivity|]. split; [reflexivity|].
  split; [reflexivity|]. split.
  - apply lookup_delete_eq.
  - intros i t H.
    apply lookup_delete_Some in H as [_ H]. apply lookup_delete_Some in H as [_ H].
    exact H.
Qed.

(** The scenario of the collection, run: the factory 3 and the classes 1
    and 2 are freed, the next [list('World')] returns the new factory 6,
    and the worlds that it decodes are value-equal to the worlds of the
    first factory. *)
Lemma relisted_worlds_value_equal :
  collected 3 Records.w_worlds Records.w_collected
  /\ fst Records.relisted_worlds = Ok 6%nat
  /\ result_map (map shape_value)
       (fst ((do* f := Scenario.factory_of 6 in Factory_iter f)
               (snd Records.relisted_worlds)))
     = result_map (map shape_value)
         (fst (Factory_iter Records.worlds Records.w_worlds)).
Proof.
  split; [apply drop_and_collect_collected|].
  split; vm_compute; reflexivity.
Qed.

(* ===================================================================== *)
(** ** Array fields, from the class to the record *)
(* ===================================================================== *)







(** Without the names kept there is no such attribute:
    [struct Key { char in[4]; int n; short in[2]; }] has a first field
    with the name of a keyword, which [namedtuple] renames: the class has
    the names [_0], [n], [in_0_2] and [in_1_2], the characters are stored
    under [_0], and the attribute [in] is the array of the third field. *)
Lemma keyword_name_is_renamed :
  exists cls w1 obj,
    _build_object_type Fixture.fuel Links.file Links.key_dna Links.w0 = (Ok cls, w1)
    /\ ns_names (t_FMT cls) = ["_0"; "n"; "in_0_2"; "in_1_2"]
    /\ BlenderObject_new cls 0 Links.key1 = Ok obj
    /\ fst (getattr 1 obj "_0" w1) = Ok (VBytes (list_byte_of_string "abcd"))
    /\ fst (getattr 1 obj "in" w1) = Ok (VTuple [VInt 1; VInt 2]).
Proof.
  eexists _, _, _. split; [apply outcome_eq; vm_compute; reflexivity|].
  split; [reflexivity|]. split; [vm_compute; reflexivity|].
  split; vm_compute; reflexivity.
Qed.


(* ===================================================================== *)
(** ** Lookup by name, from the structure to the exception *)
(* ===================================================================== *)






(* ===================================================================== *)
(** * Further properties of the code *)
(* ===================================================================== *)

(** ** Counting and iterating *)

Lemma count_blocks_from (self : BlenderObjectFactory)
    (blocks : list (BlendBlockHeader * nat)) (acc : Z) :
  fold_left (fun count (bo : BlendBlockHeader * nat) =>
               count + (if b_sdna (fst bo) =? sdna_index self then 1 else 0)) blocks acc
  = acc + Z.of_nat (length (List.filter (fun bo => b_sdna (fst bo) =? sdna_index self)
                                        blocks)).
Proof.
  revert acc. induction blocks as [|[b o] blocks IH]; intros acc.
  - simpl. lia.
  - cbn [fold_left List.filter fst]. rewrite IH.
    destruct (b_sdna b =? sdna_index self); cbn [length]; lia.
Qed.

Lemma iter_blocks_length (self : BlenderObjectFactory) (file : BlenderFile)
    (blocks : list (BlendBlockHeader * nat)) (objs : list pyval) :
  iter_blocks self file blocks = Ok objs ->
  length objs
  = length (List.filter (fun bo => b_sdna (fst bo) =? sdna_index self) blocks).
Proof.
  revert objs. induction blocks as [|[b o] blocks IH]; intros objs H.
  - injection H as <-. reflexivity.
  - cbn [iter_blocks List.filter fst] in *.
    destruct (b_sdna b =? sdna_index self).
    + destruct (_read_block file b o) as [data|]; [|discriminate].
      cbn [rbind] in H.
      destruct (BlenderObject_new _ _ data) as [obj|]; [|discriminate].
      cbn [rbind] in H.
      destruct (iter_blocks self file blocks) as [objs'|]; [|discriminate].
      injection H as <-. cbn [length]. f_equal. apply IH. reflexivity.
    + apply IH, H.
Qed.

(** X1: [len(factory)] is the number of records that iterating the
    factory yields: when [list(factory)] succeeds with [objs], the count is
    [len(objs)], and neither call changes anything. *)
Theorem len_is_the_number_of_records (self : BlenderObjectFactory) (w w' : world)
    (objs : list pyval) :
  Factory_iter self w = (Ok objs, w') ->
  w' = w /\ Factory_len self w = (Ok (Z.of_nat (length objs)), w).
Proof.
  unfold Factory_iter, Factory_len, Factory_file, deref_file, mbind, lift, ret.
  destruct (files w !! _file_ref self) as [file|]; [|discriminate].
  intros H.
  destruct (iter_blocks self file (bf_blocks file)) as [objs'|] eqn:E; [|discriminate].
  injection H as -> <-. split; [reflexivity|].
  rewrite count_blocks_from, (iter_blocks_length _ _ _ _ E). reflexivity.
Qed.

Lemma len_is_the_number_of_records_witness :
  Records.w_worlds = Records.w_worlds
  /\ Factory_len Records.worlds Records.w_worlds
     = (Ok (Z.of_nat (length Runs.world_records)), Records.w_worlds).
Proof.
  apply (len_is_the_number_of_records Records.worlds Records.w_worlds Records.w_worlds
           Runs.world_records).
  apply outcome_eq; vm_compute; reflexivity.
Defined.

(** ** The factory cache across files *)

Lemma live_factory_stored (w : world) fc (version : Z * Z * Z) (name : string)
    (cached : gmap string nat) (id : nat) (f : BlenderObjectFactory) :
  live_factory
    (set_FACTORY_CACHE (<[version := <[name := id]> cached]> fc)
       (set_next_id (S id) (set_factories (<[id := f]> (factories w)) w)))
    version name = Some id.
Proof.
  unfold live_factory, set_FACTORY_CACHE, set_next_id, set_factories. cbn.
  rewrite lookup_insert_eq. cbn. rewrite lookup_insert_eq. cbn.
  rewrite lookup_insert_eq. reflexivity.
Qed.

(** X2: The factory cache is keyed by the version alone, not by the
    file: once [a.list(name)] has built a factory, [b.list(name)] on any
    other file object [b] of the same version returns that same factory,
    which reads the file [a], whatever [b] contains, and builds nothing. *)
Theorem list_shares_factories_between_files (fuel1 fuel2 fid1 fid2 : nat)
    (self1 self2 : BlenderFile) (name : string) (w w1 : world) (id : nat) :
  h_version (bf_header self2) = h_version (bf_header self1) ->
  live_factory w (version_key (h_version (bf_header self1))) name = None ->
  BlenderFile_list fuel1 fid1 self1 name w = (Ok id, w1) ->
  BlenderFile_list fuel2 fid2 self2 name w1 = (Ok id, w1)
  /\ exists f, factories w1 !! id = Some f /\ _file_ref f = fid1.
Proof.
  intros Hv Hmiss Hlist.
  destruct (list_miss _ _ _ _ _ _ _ Hmiss Hlist)
    as (cached & i & f & w' & Hc & Hi & Hinit & -> & ->).
  split.
  - apply list_hit. rewrite Hv. apply live_factory_stored.
  - exists f. split.
    + unfold set_FACTORY_CACHE, set_next_id, set_factories. cbn.
      apply lookup_insert_eq.
    + unfold BlenderObjectFactory_init in Hinit.
      destruct (find_struct 0 (structures (bf_index self1)) i) as [[idx sd]|];
        [|discriminate].
      apply mbind_inv in Hinit as (hn & wa & _ & Hinit).
      apply mbind_inv in Hinit as (t & wb & _ & Hinit).
      apply mbind_inv in Hinit as (on & wc & _ & Hinit).
      apply ret_inv in Hinit as [-> _]. reflexivity.
Qed.

Lemma list_shares_factories_between_files_witness :
  BlenderFile_list 0 1 Runs.second_file "World" Records.w_worlds
  = (Ok 3%nat, Records.w_worlds)
  /\ exists f, factories Records.w_worlds !! 3%nat = Some f /\ _file_ref f = Fixture.fid.
Proof.
  apply (list_shares_factories_between_files Fixture.fuel 0 Fixture.fid 1
           Fixture.file Runs.second_file "World" Fixture.w0 Records.w_worlds 3).
  - reflexivity.
  - vm_compute. reflexivity.
  - apply outcome_eq; vm_compute; reflexivity.
Defined.

(** ** Names that cannot be listed *)

Lemma list_index_absent (l : list string) (x : string) :
  ~ In x l -> list_index l x = None.
Proof.
  induction l as [|y l IH]; simpl; intros H.
  - reflexivity.
  - destruct (String.eqb y x) eqn:E.
    + apply String.eqb_eq in E. exfalso. apply H. auto.
    + rewrite IH; [reflexivity|]. intros Hin. apply H. auto.
Qed.

Lemma find_struct_absent (l : list BlendStructDNA) (index i : Z) :
  (forall sd, In sd l -> dna_index sd <> i) -> find_struct index l i = None.
Proof.
  revert index. induction l as [|sd l IH]; intros index H; simpl.
  - reflexivity.
  - destruct (dna_index sd =? i) eqn:E.
    + apply Z.eqb_eq in E. exfalso. apply (H sd); simpl; auto.
    + apply IH. intros sd' Hin. apply H. simpl. auto.
Qed.

(** X3: [list(name)] for a name that is no type of the file, when no
    live factory is cached under that name, raises the read exception that
    names the data type, and leaves the caches as they were. *)
Theorem list_of_an_unknown_type (fuel fid : nat) (self : BlenderFile) (name : string)
    (w : world) (cached : gmap string nat) :
  FACTORY_CACHE w !! version_key (h_version (bf_header self)) = Some cached ->
  live_factory w (version_key (h_version (bf_header self))) name = None ->
  ~ In name (type_names (bf_index self)) ->
  BlenderFile_list fuel fid self name w
  = (Raise (BlenderFileReadException
              ("Data type " +:+ name +:+ " could not be found in the blend file")), w).
Proof.
  intros Hc Hmiss Hin. unfold BlenderFile_list.
  unfold live_factory in Hmiss. rewrite Hc in *. cbn in Hmiss. rewrite Hmiss.
  rewrite (list_index_absent _ _ Hin). reflexivity.
Qed.

Lemma list_of_an_unknown_type_witness :
  BlenderFile_list Fixture.fuel Fixture.fid Fixture.file "Mesh" Fixture.w0
  = (Raise (BlenderFileReadException
              "Data type Mesh could not be found in the blend file"), Fixture.w0).
Proof.
  apply (list_of_an_unknown_type Fixture.fuel Fixture.fid Fixture.file "Mesh"
           Fixture.w0 ∅).
  - vm_compute. reflexivity.
  - vm_compute. reflexivity.
  - simpl. intros H. repeat (destruct H as [H|H]; [discriminate H|]). exact H.
Defined.

(** X4: [list(name)] for a name that is a type of the file without a
    structure of its own (a primitive type such as [int]) does not raise
    the read exception: the constructor of the factory finds no structure,
    leaves [struct_dna] unset and fails with [AttributeError] on reading
    it.  Nothing is cached. *)
Theorem list_of_a_type_without_structure (fuel fid : nat) (self : BlenderFile)
    (name : string) (w : world) (cached : gmap string nat) (i : Z) :
  FACTORY_CACHE w !! version_key (h_version (bf_header self)) = Some cached ->
  live_factory w (version_key (h_version (bf_header self))) name = None ->
  list_index (type_names (bf_index self)) name = Some i ->
  (forall sd, In sd (structures (bf_index self)) -> dna_index sd <> i) ->
  BlenderFile_list fuel fid self name w = (Raise (AttributeError "struct_dna"), w).
Proof.
  intros Hc Hmiss Hi Hno. unfold BlenderFile_list.
  unfold live_factory in Hmiss. rewrite Hc in *. cbn in Hmiss. rewrite Hmiss, Hi.
  unfold BlenderObjectFactory_init. rewrite (find_struct_absent _ _ _ Hno).
  reflexivity.
Qed.

Lemma list_of_a_type_without_structure_witness :
  BlenderFile_list Fixture.fuel Fixture.fid Fixture.file "int" Fixture.w0
  = (Raise (AttributeError "struct_dna"), Fixture.w0).
Proof.
  apply (list_of_a_type_without_structure Fixture.fuel Fixture.fid Fixture.file "int"
           Fixture.w0 ∅ 1).
  - vm_compute. reflexivity.
  - vm_compute. reflexivity.
  - reflexivity.
  - simpl. intros sd H.
    repeat (destruct H as [<-|H]; [simpl; lia|]). contradiction.
Defined.

(** ** Looking a structure up *)

Lemma find_none_forall (i : Z) (l : list BlendStructDNA) :
  (forall sd, In sd l -> dna_index sd <> i) ->
  List.find (fun s => dna_index s =? i) l = None.
Proof.
  induction l as [|sd l IH]; intros H; simpl.
  - reflexivity.
  - destruct (dna_index sd =? i) eqn:E.
    + apply Z.eqb_eq in E. exfalso. apply (H sd); simpl; auto.
    + apply IH. intros sd' Hin. apply H. simpl. auto.
Qed.

(** X5: [_struct_lookup(index)] when no structure has that type index:
    a negative index, or one greater than the number of types, raises the
    read exception "not valid"; an index within the types raises the read
    exception that names the type; but the index equal to the number of
    types passes the bound test ([>] where [>=] is needed) and escapes as
    [IndexError]. *)
Theorem struct_lookup_without_structure (index : BlendIndex) (i : Z) :
  (forall sd, In sd (structures index) -> dna_index sd <> i) ->
  let n := Z.of_nat (length (type_names index)) in
  (i < 0 \/ n < i ->
   _struct_lookup index i
   = Raise (BlenderFileReadException
              ("Type index " +:+ py_str i +:+ " is not valid for this blend file")))
  /\ (i = n -> _struct_lookup index i = Raise IndexError)
  /\ (0 <= i < n ->
      exists type_name,
        type_names index !! Z.to_nat i = Some type_name
        /\ _struct_lookup index i
           = Raise (BlenderFileReadException
                      ("Type " +:+ type_name +:+ " is not associated with a structure"))).
Proof.
  intros Hno n. unfold _struct_lookup, py_index. rewrite (find_none_forall _ _ Hno).
  fold n. repeat split.
  - intros [H|H].
    + assert (E : (i <? 0) = true) by (apply Z.ltb_lt; lia).
      rewrite E, orb_true_r. reflexivity.
    + assert (E : (n <? i) = true) by (apply Z.ltb_lt; lia).
      rewrite E. reflexivity.
  - intros ->.
    assert (E : (n <? 0) = false) by (apply Z.ltb_ge; lia).
    rewrite Z.ltb_irrefl, !E, Z.leb_refl. reflexivity.
  - intros [H0 Hn].
    assert (E1 : (n <? i) = false) by (apply Z.ltb_ge; lia).
    assert (E2 : (i <? 0) = false) by (apply Z.ltb_ge; lia).
    assert (E3 : (n <=? i) = false) by (apply Z.leb_gt; lia).
    rewrite E1, !E2, E3. cbn [orb].
    destruct (type_names index !! Z.to_nat i) as [t|] eqn:E.
    + exists t. split; reflexivity.
    + apply lookup_ge_None in E. lia.
Qed.

Lemma struct_lookup_without_structure_witness :
  _struct_lookup Fixture.index 10 = Raise IndexError
  /\ _struct_lookup Fixture.index 11
     = Raise (BlenderFileReadException "Type index 11 is not valid for this blend file")
  /\ exists type_name,
       type_names Fixture.index !! Z.to_nat 1 = Some type_name
       /\ _struct_lookup Fixture.index 1
          = Raise (BlenderFileReadException
                     ("Type " +:+ type_name +:+ " is not associated with a structure")).
Proof.
  assert (Hno : forall i, i = 10 \/ i = 11 \/ i = 1 ->
                forall sd, In sd (structures Fixture.index) -> dna_index sd <> i).
  { simpl. intros i Hi sd H.
    repeat (destruct H as [<-|H]; [simpl; lia|]). contradiction. }
  split; [|split].
  - apply (struct_lookup_without_structure Fixture.index 10); [apply Hno; lia|].
    reflexivity.
  - apply (struct_lookup_without_structure Fixture.index 11); [apply Hno; lia|].
    right. simpl. lia.
  - apply (struct_lookup_without_structure Fixture.index 1); [apply Hno; lia|].
    simpl. lia.
Defined.

(** ** Arrays of pointers *)

Lemma BlenderObject_new_is_object (cls : ObjType) (fid : nat) (data : list byte) (v : pyval) :
  BlenderObject_new cls fid data = Ok v -> exists attrs, v = VObject cls fid attrs.
Proof.
  destruct cls as [i n ver FMT CLASSES lookups]. cbn [BlenderObject_new]. intros H.
  destruct (new_nested _ lookups data CLASSES []) as [d|]; [|discriminate].
  cbn [rbind] in H.
  destruct (NamedStruct_unpack FMT data) as [values|]; [|discriminate].
  cbn [rbind] in H.
  destruct (_set_fields lookups (ns_names FMT) values d) as [d' e].
  destruct e; try discriminate. injection H as <-. eauto.
Qed.

Lemma from_address_is_not_None (fuel fid : nat) (self : BlenderFile) (ptr : Z)
    (w w' : world) (v : pyval) :
  _from_address fuel fid self ptr w = (Ok v, w') -> v <> VNone.
Proof.
  unfold _from_address.
  destruct (scan_blocks None (bf_blocks self) ptr) as [[block offset]|]; [|discriminate].
  unfold decode_block. intros H.
  apply mbind_inv in H as (sd & w1 & _ & H).
  apply mbind_inv in H as (data & w2 & _ & H).
  apply mbind_inv in H as (obj & w3 & _ & H).
  destruct (b_count block =? 1).
  - apply lift_inv in H as [H _].
    apply BlenderObject_new_is_object in H as [attrs ->]. discriminate.
  - destruct (Struct_size (ns_format (t_FMT obj)) =? 0); [discriminate|].
    apply mbind_inv in H as (objs & w4 & _ & H).
    apply ret_inv in H as [-> _]. discriminate.
Qed.

(** X6: [_from_addresses(ptr_list)], when it succeeds, returns a list
    of the same length in which the entry of an address is [None] exactly
    when the address is zero. *)
Theorem from_addresses_keeps_the_positions (fuel fid : nat) (self : BlenderFile)
    (ptr_list vs : list pyval) (w w' : world) :
  _from_addresses fuel fid self ptr_list w = (Ok vs, w') ->
  length vs = length ptr_list
  /\ forall (i : nat) p v,
       ptr_list !! i = Some p -> vs !! i = Some v -> (v = VNone <-> p = VInt 0).
Proof.
  revert vs w w'. induction ptr_list as [|p ptr_list IH]; intros vs w w' H.
  - apply ret_inv in H as [-> _]. split; [reflexivity|]. intros i p v Hp. discriminate Hp.
  - cbn [_from_addresses] in H.
    apply mbind_inv in H as (v0 & w1 & Hv & H).
    apply mbind_inv in H as (vs0 & w2 & Hvs & H).
    apply ret_inv in H as [-> _].
    destruct (IH _ _ _ Hvs) as [Hlen Hpos].
    split; [cbn [length]; congruence|].
    intros [|i] q v Hq Hv'; cbn in Hq, Hv'; [|eauto].
    injection Hq as <-. injection Hv' as <-.
    destruct p; try discriminate Hv.
    destruct (z =? 0) eqn:E.
    + apply ret_inv in Hv as [-> _]. apply Z.eqb_eq in E. subst z. tauto.
    + apply Z.eqb_neq in E. apply from_address_is_not_None in Hv.
      split; [contradiction|]. intros [= ->]. contradiction.
Qed.

Lemma from_addresses_keeps_the_positions_witness :
  length (Records.ok_or [] (fst Runs.resolved)) = length [VInt 0; VInt 4096]
  /\ forall (i : nat) p v,
       [VInt 0; VInt 4096] !! i = Some p ->
       Records.ok_or [] (fst Runs.resolved) !! i = Some v -> (v = VNone <-> p = VInt 0).
Proof.
  apply (from_addresses_keeps_the_positions Fixture.fuel Fixture.fid Fixture.file
           [VInt 0; VInt 4096] _ Fixture.w0 (snd Runs.resolved)).
  apply outcome_eq; vm_compute; reflexivity.
Defined.

(** ** A file object that was freed *)

Lemma getattr_descriptor (fuel : nat) cls fref attrs (name : string) (w : world) :
  str_in name (t_lookups cls) = true ->
  getattr (S fuel) (VObject cls fref attrs) name w
  = AddressLookup_get (getattr fuel) fuel name (VObject cls fref attrs) w.
Proof. intros H. cbn [getattr]. rewrite H. reflexivity. Qed.

(** X7: Once the file object is gone, the weak references to it are
    dead: counting, iterating and searching a factory of the file (one of
    a named type) raise [RuntimeError], as does reading the [file] of a
    record or a pointer field that holds an address. *)
Theorem freed_file_raises_everywhere (fuel : nat) (self : BlenderObjectFactory)
    (name : string) (w : world) :
  files w !! _file_ref self = None ->
  let freed := RuntimeError "Parent blend file was freed" in
  Factory_len self w = (Raise freed, w)
  /\ Factory_iter self w = (Raise freed, w)
  /\ (has_name self = true -> find_by_name fuel self name w = (Raise freed, w))
  /\ forall cls attrs field ptr,
       str_in "file" (t_lookups cls) = false ->
       getattr (S fuel) (VObject cls (_file_ref self) attrs) "file" w = (Raise freed, w)
       /\ (str_in field (t_lookups cls) = true ->
           str_in ("ptr_" +:+ field) (t_lookups cls) = false ->
           dict_get attrs ("ptr_" +:+ field) = Some (VInt ptr) -> ptr <> 0 ->
           getattr (S (S fuel)) (VObject cls (_file_ref self) attrs) field w = (Raise freed, w)).
Proof.
  intros Hfree freed.
  assert (Hd : forall A (k : BlenderFile -> M A),
             mbind (deref_file (_file_ref self)) k w = (Raise freed, w)).
  { intros A k. unfold mbind, deref_file. rewrite Hfree. reflexivity. }
  split; [apply Hd|]. split; [apply Hd|]. split.
  - intros Hn. unfold find_by_name. rewrite Hn. cbn [negb]. apply Hd.
  - intros cls attrs field ptr Hfile. split.
    + cbn [getattr]. rewrite Hfile. cbn. apply Hd.
    + intros Hin Hnot Hptr Hnz.
      rewrite (getattr_descriptor _ _ _ _ _ _ Hin). unfold AddressLookup_get.
      assert (Hp : String.eqb ("ptr_" +:+ field) "file" = false) by reflexivity.
      rewrite (mbind_ok _ _ _ _ _ (getattr_instance fuel cls _ attrs _ _ w Hnot Hp Hptr)).
      apply Z.eqb_neq in Hnz. rewrite Hnz. cbn [negb].
      unfold mbind at 1. unfold mbind at 1. unfold deref_file. rewrite Hfree. reflexivity.
Qed.

Lemma freed_file_raises_everywhere_witness :
  let w := free_file Fixture.fid Records.w_worlds in
  let freed := RuntimeError "Parent blend file was freed" in
  Factory_len Records.worlds w = (Raise freed, w)
  /\ Factory_iter Records.worlds w = (Raise freed, w)
  /\ (has_name Records.worlds = true ->
      find_by_name Fixture.fuel Records.worlds "TestW" w = (Raise freed, w))
  /\ forall cls attrs field ptr,
       str_in "file" (t_lookups cls) = false ->
       getattr (S Fixture.fuel) (VObject cls (_file_ref Records.worlds) attrs) "file" w
       = (Raise freed, w)
       /\ (str_in field (t_lookups cls) = true ->
           str_in ("ptr_" +:+ field) (t_lookups cls) = false ->
           dict_get attrs ("ptr_" +:+ field) = Some (VInt ptr) -> ptr <> 0 ->
           getattr (S (S Fixture.fuel)) (VObject cls (_file_ref Records.worlds) attrs) field w
           = (Raise freed, w)).
Proof.
  intros w.
  apply (freed_file_raises_everywhere Fixture.fuel Records.worlds "TestW" w).
  vm_compute. reflexivity.
Defined.

(** ** Finding a record by its name *)

Lemma name_matches_carried (b : list byte) (name : string) :
  carries_name b name -> name_matches (VBytes b) (encode name) = Ok true.
Proof.
  intros (i & Hi & Hs). unfold name_matches. rewrite Hi, Hs.
  f_equal. apply bytes_eqb_eq. reflexivity.
Qed.

Lemma find_loop_skips (fuel : nat) (self : BlenderObjectFactory) (file : BlenderFile)
    (name : string) (pre rest : list (BlendBlockHeader * nat)) (objs : list pyval)
    (w : world) :
  iter_blocks self file pre = Ok objs ->
  Forall (fun obj => exists b, identity_name obj = Some b /\ other_name b name) objs ->
  find_loop (S fuel) self file (encode name) (pre ++ rest) w
  = find_loop (S fuel) self file (encode name) rest w.
Proof.
  revert objs. induction pre as [|[block offset] pre IH]; intros objs Hit Hall.
  - reflexivity.
  - rewrite <- app_comm_cons. cbn [iter_blocks find_loop] in *.
    destruct (b_sdna block =? sdna_index self).
    + destruct (_read_block file block offset) as [data|] eqn:Hr; [|discriminate].
      cbn [rbind] in Hit.
      destruct (BlenderObject_new (object_type self) (_file_ref self) data)
        as [obj|] eqn:Hn; [|discriminate].
      cbn [rbind] in Hit.
      destruct (iter_blocks self file pre) as [objs'|] eqn:Hrest; [|discriminate].
      injection Hit as <-.
      inversion Hall as [|? ? (b & Hb & Hother) Hall']; subst.
      destruct (getattr_identity_name fuel obj b w Hb) as (idv & Hid & Hnm).
      rewrite mbind_lift_ok, Hn, mbind_lift_ok.
      rewrite (mbind_ok _ _ _ _ _ Hid), (mbind_ok _ _ _ _ _ Hnm).
      rewrite (name_matches_other b name Hother), mbind_lift_ok.
      apply (IH objs'); [reflexivity|assumption].
    + apply (IH objs); assumption.
Qed.

(** X8: [find_by_name(name)] returns the first record, in file order,
    whose identity block carries the name: when the records before a block
    carry other names and the record of the block carries [name], that
    record is returned, and the blocks after it are neither read nor
    decoded (they may be anything). *)
Theorem find_by_name_returns_the_first_match (fuel : nat) (self : BlenderObjectFactory)
    (name : string) (w : world) (file : BlenderFile)
    (pre post : list (BlendBlockHeader * nat)) (block : BlendBlockHeader) (offset : nat)
    (data : list byte) (objs : list pyval) (obj : pyval) (b : list byte) :
  has_name self = true ->
  files w !! _file_ref self = Some file ->
  bf_blocks file = pre ++ (block, offset) :: post ->
  iter_blocks self file pre = Ok objs ->
  Forall (fun o => exists b, identity_name o = Some b /\ other_name b name) objs ->
  b_sdna block = sdna_index self ->
  _read_block file block offset = Ok data ->
  BlenderObject_new (object_type self) (_file_ref self) data = Ok obj ->
  identity_name obj = Some b ->
  carries_name b name ->
  find_by_name (S fuel) self name w = (Ok obj, w).
Proof.
  intros Hn Hfile Hblocks Hpre Hall Hsdna Hread Hnew Hid Hname.
  unfold find_by_name. rewrite Hn. cbn [negb].
  unfold Factory_file, deref_file, mbind at 1. rewrite Hfile.
  rewrite Hblocks.
  assert (Hloop : find_loop (S fuel) self file (encode name)
                    (pre ++ (block, offset) :: post) w = (Ok (Some obj), w)).
  { rewrite (find_loop_skips _ _ _ _ _ _ _ _ Hpre Hall).
    cbn [find_loop]. apply Z.eqb_eq in Hsdna. rewrite Hsdna.
    rewrite Hread, mbind_lift_ok, Hnew, mbind_lift_ok.
    destruct (getattr_identity_name fuel obj b w Hid) as (idv & Hidv & Hnm).
    rewrite (mbind_ok _ _ _ _ _ Hidv), (mbind_ok _ _ _ _ _ Hnm).
    rewrite (name_matches_carried b name Hname), mbind_lift_ok. reflexivity. }
  rewrite (mbind_ok _ _ _ _ _ Hloop). reflexivity.
Qed.

Lemma find_by_name_returns_the_first_match_witness :
  find_by_name (S Fixture.fuel) Records.worlds "Other" Records.w_worlds
  = (Ok Runs2.second_world, Records.w_worlds).
Proof.
  apply (find_by_name_returns_the_first_match Fixture.fuel Records.worlds "Other"
           Records.w_worlds Fixture.file
           [(mkBlock Fixture.DATA 24 4096 1 1, 12%nat)]
           (drop 2 Fixture.blocks)
           (mkBlock Fixture.DATA 24 4352 1 1) 36 Fixture.world2
           [Runs2.first_world] Runs2.second_world
           (Fixture.name_bytes 8 "WOOther")).
  - reflexivity.
  - vm_compute. reflexivity.
  - reflexivity.
  - vm_compute. reflexivity.
  - constructor; [|constructor].
    exists (Fixture.name_bytes 8 "WOTestW"). split; [vm_compute; reflexivity|].
    exists 7%nat. split; [vm_compute; reflexivity|].
    vm_compute. intros H. discriminate H.
  - reflexivity.
  - vm_compute. reflexivity.
  - vm_compute. reflexivity.
  - vm_compute. reflexivity.
  - exists 7%nat. split; vm_compute; reflexivity.
Defined.

(** ** Names and values of a compiled format *)

Lemma values_count_cons (n : Z) (c : fmt_code) (items : list fmt_item) :
  values_count ((n, c) :: items)
  = (match c with Cx => 0 | Cs => 1 | _ => Z.to_nat n end + values_count items)%nat.
Proof. reflexivity. Qed.

Lemma values_count_app (a b : list fmt_item) :
  values_count (a ++ b) = (values_count a + values_count b)%nat.
Proof.
  induction a as [|[n c] a IH]; [reflexivity|].
  rewrite <- app_comm_cons, !values_count_cons, IH. lia.
Qed.

Lemma values_count_replace_P arch (items : list fmt_item) :
  values_count (replace_P arch items) = values_count items.
Proof.
  induction items as [|[n c] items IH]; [reflexivity|].
  cbn [replace_P map] in *. fold (replace_P arch items).
  destruct c, arch; rewrite !values_count_cons, IH; reflexivity.
Qed.

Lemma unpack_items_length e (items : list fmt_item) (data : list byte) :
  length (unpack_items e items data) = values_count items.
Proof.
  revert data. induction items as [|[n c] items IH]; intros data; [reflexivity|].
  rewrite values_count_cons.
  pose proof (unpack_repeat_spec (Z.to_nat n) (Z.to_nat (code_width c))
                (decode_code e c) data) as [Hl _].
  destruct c; cbn [unpack_items];
    try (destruct (unpack_repeat _ _ _ data) as [vs r]; cbn [fst] in Hl;
         rewrite length_app, IH, Hl; reflexivity).
  - cbn [length]. rewrite IH. reflexivity.
  - apply IH.
Qed.

Lemma compile_fmt_parts (f : BlendStructField) (rest : list BlendStructField) :
  compile_fmt (f :: rest)
  = (fst (compile_field f) ++ fst (compile_fmt rest),
     snd (compile_field f) ++ snd (compile_fmt rest)).
Proof.
  cbn [compile_fmt]. destruct (compile_field f), (compile_fmt rest). reflexivity.
Qed.

Lemma field_values_count (g : BlendStructField) :
  1 <= f_count g ->
  values_count (fst (compile_field g))
  = if f_ptr g && String.eqb (f_type g) "char" && (1 <? f_count g)
    then Z.to_nat (f_count g)
    else length (snd (compile_field g)).
Proof.
  intros Hc. unfold compile_field, field_item_names.
  destruct (f_ptr g).
  - cbn [fst snd andb]. rewrite values_count_cons. cbn [values_count fold_right].
    destruct (String.eqb (f_type g) "char"), (1 <? f_count g) eqn:E;
      cbn [andb negb]; rewrite ?length_map, ?py_range_length; cbn [length];
      lia.
  - cbn [andb].
    destruct (_BASE_TYPES (f_type g)) as [code|] eqn:Hb; [|reflexivity].
    destruct (base_type_code _ _ Hb) as (Hx & Hs & HP & Hchar).
    destruct (String.eqb (f_type g) "char") eqn:Et, (1 <? f_count g) eqn:E;
      cbn [andb negb fst snd]; rewrite values_count_cons;
      cbn [values_count fold_right]; rewrite ?length_map, ?py_range_length;
      cbn [length]; try reflexivity.
    + assert (code = Cc) as -> by (apply Hchar; reflexivity).
      apply Z.ltb_ge in E. lia.
    + destruct code; try congruence; lia.
    + apply Z.ltb_ge in E. destruct code; try congruence; lia.
Qed.

Lemma rename_fields_length (index : Z) (seen names : list string) :
  length (rename_fields index seen names) = length names.
Proof.
  revert index seen. induction names as [|n names IH]; intros index seen; [reflexivity|].
  cbn [rename_fields length]. rewrite IH. reflexivity.
Qed.

Lemma namedtuple_length (typename : string) (field_names names : list string) :
  namedtuple typename field_names = Ok names -> length names = length field_names.
Proof.
  unfold namedtuple. destruct (_ || _); [discriminate|].
  intros [= <-]. apply rename_fields_length.
Qed.

Lemma compiled_counts (fields : list BlendStructField) :
  Forall (fun g => 1 <= f_count g) fields ->
  (length (snd (compile_fmt fields)) <= values_count (fst (compile_fmt fields)))%nat
  /\ (Forall matched_field fields ->
      values_count (fst (compile_fmt fields)) = length (snd (compile_fmt fields)))
  /\ (Exists char_pointer_array fields ->
      (length (snd (compile_fmt fields)) < values_count (fst (compile_fmt fields)))%nat).
Proof.
  induction 1 as [|g fields Hg Hall IH]; [|].
  - repeat split; try reflexivity. intros H. inversion H.
  - destruct IH as (IHle & IHeq & IHlt).
    rewrite compile_fmt_parts. cbn [fst snd].
    rewrite values_count_app, length_app.
    pose proof (field_values_count g Hg) as Hv.
    assert (Hle : (length (snd (compile_field g))
                   <= values_count (fst (compile_field g)))%nat).
    { rewrite Hv. destruct (f_ptr g && String.eqb (f_type g) "char" && (1 <? f_count g))
        eqn:E; [|lia].
      apply andb_true_iff in E as [E E3]. apply andb_true_iff in E as [E1 E2].
      unfold compile_field, field_item_names. rewrite E1, E2, E3. cbn. lia. }
    repeat split.
    + lia.
    + intros Hm. inversion Hm as [|? ? [_ Hg'] Hm']; subst.
      rewrite (IHeq Hm'). f_equal. rewrite Hv.
      destruct (f_ptr g && String.eqb (f_type g) "char" && (1 <? f_count g))
        eqn:E; [|reflexivity].
      apply andb_true_iff in E as [E E3]. apply andb_true_iff in E as [E1 E2].
      apply String.eqb_eq in E2. apply Z.ltb_lt in E3.
      specialize (Hg' E1 E2). lia.
    + intros Hex. inversion Hex as [? ? (E1 & E2 & E3)|? ? Hex']; subst.
      * assert (E : (1 <? f_count g) = true) by (apply Z.ltb_lt; lia).
        assert (Et : String.eqb (f_type g) "char" = true) by (rewrite E2; reflexivity).
        rewrite Hv, E1, Et, E. cbn [andb].
        unfold compile_field, field_item_names. rewrite E1, Et, E.
        cbn. lia.
      * specialize (IHlt Hex'). lia.
Qed.

(** X9: The names and the format that [compile_fmt] produces agree:
    when every field has at least one item and none is an array of
    pointers to [char], unpacking data of the size of the format gives as
    many values as the generated namedtuple has fields, so the record of
    the values is built. *)
Theorem names_and_values_agree e arch (fields : list BlendStructField)
    (typename : string) (names : list string) (data : list byte) :
  Forall matched_field fields ->
  namedtuple typename (snd (compile_fmt fields)) = Ok names ->
  let FMT := mkNamedStruct names
               (mkPyStruct e (replace_P arch (fst (compile_fmt fields)))) in
  Z.of_nat (length data) = Struct_size (ns_format FMT) ->
  exists vals,
    NamedStruct_unpack FMT data = Ok (VNamed vals) /\ length vals = length names.
Proof.
  intros Hm Hnt FMT Hlen.
  assert (Hc : Forall (fun g => 1 <= f_count g) fields).
  { eapply List.Forall_impl; [|exact Hm]. intros g [H _]. exact H. }
  destruct (compiled_counts fields Hc) as (_ & Heq & _). specialize (Heq Hm).
  exists (unpack_items e (replace_P arch (fst (compile_fmt fields))) data).
  assert (Hl : length (unpack_items e (replace_P arch (fst (compile_fmt fields))) data)
               = length names).
  { rewrite unpack_items_length, values_count_replace_P, Heq.
    symmetry. apply (namedtuple_length _ _ _ Hnt). }
  split; [|exact Hl].
  unfold NamedStruct_unpack. rewrite Hlen, Z.ltb_irrefl. cbn [andb].
  unfold Struct_unpack. rewrite Hlen, Z.eqb_refl. cbn [rbind].
  unfold names_call. subst FMT. cbn [ns_names ns_format st_endian st_items].
  rewrite Hl, Nat.eqb_refl. reflexivity.
Qed.

Lemma names_and_values_agree_witness :
  let FMT := mkNamedStruct ["aodist"; "pad"]
               (mkPyStruct Little
                  (replace_P X64
                     (fst (compile_fmt [mkField "id" "ID" 16 false 1;
                                        mkField "aodist" "float" 4 false 1;
                                        mkField "pad" "int" 4 false 1])))) in
  exists vals,
    NamedStruct_unpack FMT Fixture.world1 = Ok (VNamed vals)
    /\ length vals = length ["aodist"; "pad"].
Proof.
  apply (names_and_values_agree Little X64
           [mkField "id" "ID" 16 false 1; mkField "aodist" "float" 4 false 1;
            mkField "pad" "int" 4 false 1] "World" ["aodist"; "pad"] Fixture.world1).
  - repeat constructor; cbn; try lia; discriminate.
  - reflexivity.
  - reflexivity.
Defined.

(** X10: An array of pointers to [char] cannot be decoded: for such a
    field [compile_fmt] produces one name but a format piece of as many
    pointers as the array has, so for a structure that has one (all fields
    having at least one item) the namedtuple is called with too many
    values and unpacking the data of a record raises [TypeError]. *)
Theorem char_pointer_array_is_not_decoded e arch (fields : list BlendStructField)
    (typename : string) (names : list string) (data : list byte) :
  Forall (fun g => 1 <= f_count g) fields ->
  Exists char_pointer_array fields ->
  namedtuple typename (snd (compile_fmt fields)) = Ok names ->
  let FMT := mkNamedStruct names
               (mkPyStruct e (replace_P arch (fst (compile_fmt fields)))) in
  Z.of_nat (length data) = Struct_size (ns_format FMT) ->
  NamedStruct_unpack FMT data = Raise TypeError.
Proof.
  intros Hc Hex Hnt FMT Hlen.
  destruct (compiled_counts fields Hc) as (_ & _ & Hlt). specialize (Hlt Hex).
  unfold NamedStruct_unpack. rewrite Hlen, Z.ltb_irrefl. cbn [andb].
  unfold Struct_unpack. rewrite Hlen, Z.eqb_refl. cbn [rbind].
  unfold names_call. subst FMT. cbn [ns_names ns_format st_endian st_items].
  rewrite unpack_items_length, values_count_replace_P, (namedtuple_length _ _ _ Hnt).
  destruct (Nat.eqb_spec (length (snd (compile_fmt fields)))
              (values_count (fst (compile_fmt fields)))); [lia|reflexivity].
Qed.

Lemma char_pointer_array_is_not_decoded_witness :
  let FMT := mkNamedStruct ["ptr_names"; "n"]
               (mkPyStruct Little (replace_P X64 (fst (compile_fmt Runs2.names_fields)))) in
  NamedStruct_unpack FMT (repeat "000"%byte 36) = Raise TypeError.
Proof.
  apply (char_pointer_array_is_not_decoded Little X64 Runs2.names_fields "Names"
           ["ptr_names"; "n"] (repeat "000"%byte 36)).
  - repeat constructor; cbn; lia.
  - left. repeat split.
  - reflexivity.
  - reflexivity.
Defined.

(** ** Several records in one piece of data *)

Lemma iter_chunks_concat (size : nat) (chunks : list (list byte)) :
  Forall (fun c => length c = size) chunks ->
  iter_chunks (length chunks) size (concat chunks) = chunks.
Proof.
  induction 1 as [|c chunks Hc Hall IH]; [reflexivity|].
  cbn [length iter_chunks concat]. subst size.
  rewrite take_app_length, drop_app_length, IH. reflexivity.
Qed.

Lemma length_concat_chunks (size : nat) (chunks : list (list byte)) :
  Forall (fun c => length c = size) chunks ->
  length (concat chunks) = (length chunks * size)%nat.
Proof.
  induction 1 as [|c chunks Hc Hall IH]; [reflexivity|].
  cbn [concat length]. rewrite length_app, IH. lia.
Qed.

Lemma unpack_one_record (ns : NamedStruct) (c : list byte) :
  Z.of_nat (length c) = Struct_size (ns_format ns) ->
  NamedStruct_unpack ns c
  = names_call (ns_names ns) (unpack_items (st_endian (ns_format ns))
                                           (st_items (ns_format ns)) c).
Proof.
  intros H. unfold NamedStruct_unpack, Struct_unpack.
  rewrite H, Z.ltb_irrefl, Z.eqb_refl. reflexivity.
Qed.

Lemma names_call_all_each (ns : NamedStruct) (chunks : list (list byte)) :
  Forall (fun c => Z.of_nat (length c) = Struct_size (ns_format ns)) chunks ->
  names_call_all (ns_names ns) (ns_format ns) chunks
  = result_all (map (NamedStruct_unpack ns) chunks).
Proof.
  induction 1 as [|c chunks Hc Hall IH]; [reflexivity|].
  cbn [names_call_all map result_all]. rewrite IH, (unpack_one_record ns c Hc).
  reflexivity.
Qed.

(** X11: [NamedStruct.unpack] over the concatenation of two or more
    pieces of data that each have the size of the format is the tuple of
    the records of the pieces, in order, or the first exception among
    them. *)
Theorem unpack_of_several_records (ns : NamedStruct) (chunks : list (list byte)) :
  0 < Struct_size (ns_format ns) ->
  Forall (fun c => Z.of_nat (length c) = Struct_size (ns_format ns)) chunks ->
  (2 <= length chunks)%nat ->
  NamedStruct_unpack ns (concat chunks)
  = result_map VTuple (result_all (map (NamedStruct_unpack ns) chunks)).
Proof.
  intros Hpos Hall Hk.
  set (y := Struct_size (ns_format ns)) in *.
  assert (Hall' : Forall (fun c => length c = Z.to_nat y) chunks).
  { eapply List.Forall_impl; [|exact Hall]. cbn. intros c Hc. lia. }
  assert (Hx : Z.of_nat (length (concat chunks)) = Z.of_nat (length chunks) * y).
  { rewrite (length_concat_chunks _ _ Hall'). lia. }
  rewrite <- (names_call_all_each ns chunks Hall).
  unfold NamedStruct_unpack. fold y. rewrite Hx.
  assert (E1 : (y <? Z.of_nat (length chunks) * y) = true) by (apply Z.ltb_lt; nia).
  assert (E2 : (y =? 0) = false) by (apply Z.eqb_neq; lia).
  rewrite E1, E2, Z.mod_mul, Z.eqb_refl by lia. cbn [andb].
  rewrite Z.div_mul, Nat2Z.id by lia.
  rewrite (iter_chunks_concat _ _ Hall').
  destruct (names_call_all (ns_names ns) (ns_format ns) chunks); reflexivity.
Qed.

Lemma unpack_of_several_records_witness :
  let ns := t_FMT (object_type Records.worlds) in
  NamedStruct_unpack ns (concat [Fixture.world1; Fixture.world2])
  = result_map VTuple
      (result_all (map (NamedStruct_unpack ns) [Fixture.world1; Fixture.world2])).
Proof.
  apply (unpack_of_several_records (t_FMT (object_type Records.worlds))
           [Fixture.world1; Fixture.world2]).
  - reflexivity.
  - repeat constructor.
  - cbn. lia.
Defined.

(** ** The names of a generated class *)

Lemma py_str_injective (a b : Z) : 0 <= a -> 0 <= b -> py_str a = py_str b -> a = b.
Proof.
  intros Ha Hb H. pose proof (py_int_py_str a Ha) as Ea.
  rewrite H, (py_int_py_str b Hb) in Ea. congruence.
Qed.

Lemma all_digits_ident (s : string) : all_digits s = true -> all_ident_chars s = true.
Proof.
  induction s as [|c s IH]; [reflexivity|].
  cbn [all_digits all_ident_chars]. intros H. apply andb_true_iff in H as [H1 H2].
  rewrite H1, orb_true_r, (IH H2). reflexivity.
Qed.

Lemma positional_name_ok (i : Z) :
  0 <= i ->
  isidentifier ("_" +:+ py_str i) = true /\ iskeyword ("_" +:+ py_str i) = false
  /\ starts_with_underscore ("_" +:+ py_str i) = true.
Proof.
  intros Hi. destruct (py_str_digits i Hi) as [Hd _].
  repeat split.
  cbn. apply all_digits_ident, Hd.
Qed.

Lemma rename_fields_spec (names : list string) (index : Z) (seen : list string) :
  0 <= index ->
  NoDup (rename_fields index seen names)
  /\ Forall (fun x => isidentifier x = true /\ iskeyword x = false
                      /\ ((starts_with_underscore x = false /\ ~ In x seen)
                          \/ exists j, index <= j /\ x = "_" +:+ py_str j))
            (rename_fields index seen names).
Proof.
  revert index seen. induction names as [|name names IH]; intros index seen Hi.
  - split; constructor.
  - cbn [rename_fields].
    destruct (IH (index + 1) (name :: seen)) as [Hnd Hall]; [lia|].
    set (x := if negb (isidentifier name) || iskeyword name
                 || starts_with_underscore name || str_in name seen
              then "_" +:+ py_str index else name).
    assert (Hx : isidentifier x = true /\ iskeyword x = false
                 /\ ((starts_with_underscore x = false /\ ~ In x seen /\ x = name)
                     \/ x = "_" +:+ py_str index)).
    { subst x.
      destruct (isidentifier name) eqn:E1; cbn [negb orb];
        [|destruct (positional_name_ok index Hi) as (? & ? & ?); auto].
      destruct (iskeyword name) eqn:E2; cbn [orb];
        [destruct (positional_name_ok index Hi) as (? & ? & ?); auto|].
      destruct (starts_with_underscore name) eqn:E3; cbn [orb];
        [destruct (positional_name_ok index Hi) as (? & ? & ?); auto|].
      destruct (str_in name seen) eqn:E4;
        [destruct (positional_name_ok index Hi) as (? & ? & ?); auto|].
      repeat split; auto. left. split; [exact E3|]. split; [|reflexivity].
      intros Hin. apply str_in_In in Hin. congruence. }
    destruct Hx as (Hid & Hkw & Hcase).
    split.
    + constructor; [|exact Hnd].
      intros Hin. apply list_elem_of_In in Hin.
      rewrite List.Forall_forall in Hall. destruct (Hall x Hin) as (_ & _ & Hy).
      destruct Hcase as [(Hu & _ & Hname)|Hpos].
      * destruct Hy as [[_ Hns]|(j & _ & Hj)].
        -- apply Hns. left. congruence.
        -- rewrite Hj in Hu. discriminate Hu.
      * destruct Hy as [[Hu _]|(j & Hle & Hj)].
        -- rewrite Hpos in Hu. discriminate Hu.
        -- rewrite Hpos in Hj. injection Hj as Hj.
           apply py_str_injective in Hj; lia.
    + constructor.
      * repeat split; auto.
        destruct Hcase as [(Hu & Hns & _)|Hpos]; [left; auto|].
        right. exists index. split; [lia|exact Hpos].
      * eapply List.Forall_impl; [|exact Hall].
        intros y (Hyi & Hyk & Hy). repeat split; auto.
        destruct Hy as [[Hu Hns]|(j & Hle & Hj)].
        -- left. split; [exact Hu|]. intros Hin. apply Hns. right. exact Hin.
        -- right. exists j. split; [lia|exact Hj].
Qed.

(** X12: The field names of the namedtuple of a generated class
    ([namedtuple(name, fmt_names, rename=True)]) are pairwise distinct
    valid identifiers that are no keywords, one per name that
    [compile_fmt] produced, whatever the field names in the file are: a
    name that cannot be used is replaced by its position. *)
Theorem class_field_names_are_distinct (typename : string) (fmt_names names : list string) :
  namedtuple typename fmt_names = Ok names ->
  length names = length fmt_names
  /\ NoDup names
  /\ Forall (fun x => isidentifier x = true /\ iskeyword x = false) names.
Proof.
  intros H. split; [apply (namedtuple_length _ _ _ H)|].
  unfold namedtuple in H. destruct (_ || _); [discriminate|]. injection H as <-.
  destruct (rename_fields_spec fmt_names 0 []) as [Hnd Hall]; [lia|].
  split; [exact Hnd|].
  eapply List.Forall_impl; [|exact Hall]. intros x (H1 & H2 & _). auto.
Qed.

Lemma class_field_names_are_distinct_witness :
  length ["a"; "_1"; "_2"; "_3"; "_4"] = length ["a"; "a"; "_b"; "def"; "(*f)()"]
  /\ NoDup ["a"; "_1"; "_2"; "_3"; "_4"]
  /\ Forall (fun x => isidentifier x = true /\ iskeyword x = false)
            ["a"; "_1"; "_2"; "_3"; "_4"].
Proof.
  apply (class_field_names_are_distinct "T" ["a"; "a"; "_b"; "def"; "(*f)()"]).
  reflexivity.
Defined.

(** ** Nested structures *)

Lemma new_nested_frame new lookups (data : list byte)
    (cs : list (ObjType * (Z * Z) * string)) (d d' : pydict) (k : string) :
  new_nested new lookups data cs d = Ok d' ->
  ~ In k (map snd cs) ->
  dict_get d' k = dict_get d k.
Proof.
  revert d. induction cs as [|[[t [lo hi]] n] cs IH]; intros d H Hk.
  - injection H as <-. reflexivity.
  - cbn [new_nested] in H.
    destruct (new t (py_slice_Z lo hi data)) as [o|]; [|discriminate].
    cbn [rbind] in H.
    destruct (obj_setattr lookups d n o) as [d1|] eqn:Hs; [|discriminate].
    cbn [rbind] in H. apply obj_setattr_ok in Hs as (-> & _ & _).
    rewrite (IH _ H); [|intros Hin; apply Hk; right; exact Hin].
    apply dict_get_set_ne. intros ->. apply Hk. left. reflexivity.
Qed.

Lemma new_nested_stores new lookups (data : list byte)
    (cs : list (ObjType * (Z * Z) * string)) (d d' : pydict)
    (t : ObjType) (lo hi : Z) (name : string) :
  new_nested new lookups data cs d = Ok d' ->
  NoDup (map snd cs) ->
  In (t, (lo, hi), name) cs ->
  exists v, new t (py_slice_Z lo hi data) = Ok v
            /\ dict_get d' name = Some v
            /\ str_in name lookups = false /\ String.eqb name "file" = false.
Proof.
  revert d. induction cs as [|[[t0 [lo0 hi0]] n0] cs IH]; intros d H Hnd Hin.
  - destruct Hin.
  - cbn [new_nested] in H. cbn [map snd] in Hnd.
    apply NoDup_cons in Hnd as [Hn0 Hnd].
    destruct (new t0 (py_slice_Z lo0 hi0 data)) as [o|] eqn:Ho; [|discriminate].
    cbn [rbind] in H.
    destruct (obj_setattr lookups d n0 o) as [d1|] eqn:Hs; [|discriminate].
    cbn [rbind] in H.
    destruct Hin as [Heq|Hin].
    + injection Heq as -> -> -> ->. exists o.
      apply obj_setattr_ok in Hs as (-> & Hl & Hf).
      split; [exact Ho|]. split; [|auto].
      rewrite (new_nested_frame _ _ _ _ _ _ name H).
      * apply dict_get_set_eq.
      * intros Hin. apply Hn0. apply list_elem_of_In. exact Hin.
    + apply (IH d1); assumption.
Qed.

Lemma set_fields_loop_frame lookups (gen : list (string * pyval))
    (pending : option (string * nat * list pyval)) (d d' : pydict) (e : exn) (k : string) :
  set_fields_loop lookups pending gen d = (d', e) ->
  Forall (fun nv => stored_name (fst nv) <> k) gen ->
  (forall fn n arr, pending = Some (fn, n, arr) -> fn <> k) ->
  dict_get d' k = dict_get d k.
Proof.
  revert pending d. induction gen as [|[name value] gen IH]; intros pending d H Hall Hp.
  - injection H as <- _. reflexivity.
  - inversion Hall as [|? ? Hname Hall']; subst. cbn [fst] in Hname.
    cbn [set_fields_loop] in H.
    destruct pending as [[[fn n] arr]|].
    + specialize (Hp fn n arr eq_refl).
      destruct n as [|n].
      * destruct (obj_setattr lookups d fn (VTuple (arr ++ [value]))) as [d1|] eqn:Hs.
        -- apply obj_setattr_ok in Hs as (-> & _ & _).
           rewrite (IH _ _ H Hall'); [|discriminate].
           apply dict_get_set_ne. exact Hp.
        -- injection H as <- _. reflexivity.
      * apply (IH _ _ H Hall'). intros fn' n' arr' [= <- _ _]. exact Hp.
    + unfold stored_name in Hname.
      destruct (template_first name) as [[field_name array_len]|].
      * destruct (py_int array_len) as [len|]; [|injection H as <- _; reflexivity].
        destruct (Z.to_nat (len - 1)) as [|n].
        -- destruct (obj_setattr lookups d field_name (VTuple [value])) as [d1|] eqn:Hs.
           ++ apply obj_setattr_ok in Hs as (-> & _ & _).
              rewrite (IH _ _ H Hall'); [|discriminate].
              apply dict_get_set_ne. exact Hname.
           ++ injection H as <- _. reflexivity.
        -- apply (IH _ _ H Hall'). intros fn' n' arr' [= <- _ _]. exact Hname.
      * destruct (obj_setattr lookups d name value) as [d1|] eqn:Hs.
        -- apply obj_setattr_ok in Hs as (-> & _ & _).
           rewrite (IH _ _ H Hall'); [|discriminate].
           apply dict_get_set_ne. exact Hname.
        -- injection H as <- _. reflexivity.
Qed.

(** X13: A field that is a nested structure is decoded from its own
    slice of the bytes: when a record is built for a class whose nested
    classes have distinct names, none of which is assigned again from the
    format, the attribute of each nested class is the record that the
    nested class builds from [data[lo:hi]], and reading the attribute
    returns it. *)
Theorem nested_structure_is_decoded_from_its_slice (cls : ObjType) (fid : nat)
    (data : list byte) (obj : pyval) (t : ObjType) (lo hi : Z) (name : string) :
  BlenderObject_new cls fid data = Ok obj ->
  In (t, (lo, hi), name) (t_CLASSES cls) ->
  NoDup (map snd (t_CLASSES cls)) ->
  Forall (fun n => stored_name n <> name) (ns_names (t_FMT cls)) ->
  exists v,
    BlenderObject_new t fid (py_slice_Z lo hi data) = Ok v
    /\ forall fuel w, getattr (S fuel) obj name w = (Ok v, w).
Proof.
  destruct cls as [i n ver FMT CLASSES lookups].
  cbn [BlenderObject_new t_CLASSES t_FMT]. intros H Hin Hnd Hall.
  destruct (new_nested _ lookups data CLASSES []) as [d|] eqn:Hnest; [|discriminate].
  cbn [rbind] in H.
  destruct (NamedStruct_unpack FMT data) as [values|]; [|discriminate].
  cbn [rbind] in H.
  destruct (_set_fields lookups (ns_names FMT) values d) as [d' e] eqn:Hset.
  destruct e; try discriminate. injection H as <-.
  destruct (new_nested_stores _ _ _ _ _ _ _ _ _ _ Hnest Hnd Hin)
    as (v & Hv & Hget & Hl & Hf).
  exists v. split; [exact Hv|].
  intros fuel w. apply getattr_instance; [exact Hl|exact Hf|].
  unfold _set_fields in Hset.
  rewrite (set_fields_loop_frame _ _ _ _ _ _ name Hset); [exact Hget| |discriminate].
  apply List.Forall_forall. intros [n0 v0] Hin0. cbn [fst].
  rewrite List.Forall_forall in Hall. apply Hall.
  apply (in_combine_l _ _ _ _ Hin0).
Qed.

Lemma nested_structure_is_decoded_from_its_slice_witness :
  exists v,
    BlenderObject_new Runs3.id_class Fixture.fid (py_slice_Z 0 16 Fixture.world1) = Ok v
    /\ forall fuel w, getattr (S fuel) Runs2.first_world "id" w = (Ok v, w).
Proof.
  apply (nested_structure_is_decoded_from_its_slice (object_type Records.worlds)
           Fixture.fid Fixture.world1 Runs2.first_world Runs3.id_class 0 16 "id").
  - vm_compute. reflexivity.
  - left. reflexivity.
  - repeat constructor. intros H. apply elem_of_nil in H. exact H.
  - repeat constructor; discriminate.
Defined.

Lemma build_dependencies_inv build index (f : BlendStructField) (dna : Z * Z)
    (l : list (BlendStructField * (Z * Z))) (offset : Z) (w w' : world)
    (deps : list (ObjType * (Z * Z) * string)) :
  build_dependencies build index ((f, dna) :: l) offset w = (Ok deps, w') ->
  exists dep rest w1,
    deps = dep ++ rest
    /\ build_dependencies build index l (offset + f_size f) w1 = (Ok rest, w')
    /\ if nested_field f
       then exists sd t w0, _struct_lookup index (fst dna) = Ok sd
                            /\ build sd w0 = (Ok t, w1)
                            /\ dep = [(t, (offset, offset + f_size f), f_name f)]
       else dep = [].
Proof.
  cbn [build_dependencies]. unfold nested_field. intros H.
  apply mbind_inv in H as (dep & w1 & Hdep & H).
  apply mbind_inv in H as (rest & w2 & Hrest & H).
  apply ret_inv in H as [-> ->].
  exists dep, rest, w1. split; [reflexivity|]. split; [exact Hrest|].
  destruct (negb (in_BASE_TYPES (f_type f)) && negb (f_ptr f)).
  - apply mbind_inv in Hdep as (sd & wa & Hsd & Hdep).
    apply lift_inv in Hsd as [Hsd ->].
    apply mbind_inv in Hdep as (t & wb & Ht & Hdep).
    apply ret_inv in Hdep as [-> ->]. eauto 8.
  - apply ret_inv in Hdep as [-> _]. reflexivity.
Qed.

(** X14: Step 2 of [_build_object_type] gives every field that is a
    nested structure (a structure type, not a pointer) the slice that
    starts at the sum of the sizes of the fields before it and has the
    size of the field, under the name of the field, with the class built
    for the structure of its type; the nested classes come in the order of
    the fields. *)
Theorem nested_slices_follow_the_fields build index
    (l : list (BlendStructField * (Z * Z))) (offset : Z) (w w' : world)
    (deps : list (ObjType * (Z * Z) * string)) :
  build_dependencies build index l offset w = (Ok deps, w') ->
  map snd deps = map f_name (List.filter nested_field (map fst l))
  /\ forall pre f dna post,
       l = pre ++ (f, dna) :: post ->
       nested_field f = true ->
       exists t sd w1 w2,
         _struct_lookup index (fst dna) = Ok sd
         /\ build sd w1 = (Ok t, w2)
         /\ In (t, (offset + fields_size (map fst pre),
                    offset + fields_size (map fst pre) + f_size f), f_name f) deps.
Proof.
  revert offset w deps. induction l as [|[f0 dna0] l IH]; intros offset w deps H.
  - apply ret_inv in H as [-> _]. split; [reflexivity|].
    intros [|? ?] f dna post Hl; discriminate Hl.
  - apply build_dependencies_inv in H as (dep & rest & w1 & -> & Hrest & Hdep).
    destruct (IH _ _ _ Hrest) as [IHn IHs].
    cbn [map fst List.filter]. split.
    + rewrite map_app, IHn.
      destruct (nested_field f0).
      * destruct Hdep as (sd & t & w0 & _ & _ & ->). reflexivity.
      * subst dep. reflexivity.
    + intros pre f dna post Hl Hn.
      destruct pre as [|x pre].
      * injection Hl as -> -> ->. rewrite Hn in Hdep.
        destruct Hdep as (sd & t & w0 & Hsd & Ht & ->).
        exists t, sd, w0, w1. split; [exact Hsd|]. split; [exact Ht|].
        left. cbn [map fields_size fold_right]. do 2 f_equal; f_equal; lia.
      * injection Hl as Hx Hl. subst x l.
        destruct (IHs pre f dna post eq_refl Hn) as (t & sd & wa & wb & Hsd & Ht & Hin).
        exists t, sd, wa, wb. split; [exact Hsd|]. split; [exact Ht|].
        apply in_or_app. right. cbn [map fst fields_size fold_right].
        fold (fields_size (map fst pre)).
        replace (offset + (f_size f0 + fields_size (map fst pre)))
          with (offset + f_size f0 + fields_size (map fst pre)) by lia.
        exact Hin.
Qed.

Lemma nested_slices_follow_the_fields_witness :
  map snd (Records.ok_or [] (fst Runs4.world_dependencies))
  = map f_name (List.filter nested_field (map fst Runs4.world_fields))
  /\ forall pre f dna post,
       Runs4.world_fields = pre ++ (f, dna) :: post ->
       nested_field f = true ->
       exists t sd w1 w2,
         _struct_lookup Fixture.index (fst dna) = Ok sd
         /\ _build_object_type Fixture.fuel Fixture.file sd w1 = (Ok t, w2)
         /\ In (t, (0 + fields_size (map fst pre),
                    0 + fields_size (map fst pre) + f_size f), f_name f)
               (Records.ok_or [] (fst Runs4.world_dependencies)).
Proof.
  apply (nested_slices_follow_the_fields (_build_object_type Fixture.fuel Fixture.file)
           Fixture.index Runs4.world_fields 0 Fixture.w0 (snd Runs4.world_dependencies)).
  apply outcome_eq; vm_compute; reflexivity.
Defined.

(** ** Listings *)

Example tree_of_the_scenes :
  tree Fixture.fuel Fixture.file "Scene" true 999 = Ok Listings.scene_tree
  /\ list_structures Fixture.file = Ok ["ID"; "Pads"; "Scene"; "World"; "Wrap"; "rctf"].
Proof. split; vm_compute; reflexivity. Qed.

Lemma str_leb_total (a b : string) : str_leb a b = true \/ str_leb b a = true.
Proof.
  revert b. induction a as [|c a IH]; intros [|d b]; cbn [str_leb]; auto.
  destruct (N.ltb_spec (N_of_ascii c) (N_of_ascii d)); auto.
  destruct (N.ltb_spec (N_of_ascii d) (N_of_ascii c)); auto.
Qed.

Lemma str_leb_trans (a b c : string) :
  str_leb a b = true -> str_leb b c = true -> str_leb a c = true.
Proof.
  revert b c. induction a as [|x a IH]; intros [|y b] [|z c]; cbn [str_leb]; auto;
    try discriminate.
  destruct (N.ltb_spec (N_of_ascii x) (N_of_ascii y)),
           (N.ltb_spec (N_of_ascii y) (N_of_ascii x)),
           (N.ltb_spec (N_of_ascii y) (N_of_ascii z)),
           (N.ltb_spec (N_of_ascii z) (N_of_ascii y)),
           (N.ltb_spec (N_of_ascii x) (N_of_ascii z)),
           (N.ltb_spec (N_of_ascii z) (N_of_ascii x));
    try discriminate; try reflexivity; try lia.
  apply IH.
Qed.

Lemma str_le_total : Total str_le.
Proof. intros a b. apply str_leb_total. Qed.

Lemma str_le_transitive : Transitive str_le.
Proof. intros a b c. apply str_leb_trans. Qed.

Lemma structure_names_each (types : list string) (l : list BlendStructDNA)
    (names : list string) :
  structure_names types l = Ok names ->
  Forall2 (fun s n => py_index types (dna_index s) = Ok n) l names.
Proof.
  revert names. induction l as [|s l IH]; intros names H.
  - injection H as <-. constructor.
  - cbn [structure_names] in H.
    destruct (py_index types (dna_index s)) as [n|] eqn:E; [|discriminate].
    cbn [rbind] in H.
    destruct (structure_names types l) as [ns|]; [|discriminate].
    injection H as <-. constructor; [exact E|]. apply IH. reflexivity.
Qed.

(** X15: [list_structures()], when it succeeds, returns the names of
    the structures of the index, one per structure (a name that two
    structures share appears twice), in ascending order of the character
    codes. *)
Theorem list_structures_is_the_sorted_names (self : BlenderFile) (names : list string) :
  list_structures self = Ok names ->
  StronglySorted str_le names
  /\ exists unsorted,
       Forall2 (fun s n => py_index (type_names (bf_index self)) (dna_index s) = Ok n)
               (structures (bf_index self)) unsorted
       /\ names ≡ₚ unsorted.
Proof.
  unfold list_structures. intros H.
  destruct (structure_names _ _) as [unsorted|] eqn:E; [|discriminate].
  injection H as <-. split.
  - apply (@StronglySorted_merge_sort _ str_le _ str_le_transitive str_le_total).
  - exists unsorted. split; [apply structure_names_each, E|].
    apply merge_sort_Permutation.
Qed.

Lemma list_structures_is_the_sorted_names_witness :
  StronglySorted str_le ["ID"; "Pads"; "Scene"; "World"; "Wrap"; "rctf"]
  /\ exists unsorted,
       Forall2 (fun s n => py_index (type_names Fixture.index) (dna_index s) = Ok n)
               (structures Fixture.index) unsorted
       /\ ["ID"; "Pads"; "Scene"; "World"; "Wrap"; "rctf"] ≡ₚ unsorted.
Proof.
  apply (list_structures_is_the_sorted_names Fixture.file).
  vm_compute. reflexivity.
Defined.

(** ** The tree of a structure *)

Lemma list_index_lookup (l : list string) (x : string) (i : Z) :
  list_index l x = Some i ->
  0 <= i < Z.of_nat (length l) /\ l !! Z.to_nat i = Some x.
Proof.
  revert i. induction l as [|y l IH]; intros i H; [discriminate|].
  cbn [list_index] in H. destruct (String.eqb y x) eqn:E.
  - injection H as <-. apply String.eqb_eq in E. subst y. cbn. split; [lia|reflexivity].
  - destruct (list_index l x) as [j|]; [|discriminate]. injection H as <-.
    destruct (IH j eq_refl) as [Hj Hl]. cbn [length]. split; [lia|].
    replace (Z.to_nat (j + 1)) with (S (Z.to_nat j)) by lia. exact Hl.
Qed.

Lemma py_index_in_range {A} (l : list A) (i : Z) (a : A) :
  0 <= i -> l !! Z.to_nat i = Some a -> py_index l i = Ok a.
Proof.
  intros Hi Hl. unfold py_index.
  assert (Hlt : i < Z.of_nat (length l)).
  { apply lookup_lt_Some in Hl. lia. }
  assert (E1 : (i <? 0) = false) by (apply Z.ltb_ge; lia).
  assert (E2 : (Z.of_nat (length l) <=? i) = false) by (apply Z.leb_gt; lia).
  rewrite !E1, E2, Hl. reflexivity.
Qed.

(** X16: [tree(type_name)] fails otherwise than [list(type_name)]: a
    name that is no type of the file escapes as the [ValueError] of
    [tuple.index], and a type without a structure (such as [int]) raises
    the read exception that names the type. *)
Theorem tree_of_a_name_without_structure (fuel : nat) (self : BlenderFile)
    (type_name : string) (recursive : bool) (max_level : Z) :
  (~ In type_name (type_names (bf_index self)) ->
   tree fuel self type_name recursive max_level
   = Raise (ValueError "tuple.index(x): x not in tuple"))
  /\ (forall i,
        list_index (type_names (bf_index self)) type_name = Some i ->
        (forall sd, In sd (structures (bf_index self)) -> dna_index sd <> i) ->
        tree fuel self type_name recursive max_level
        = Raise (BlenderFileReadException
                   ("Type " +:+ type_name +:+ " is not associated with a structure"))).
Proof.
  unfold tree. split.
  - intros H. rewrite (list_index_absent _ _ H). reflexivity.
  - intros i Hi Hno. rewrite Hi.
    destruct (list_index_lookup _ _ _ Hi) as [[H0 Hn] Hl].
    unfold _struct_lookup. rewrite (find_none_forall _ _ Hno).
    assert (E1 : (Z.of_nat (length (type_names (bf_index self))) <? i) = false)
      by (apply Z.ltb_ge; lia).
    assert (E2 : (i <? 0) = false) by (apply Z.ltb_ge; lia).
    rewrite E1, E2. cbn [orb].
    rewrite (py_index_in_range _ _ _ H0 Hl). reflexivity.
Qed.

Lemma tree_of_a_name_without_structure_witness :
  tree Fixture.fuel Fixture.file "Mesh" true 999
  = Raise (ValueError "tuple.index(x): x not in tuple")
  /\ tree Fixture.fuel Fixture.file "int" true 999
     = Raise (BlenderFileReadException "Type int is not associated with a structure").
Proof.
  split.
  - apply (tree_of_a_name_without_structure Fixture.fuel Fixture.file "Mesh" true 999).
    simpl. intros H. repeat (destruct H as [H|H]; [discriminate H|]). exact H.
  - apply (proj2 (tree_of_a_name_without_structure Fixture.fuel Fixture.file "int"
                    true 999) 1); [reflexivity|].
    simpl. intros sd H.
    repeat (destruct H as [<-|H]; [simpl; lia|]). contradiction.
Defined.

Lemma field_lookup_flat (fuel : nat) (index : BlendIndex) (recursive : bool)
    (max_level : Z) (struct : BlendStructDNA) (indent_level : Z) :
  recursive && (indent_level <? max_level) = false ->
  field_lookup (S fuel) index recursive max_level struct indent_level
  = field_lookup 1 index false 0 struct indent_level.
Proof.
  intros Hoff. cbn [field_lookup]. rewrite Hoff. cbn [andb].
  set (indent := str_repeat _ (Z.to_nat indent_level)).
  generalize EmptyString.
  induction (dna_fields struct) as [|[ftype fname] l IH]; intros acc; [reflexivity|].
  destruct (py_index (type_names index) ftype) as [t|]; [|reflexivity].
  cbn [rbind].
  destruct (py_index (field_names index) fname) as [n|]; [|reflexivity].
  cbn [rbind]. apply IH.
Qed.

(** X17: Two ways to switch the expansion of nested structures off
    give the same tree: with [recursive=False], or with [max_level] zero
    or negative, [tree] is what [tree(type_name, False, 0)] is, it lists
    the fields of the structure alone and needs one level of recursion
    only. *)
Theorem tree_without_expansion (fuel : nat) (self : BlenderFile) (type_name : string)
    (recursive : bool) (max_level : Z) :
  recursive = false \/ max_level <= 0 ->
  tree (S fuel) self type_name recursive max_level = tree 1 self type_name false 0.
Proof.
  intros H. unfold tree.
  destruct (list_index _ type_name) as [i|]; [|reflexivity].
  destruct (_struct_lookup (bf_index self) i) as [dna|]; [|reflexivity].
  cbn [rbind]. rewrite field_lookup_flat; [reflexivity|].
  destruct H as [->|H]; [reflexivity|].
  assert (E : (0 <? max_level) = false) by (apply Z.ltb_ge; lia).
  rewrite E. apply andb_false_r.
Qed.

Lemma tree_without_expansion_witness :
  tree (S Fixture.fuel) Fixture.file "Scene" true (-3) = tree 1 Fixture.file "Scene" false 0.
Proof.
  apply (tree_without_expansion Fixture.fuel Fixture.file "Scene" true (-3)).
  right. lia.
Defined.

Lemma py_index_raises {A} (l : list A) (i : Z) (e : exn) :
  py_index l i = Raise e -> e = IndexError.
Proof.
  unfold py_index. destruct (_ || _); [congruence|].
  destruct (l !! _); congruence.
Qed.

Lemma struct_lookup_raises (index : BlendIndex) (i : Z) (e : exn) :
  _struct_lookup index i = Raise e -> e <> RecursionError.
Proof.
  unfold _struct_lookup. destruct (List.find _ _); [discriminate|].
  destruct (_ || _); [intros [= <-]; discriminate|].
  destruct (py_index (type_names index) i) as [t|] eqn:E; cbn [rbind].
  - intros [= <-]. discriminate.
  - intros [= <-]. apply py_index_raises in E. subst. discriminate.
Qed.

Lemma field_lookup_depth (index : BlendIndex) (recursive : bool) (max_level : Z)
    (fuel : nat) (struct : BlendStructDNA) (indent_level : Z) :
  Z.max 0 (max_level - indent_level) < Z.of_nat fuel ->
  field_lookup fuel index recursive max_level struct indent_level <> Raise RecursionError.
Proof.
  revert struct indent_level. induction fuel as [|fuel IH]; intros struct indent_level Hf;
    [lia|].
  cbn [field_lookup]. set (indent := str_repeat _ (Z.to_nat indent_level)).
  generalize EmptyString.
  induction (dna_fields struct) as [|[ftype fname] l IHl]; intros acc; [discriminate|].
  destruct (py_index (type_names index) ftype) as [t|] eqn:Et; cbn [rbind];
    [|apply py_index_raises in Et; subst; discriminate].
  destruct (py_index (field_names index) fname) as [n|] eqn:En; cbn [rbind];
    [|apply py_index_raises in En; subst; discriminate].
  destruct (recursive && (indent_level <? max_level)
            && existsb (Z.eqb ftype) (map dna_index (structures index))
            && negb (has_star n)) eqn:Ec; [|apply IHl].
  apply andb_true_iff in Ec as [Ec _]. apply andb_true_iff in Ec as [Ec _].
  apply andb_true_iff in Ec as [_ Ec]. apply Z.ltb_lt in Ec.
  destruct (_struct_lookup index ftype) as [s|] eqn:Es; cbn [rbind];
    [|intros [= ->]; apply (struct_lookup_raises _ _ _ Es); reflexivity].
  destruct (field_lookup fuel index recursive max_level s (indent_level + 1))
    as [sub|e] eqn:Esub; cbn [rbind]; [apply IHl|].
  intros [= ->]. apply (IH s (indent_level + 1)); [lia|exact Esub].
Qed.

(** X18: [max_level] bounds the depth of [tree]: whatever the index,
    even one in which a structure contains itself, [tree] does not run
    out of recursion when the interpreter allows more than [max_level]
    levels for [field_lookup]. *)
Theorem tree_depth_is_bounded (fuel : nat) (self : BlenderFile) (type_name : string)
    (recursive : bool) (max_level : Z) :
  Z.max 0 max_level < Z.of_nat fuel ->
  tree fuel self type_name recursive max_level <> Raise RecursionError.
Proof.
  intros Hf. unfold tree.
  destruct (list_index _ type_name) as [i|]; [|discriminate].
  destruct (_struct_lookup (bf_index self) i) as [dna|] eqn:Es; cbn [rbind];
    [|intros [= ->]; apply (struct_lookup_raises _ _ _ Es); reflexivity].
  destruct (field_lookup fuel (bf_index self) recursive max_level dna 0) as [s|e] eqn:E;
    cbn [rbind]; [discriminate|].
  intros [= ->]. revert E. apply field_lookup_depth. lia.
Qed.

Lemma tree_depth_is_bounded_witness :
  tree 4 (mkFile Fixture.header [] false []
            (mkIndex ["self"] ["Loop"] [4] [mkStructDNA 0 [(0, 0)]]))
       "Loop" true 3
  <> Raise RecursionError.
Proof.
  apply (tree_depth_is_bounded 4 _ "Loop" true 3). lia.
Defined.

(* ===================================================================== *)
(** ** Reading the file *)
(* ===================================================================== *)

Lemma block_header_size (header : BlendFileHeader) (BH : NamedStruct) :
  BlockHeader header = Ok BH ->
  Struct_size (ns_format BH) = 16 + ptr_size (h_arch header).
Proof.
  unfold BlockHeader, NamedStruct_new, _fmt_strct. cbn [fst snd].
  destruct (h_arch header); cbn; intros [= <-]; reflexivity.
Qed.

Lemma unpack_whole (BH : NamedStruct) (buf : list byte) (v : pyval) :
  Z.of_nat (length buf) <= Struct_size (ns_format BH) ->
  NamedStruct_unpack BH buf = Ok v ->
  Z.of_nat (length buf) = Struct_size (ns_format BH).
Proof.
  intros Hle. unfold NamedStruct_unpack, Struct_unpack.
  assert (E : (Struct_size (ns_format BH) <? Z.of_nat (length buf)) = false)
    by (apply Z.ltb_ge; lia).
  rewrite E. cbn [andb].
  destruct (Z.eqb_spec (Z.of_nat (length buf)) (Struct_size (ns_format BH)));
    [auto|discriminate].
Qed.

Lemma obind_returns {A B} (c : outcome A) (k : A -> outcome B) (b : B) :
  obind c k = Returns b -> exists a, c = Returns a /\ k a = Returns b.
Proof. destruct c; try discriminate. eauto. Qed.

Lemma of_result_returns {A} (r : result A) (a : A) :
  of_result r = Returns a -> r = Ok a.
Proof. destruct r; [intros [= ->]; reflexivity|discriminate]. Qed.

Lemma parse_end_returns bi (end_found : bool) pairs r :
  parse_end bi end_found pairs = Returns r ->
  end_found = true /\ exists index, bi = Some index /\ r = (pairs, index).
Proof.
  unfold parse_end. destruct bi as [index|]; [|discriminate].
  destruct end_found; [|discriminate]. intros [= <-]. eauto.
Qed.

(** One round of the loop of [_parse_blocks] that leads to a result. *)
Lemma parse_loop_round (fuel : nat) (header : BlendFileHeader) (BH : NamedStruct)
    (content : list byte) (pos : Z) bi pairs r :
  0 < Struct_size (ns_format BH) ->
  0 <= pos ->
  parse_loop (S fuel) header BH content pos bi pairs = Returns r ->
  let hs := Struct_size (ns_format BH) in
  exists block,
    pos + hs <= Z.of_nat (length content)
    /\ header_at BH content (Z.to_nat pos) = Ok block
    /\ 0 <= pos + hs + b_size block
    /\ ((b_code block = DNA1
         /\ exists index,
              _parse_index header content (Z.to_nat (pos + hs)) block = Returns index
              /\ parse_loop fuel header BH content (pos + hs + b_size block)
                   (Some index) pairs = Returns r)
        \/ (b_code block <> DNA1 /\ b_code block = ENDB
            /\ exists index, bi = Some index /\ r = (pairs, index))
        \/ (b_code block <> DNA1 /\ b_code block <> ENDB
            /\ parse_loop fuel header BH content (pos + hs + b_size block) bi
                 (pairs ++ [(block, Z.to_nat (pos + hs))]) = Returns r)).
Proof.
  intros Hhs Hpos H hs. cbn [parse_loop] in H. fold hs in H.
  destruct (Z.eqb_spec (Z.of_nat (length content)) pos) as [Heq|Hne].
  { apply parse_end_returns in H as [H _]. discriminate H. }
  set (buf := if Z.of_nat (length content) <? pos then []
              else take (Z.to_nat hs) (drop (Z.to_nat pos) content)) in *.
  apply obind_returns in H as (block & Hblock & H).
  apply of_result_returns in Hblock.
  destruct (NamedStruct_unpack BH buf) as [v|] eqn:Hv; [|discriminate].
  cbn [rbind] in Hblock.
  assert (Hbuf : Z.of_nat (length buf) = hs).
  { apply (unpack_whole BH buf v); [|exact Hv]. subst buf.
    destruct (Z.of_nat (length content) <? pos); [cbn; lia|].
    rewrite length_take. fold hs. lia. }
  assert (Hin : (Z.of_nat (length content) <? pos) = false).
  { destruct (Z.ltb_spec (Z.of_nat (length content)) pos); [|reflexivity].
    subst buf. exfalso.
    replace (Z.of_nat (length content) <? pos) with true in Hbuf
      by (symmetry; apply Z.ltb_lt; lia).
    cbn in Hbuf. lia. }
  subst buf. rewrite Hin in *. rewrite Hbuf in H.
  assert (Hfit : pos + hs <= Z.of_nat (length content)).
  { rewrite length_take, length_drop in Hbuf. lia. }
  exists block. split; [exact Hfit|]. split.
  { unfold header_at. fold hs. rewrite Hv. exact Hblock. }
  apply obind_returns in H as ([[bi' end_found] pairs'] & Hcase & H).
  destruct (Z.ltb_spec (pos + hs + b_size block) 0) as [|Hge]; [discriminate|].
  split; [exact Hge|].
  destruct (bytes_eqb (b_code block) (list_byte_of_string "DNA1")) eqn:Ed.
  - left. apply bytes_eqb_eq in Ed. split; [exact Ed|].
    apply obind_returns in Hcase as (index & Hidx & Hcase).
    injection Hcase as <- <- <-. exists index. split; [exact Hidx|exact H].
  - assert (Hd : b_code block <> DNA1).
    { intros Hc. apply bytes_eqb_eq in Hc. unfold DNA1 in Hc. congruence. }
    destruct (bytes_eqb (b_code block) (list_byte_of_string "ENDB")) eqn:Ee.
    + right. left. apply bytes_eqb_eq in Ee. injection Hcase as <- <- <-.
      apply parse_end_returns in H as [_ H]. auto.
    + right. right. injection Hcase as <- <- <-.
      split; [exact Hd|]. split; [|exact H].
      intros Hc. apply bytes_eqb_eq in Hc. unfold ENDB in Hc. congruence.
Qed.

Lemma parse_loop_starts_with_a_header (fuel : nat) header BH content (pos : Z) bi pairs r :
  0 < Struct_size (ns_format BH) -> 0 <= pos ->
  parse_loop fuel header BH content pos bi pairs = Returns r ->
  pos + Struct_size (ns_format BH) <= Z.of_nat (length content).
Proof.
  intros Hhs Hpos H. destruct fuel as [|fuel]; [discriminate|].
  destruct (parse_loop_round _ _ _ _ _ _ _ _ Hhs Hpos H) as (block & Hfit & _). exact Hfit.
Qed.

Lemma parse_loop_table (fuel : nat) header BH content (pos : Z) bi pairs blocks index :
  0 < Struct_size (ns_format BH) -> 0 <= pos ->
  parse_loop fuel header BH content pos bi pairs = Returns (blocks, index) ->
  exists more, blocks = pairs ++ more /\ Forall (block_in_file BH content) more.
Proof.
  intros Hhs. revert pos bi pairs.
  induction fuel as [|fuel IH]; intros pos bi pairs Hpos H; [discriminate|].
  destruct (parse_loop_round _ _ _ _ _ _ _ _ Hhs Hpos H)
    as (block & Hfit & Hat & Hge & [(Hd & idx & _ & Hrec)|[(_ & _ & idx & _ & Hr)|(Hd & He & Hrec)]]).
  - apply (IH _ _ _ Hge Hrec).
  - injection Hr as -> _. exists []. split; [symmetry; apply app_nil_r|constructor].
  - pose proof (parse_loop_starts_with_a_header _ _ _ _ _ _ _ _ Hhs Hge Hrec) as Hnext.
    destruct (IH _ _ _ Hge Hrec) as (more & -> & Hall).
    exists ((block, Z.to_nat (pos + Struct_size (ns_format BH))) :: more).
    split; [rewrite <- app_assoc; reflexivity|].
    constructor; [|exact Hall].
    unfold block_in_file.
    replace (Z.to_nat (pos + Struct_size (ns_format BH))
             - Z.to_nat (Struct_size (ns_format BH)))%nat
      with (Z.to_nat pos) by lia.
    repeat split; try assumption; lia.
Qed.

(** X19: Every entry of the block table of a file that was opened is
    in the file: its header is the one stored in the bytes right before
    its offset, its code is neither [DNA1] nor [ENDB], the block that it
    announces ends within the file, before the header of a next block, and
    so, when its size is not negative, [_read_block] returns exactly that
    many bytes. *)
Theorem parsed_blocks_are_in_the_file (fuel : nat) (header : BlendFileHeader)
    (content : list byte) blocks index :
  _parse_blocks fuel header content = Returns (blocks, index) ->
  exists BH,
    BlockHeader header = Ok BH
    /\ Forall (fun entry =>
                 block_in_file BH content entry
                 /\ (0 <= b_size (fst entry) ->
                     exists data,
                       _read_block (mkFile header content false blocks index)
                         (fst entry) (snd entry) = Ok data
                       /\ Z.of_nat (length data) = b_size (fst entry)))
              blocks.
Proof.
  unfold _parse_blocks. intros H.
  apply obind_returns in H as (BH & HBH & H). apply of_result_returns in HBH.
  exists BH. split; [exact HBH|].
  assert (Hhs : 0 < Struct_size (ns_format BH)).
  { rewrite (block_header_size _ _ HBH). destruct (h_arch header); cbn; lia. }
  assert (H12 : 0 <= 12) by lia.
  destruct (parse_loop_table _ _ _ _ _ _ _ _ _ Hhs H12 H) as (more & -> & Hall).
  cbn [app]. eapply List.Forall_impl; [|exact Hall].
  intros [block offset] Hin. split; [exact Hin|].
  cbn [fst snd]. intros Hsize.
  destruct Hin as (_ & _ & _ & _ & _ & Hfit).
  unfold _read_block, handle_read. cbn [bf_closed bf_handle].
  assert (E1 : (b_size block =? -1) = false) by (apply Z.eqb_neq; lia).
  assert (E2 : (b_size block <? 0) = false) by (apply Z.ltb_ge; lia).
  rewrite E1, E2. eexists. split; [reflexivity|].
  rewrite length_take, length_drop. lia.
Qed.

Lemma parsed_blocks_are_in_the_file_witness :
  exists BH,
    BlockHeader Fixture.header = Ok BH
    /\ Forall (fun entry =>
                 block_in_file BH Disk.content entry
                 /\ (0 <= b_size (fst entry) ->
                     exists data,
                       _read_block (mkFile Fixture.header Disk.content false
                                      (blocks_table Fixture.header 12 Disk.data_blocks)
                                      Fixture.index)
                         (fst entry) (snd entry) = Ok data
                       /\ Z.of_nat (length data) = b_size (fst entry)))
              (blocks_table Fixture.header 12 Disk.data_blocks).
Proof.
  apply (parsed_blocks_are_in_the_file 10 Fixture.header Disk.content).
  vm_compute. reflexivity.
Defined.

Lemma parse_loop_index (fuel : nat) header BH content (pos : Z) bi pairs blocks index
    (P : BlendIndex -> Prop) (Q : Prop) :
  0 < Struct_size (ns_format BH) -> 0 <= pos ->
  (forall p head idx,
      header_at BH content p = Ok head -> b_code head = DNA1 ->
      _parse_index header content
        (p + Z.to_nat (Struct_size (ns_format BH))) head = Returns idx ->
      P idx) ->
  (forall p head, header_at BH content p = Ok head -> b_code head = ENDB -> Q) ->
  (forall idx, bi = Some idx -> P idx) ->
  parse_loop fuel header BH content pos bi pairs = Returns (blocks, index) ->
  P index /\ Q.
Proof.
  intros Hhs Hpos HP HQ. revert pos bi pairs Hpos.
  induction fuel as [|fuel IH]; intros pos bi pairs Hpos Hbi H; [discriminate|].
  destruct (parse_loop_round _ _ _ _ _ _ _ _ Hhs Hpos H)
    as (block & Hfit & Hat & Hge & [(Hd & idx & Hidx & Hrec)|[(_ & He & idx & Hsome & Hr)|(Hd & He & Hrec)]]).
  - apply (IH _ _ _ Hge) in Hrec; [exact Hrec|].
    intros idx' [= <-]. apply (HP (Z.to_nat pos) block idx Hat Hd).
    replace (Z.to_nat pos + Z.to_nat (Struct_size (ns_format BH)))%nat
      with (Z.to_nat (pos + Struct_size (ns_format BH))) by lia.
    exact Hidx.
  - injection Hr as _ ->. split; [apply Hbi, Hsome|]. apply (HQ _ _ Hat He).
  - apply (IH _ _ _ Hge Hbi Hrec).
Qed.

(** X20: A file that was opened holds an index block and an end
    marker: the index returned is what [_parse_index] reads for a block
    whose header, stored in the file, has the code [DNA1], and a header
    with the code [ENDB] is stored in the file too. *)
Theorem parsed_index_comes_from_a_DNA1_block (fuel : nat) (header : BlendFileHeader)
    (content : list byte) blocks index :
  _parse_blocks fuel header content = Returns (blocks, index) ->
  exists BH,
    BlockHeader header = Ok BH
    /\ (exists pos head,
          header_at BH content pos = Ok head /\ b_code head = DNA1
          /\ _parse_index header content
               (pos + Z.to_nat (Struct_size (ns_format BH))) head = Returns index)
    /\ (exists pos head, header_at BH content pos = Ok head /\ b_code head = ENDB).
Proof.
  unfold _parse_blocks. intros H.
  apply obind_returns in H as (BH & HBH & H). apply of_result_returns in HBH.
  exists BH. split; [exact HBH|].
  assert (Hhs : 0 < Struct_size (ns_format BH)).
  { rewrite (block_header_size _ _ HBH). destruct (h_arch header); cbn; lia. }
  assert (H12 : 0 <= 12) by lia.
  apply (parse_loop_index _ _ _ _ _ _ _ _ _
           (fun idx => exists pos head,
                header_at BH content pos = Ok head /\ b_code head = DNA1
                /\ _parse_index header content
                     (pos + Z.to_nat (Struct_size (ns_format BH))) head = Returns idx)
           (exists pos head, header_at BH content pos = Ok head /\ b_code head = ENDB)
           Hhs H12) in H; [exact H| | |].
  - intros p head idx H1 H2 H3. eauto.
  - intros p head H1 H2. eauto.
  - discriminate.
Qed.

Lemma parsed_index_comes_from_a_DNA1_block_witness :
  exists BH,
    BlockHeader Fixture.header = Ok BH
    /\ (exists pos head,
          header_at BH Disk.content pos = Ok head /\ b_code head = DNA1
          /\ _parse_index Fixture.header Disk.content
               (pos + Z.to_nat (Struct_size (ns_format BH))) head = Returns Fixture.index)
    /\ (exists pos head, header_at BH Disk.content pos = Ok head /\ b_code head = ENDB).
Proof.
  apply (parsed_index_comes_from_a_DNA1_block 10 Fixture.header Disk.content
           (blocks_table Fixture.header 12 Disk.data_blocks)).
  vm_compute. reflexivity.
Defined.

Example the_small_file_on_disk :
  _parse_blocks 10 Fixture.header Disk.content
  = Returns (blocks_table Fixture.header 12 Disk.data_blocks, Fixture.index).
Proof. vm_compute. reflexivity. Qed.

(** ** Writing and reading back a block header *)

Lemma byte_val_byte_of_Z (z : Z) : byte_val (Fixture.byte_of_Z z) = z mod 256.
Proof.
  unfold byte_val, Fixture.byte_of_Z.
  assert (Hr : 0 <= z mod 256 < 256) by (apply Z.mod_pos_bound; lia).
  destruct (Byte.of_N (Z.to_N (z mod 256))) as [b|] eqn:E.
  - apply Byte.to_of_N in E. change (Z.of_N (Byte.to_N b) = z mod 256). rewrite E. lia.
  - pose proof (Byte.to_of_N_option_map (Z.to_N (z mod 256))) as H.
    rewrite E in H. cbn in H.
    destruct (N.leb_spec (Z.to_N (z mod 256)) 255); [discriminate|lia].
Qed.

Lemma length_le_bytes (n : nat) (z : Z) : length (Fixture.le_bytes n z) = n.
Proof.
  revert z. induction n as [|n IH]; intros z; [reflexivity|].
  cbn [Fixture.le_bytes length]. rewrite IH. reflexivity.
Qed.

Lemma uint_le_le_bytes (n : nat) (z : Z) :
  uint_le (Fixture.le_bytes n z) = z mod 256 ^ Z.of_nat n.
Proof.
  revert z. induction n as [|n IH]; intros z.
  - cbn. rewrite Z.mod_1_r. reflexivity.
  - cbn [Fixture.le_bytes uint_le]. rewrite byte_val_byte_of_Z, IH.
    rewrite Nat2Z.inj_succ, Z.pow_succ_r by lia.
    rewrite Z.rem_mul_r by lia. reflexivity.
Qed.

Lemma length_encode_int e (n : nat) (z : Z) : length (encode_int e n z) = n.
Proof.
  destruct e; cbn [encode_int]; rewrite ?length_rev; apply length_le_bytes.
Qed.

Lemma uint_of_encode_int e (n : nat) (z : Z) :
  uint_of_bytes e (encode_int e n z) = z mod 256 ^ Z.of_nat n.
Proof.
  destruct e; cbn [encode_int uint_of_bytes]; rewrite ?rev_involutive;
    apply uint_le_le_bytes.
Qed.

Lemma unsigned_read_back e (n : nat) (z : Z) :
  0 <= z < 2 ^ (8 * Z.of_nat n) ->
  uint_of_bytes e (encode_int e n z) = z.
Proof.
  intros Hz. rewrite uint_of_encode_int.
  replace (256 ^ Z.of_nat n) with (2 ^ (8 * Z.of_nat n))
    by (rewrite Z.pow_mul_r by lia; reflexivity).
  apply Z.mod_small. exact Hz.
Qed.

Lemma signed_read_back e (z : Z) :
  - 2 ^ 31 <= z < 2 ^ 31 ->
  sint_of_bytes e (encode_int e 4 z) = z.
Proof.
  intros Hz. unfold sint_of_bytes.
  rewrite uint_of_encode_int, length_encode_int.
  change (256 ^ Z.of_nat 4) with 4294967296.
  change (2 ^ (8 * Z.of_nat 4)) with 4294967296.
  change (4294967296 / 2) with 2147483648.
  change (2 ^ 31) with 2147483648 in Hz.
  destruct (Z.ltb_spec (z mod 4294967296) 2147483648) as [Hlt|Hge].
  - destruct (Z_lt_le_dec z 0) as [Hneg|Hpos].
    + rewrite <- (Z.mod_add z 1 4294967296) in Hlt by lia.
      rewrite Z.mod_small in Hlt by lia. lia.
    + apply Z.mod_small. lia.
  - destruct (Z_lt_le_dec z 0) as [Hneg|Hpos].
    + rewrite <- (Z.mod_add z 1 4294967296) by lia.
      rewrite Z.mod_small by lia. lia.
    + rewrite Z.mod_small in Hge by lia. lia.
Qed.

Lemma length_encode_block (header : BlendFileHeader) (b : BlendBlockHeader) :
  length (b_code b) = 4%nat ->
  Z.of_nat (length (encode_block header b)) = 16 + ptr_size (h_arch header).
Proof.
  intros Hc. unfold encode_block. rewrite !length_app, !length_encode_int, Hc.
  destruct (h_arch header); cbn; lia.
Qed.

Lemma block_header_read_back (header : BlendFileHeader) (BH : NamedStruct)
    (b : BlendBlockHeader) :
  BlockHeader header = Ok BH ->
  fits_header header b ->
  (let* v := NamedStruct_unpack BH (encode_block header b) in block_of v) = Ok b.
Proof.
  intros HBH (Hc & Hsize & Haddr & Hsdna & Hcount).
  unfold NamedStruct_unpack, Struct_unpack.
  rewrite (length_encode_block header b Hc), (block_header_size _ _ HBH).
  rewrite Z.ltb_irrefl, Z.eqb_refl. cbn [andb rbind].
  unfold BlockHeader, NamedStruct_new, _fmt_strct in HBH. cbn [fst snd] in HBH.
  destruct b as [code size addr sdna count]. cbn [b_code b_size b_addr b_sdna b_count] in *.
  unfold encode_block. cbn [b_code b_size b_addr b_sdna b_count].
  destruct (h_arch header) eqn:Ea; cbn in HBH; injection HBH as <-;
    cbn [ns_format ns_names st_endian st_items ptr_size unpack_items code_width];
    change (Z.to_nat 1) with 1%nat; change (Z.to_nat 4) with 4%nat;
    change (Z.to_nat 8) with 8%nat; cbn [unpack_repeat app decode_code];
    repeat (rewrite ?take_app_length', ?drop_app_length' by
              (rewrite ?length_encode_int; auto));
    rewrite ?take_ge by (rewrite ?length_encode_int; lia);
    rewrite !signed_read_back by assumption;
    rewrite unsigned_read_back by (cbn in Haddr |- *; lia);
    reflexivity.
Qed.

Lemma bytes_eqb_neq (a b : list byte) : a <> b -> bytes_eqb a b = false.
Proof.
  intros H. destruct (bytes_eqb a b) eqn:E; [|reflexivity].
  apply bytes_eqb_eq in E. contradiction.
Qed.

(** The round of the loop of [_parse_blocks] at a position where the
    file holds the header [b]. *)
Lemma parse_loop_at (fuel : nat) (header : BlendFileHeader) (BH : NamedStruct)
    (content prefix rest : list byte) (b : BlendBlockHeader) bi pairs :
  BlockHeader header = Ok BH ->
  fits_header header b ->
  content = prefix ++ encode_block header b ++ rest ->
  let pos := Z.of_nat (length prefix) + (16 + ptr_size (h_arch header)) in
  parse_loop (S fuel) header BH content (Z.of_nat (length prefix)) bi pairs
  = let+ (bi', end_found, pairs') :=
      (if bytes_eqb (b_code b) DNA1 then
         let+ index := _parse_index header content (Z.to_nat pos) b in
         Returns (Some index, false, pairs)
       else if bytes_eqb (b_code b) ENDB then Returns (bi, true, pairs)
       else Returns (bi, false, pairs ++ [(b, Z.to_nat pos)])) in
    if pos + b_size b <? 0 then RaisesOSError
    else if end_found then parse_end bi' true pairs'
    else parse_loop fuel header BH content (pos + b_size b) bi' pairs'.
Proof.
  intros HBH Hfit Hcontent pos.
  pose proof (length_encode_block header b (proj1 Hfit)) as Hlen.
  pose proof (block_header_size _ _ HBH) as Hhs.
  assert (Hp : 0 < 16 + ptr_size (h_arch header)) by (destruct (h_arch header); cbn; lia).
  cbn [parse_loop]. rewrite Hhs.
  assert (Hc : Z.of_nat (length content)
               = Z.of_nat (length prefix) + (16 + ptr_size (h_arch header))
                 + Z.of_nat (length rest)).
  { rewrite Hcontent, !length_app. lia. }
  assert (E1 : (Z.of_nat (length content) =? Z.of_nat (length prefix)) = false)
    by (apply Z.eqb_neq; lia).
  assert (E2 : (Z.of_nat (length content) <? Z.of_nat (length prefix)) = false)
    by (apply Z.ltb_ge; lia).
  rewrite E1, E2, Nat2Z.id.
  assert (Hbuf : take (Z.to_nat (16 + ptr_size (h_arch header))) (drop (length prefix) content)
                 = encode_block header b).
  { rewrite Hcontent, drop_app_length. apply take_app_length'. lia. }
  rewrite Hbuf, Hlen. fold pos.
  rewrite (block_header_read_back _ _ _ HBH Hfit). reflexivity.
Qed.

Lemma parse_loop_data (fuel : nat) (header : BlendFileHeader) (BH : NamedStruct)
    (content prefix rest payload : list byte) (b : BlendBlockHeader) bi pairs :
  BlockHeader header = Ok BH ->
  data_block header (b, payload) ->
  content = prefix ++ (encode_block header b ++ payload) ++ rest ->
  parse_loop (S fuel) header BH content (Z.of_nat (length prefix)) bi pairs
  = parse_loop fuel header BH content
      (Z.of_nat (length (prefix ++ encode_block header b ++ payload))) bi
      (pairs ++ [(b, (length prefix + Z.to_nat (16 + ptr_size (h_arch header)))%nat)]).
Proof.
  intros HBH (Hfit & Hd & He & Hsize) Hcontent. cbn [fst snd] in *.
  rewrite (parse_loop_at fuel header BH content prefix (payload ++ rest) b bi pairs HBH Hfit)
    by (rewrite Hcontent, <- !app_assoc; reflexivity).
  rewrite (bytes_eqb_neq _ _ Hd), (bytes_eqb_neq _ _ He). cbn [obind].
  pose proof (length_encode_block header b (proj1 Hfit)) as Hlen.
  assert (E : (Z.of_nat (length prefix) + (16 + ptr_size (h_arch header)) + b_size b <? 0)
              = false) by (apply Z.ltb_ge; lia).
  rewrite E. f_equal.
  - rewrite !length_app. lia.
  - do 3 f_equal. lia.
Qed.

Lemma parse_loop_data_blocks (header : BlendFileHeader) (BH : NamedStruct)
    (ds : list (BlendBlockHeader * list byte)) :
  BlockHeader header = Ok BH ->
  Forall (data_block header) ds ->
  forall (fuel : nat) (content prefix rest : list byte) bi pairs,
    content = prefix ++ blocks_bytes header ds ++ rest ->
    parse_loop (length ds + fuel) header BH content (Z.of_nat (length prefix)) bi pairs
    = parse_loop fuel header BH content
        (Z.of_nat (length (prefix ++ blocks_bytes header ds))) bi
        (pairs ++ blocks_table header (length prefix) ds).
Proof.
  intros HBH Hall. induction Hall as [|[b payload] ds Hd Hall IH];
    intros fuel content prefix rest bi pairs Hcontent.
  - cbn. rewrite !app_nil_r. reflexivity.
  - cbn [length Nat.add blocks_table].
    unfold blocks_bytes in Hcontent. cbn [map concat fst snd] in Hcontent.
    fold (blocks_bytes header ds) in Hcontent.
    rewrite (parse_loop_data _ header BH content prefix (blocks_bytes header ds ++ rest)
               payload b bi pairs HBH Hd)
      by (rewrite Hcontent, <- !app_assoc; reflexivity).
    rewrite (IH fuel content (prefix ++ encode_block header b ++ payload) rest)
      by (rewrite Hcontent, <- !app_assoc; reflexivity).
    pose proof (length_encode_block header b (proj1 (proj1 Hd))) as Hlen.
    cbn [fst] in Hlen.
    f_equal.
    + unfold blocks_bytes. cbn [map concat fst snd]. rewrite <- !app_assoc. reflexivity.
    + rewrite <- app_assoc. cbn [app]. do 2 f_equal.
      rewrite !length_app. f_equal. lia.
Qed.

(** X21: A file that is laid out as the format says is read back: for
    the twelve header bytes followed by data blocks (each a header that
    fits, then as many bytes as the header announces), the index block,
    the end marker (a header that fits, with a size that is not negative)
    and anything after it, [_parse_blocks] returns the
    headers of the data blocks in order, each with the position of its
    bytes, and the index that [_parse_index] reads from the index block;
    one round of the loop per block is enough. *)
Theorem laid_out_file_is_read_back (fuel : nat) (header : BlendFileHeader)
    (magic : list byte) (ds : list (BlendBlockHeader * list byte))
    (dna : BlendBlockHeader) (dna_bytes : list byte) (endb : BlendBlockHeader)
    (trailing : list byte) (index : BlendIndex) :
  length magic = 12%nat ->
  Forall (data_block header) ds ->
  fits_header header dna -> b_code dna = DNA1 ->
  b_size dna = Z.of_nat (length dna_bytes) ->
  fits_header header endb -> b_code endb = ENDB -> 0 <= b_size endb ->
  _parse_index header (file_bytes header magic ds dna dna_bytes endb trailing)
    (12 + length (blocks_bytes header ds) + Z.to_nat (16 + ptr_size (h_arch header)))
    dna = Returns index ->
  (length ds + 2 <= fuel)%nat ->
  _parse_blocks fuel header (file_bytes header magic ds dna dna_bytes endb trailing)
  = Returns (blocks_table header 12 ds, index).
Proof.
  intros Hmagic Hall Hfd Hcd Hsd Hfe Hce Hse Hindex Hfuel.
  set (content := file_bytes header magic ds dna dna_bytes endb trailing) in *.
  unfold _parse_blocks.
  destruct (BlockHeader header) as [BH|] eqn:HBH;
    [|unfold BlockHeader, NamedStruct_new, _fmt_strct in HBH;
      destruct (h_arch header); discriminate HBH].
  cbn [of_result obind].
  replace fuel with (length ds + S (S (fuel - length ds - 2)))%nat by lia.
  change 12 with (Z.of_nat 12). rewrite <- Hmagic.
  rewrite (parse_loop_data_blocks header BH ds HBH Hall _ content magic
             (encode_block header dna ++ dna_bytes ++ encode_block header endb ++ trailing))
    by reflexivity.
  cbn [app].
  pose proof (length_encode_block header dna (proj1 Hfd)) as Hld.
  assert (Hp : 0 < 16 + ptr_size (h_arch header)) by (destruct (h_arch header); cbn; lia).
  rewrite (parse_loop_at _ header BH content (magic ++ blocks_bytes header ds)
             (dna_bytes ++ encode_block header endb ++ trailing) dna _ _ HBH Hfd)
    by (unfold content, file_bytes; rewrite <- !app_assoc; reflexivity).
  rewrite Hcd. change (bytes_eqb DNA1 DNA1) with true. cbn iota.
  replace (Z.to_nat (Z.of_nat (length (magic ++ blocks_bytes header ds))
                     + (16 + ptr_size (h_arch header))))
    with (12 + length (blocks_bytes header ds)
          + Z.to_nat (16 + ptr_size (h_arch header)))%nat
    by (rewrite length_app, Hmagic; lia).
  rewrite Hindex. cbn [obind].
  assert (E : (Z.of_nat (length (magic ++ blocks_bytes header ds))
               + (16 + ptr_size (h_arch header)) + b_size dna <? 0) = false)
    by (apply Z.ltb_ge; lia).
  rewrite E.
  replace (Z.of_nat (length (magic ++ blocks_bytes header ds))
           + (16 + ptr_size (h_arch header)) + b_size dna)
    with (Z.of_nat (length ((magic ++ blocks_bytes header ds)
                            ++ encode_block header dna ++ dna_bytes)))
    by (rewrite !length_app in *; lia).
  rewrite (parse_loop_at _ header BH content
             ((magic ++ blocks_bytes header ds) ++ encode_block header dna ++ dna_bytes)
             trailing endb _ _ HBH Hfe)
    by (unfold content, file_bytes; rewrite <- !app_assoc; reflexivity).
  rewrite Hce. change (bytes_eqb ENDB DNA1) with false.
  change (bytes_eqb ENDB ENDB) with true. cbn iota. cbn [obind].
  match goal with |- context [?t <? 0] =>
    assert (E' : (t <? 0) = false) by (apply Z.ltb_ge; lia); rewrite E' end.
  rewrite Hmagic. reflexivity.
Qed.

Lemma laid_out_file_is_read_back_witness :
  _parse_blocks 8 Fixture.header Disk.content
  = Returns (blocks_table Fixture.header 12 Disk.data_blocks, Fixture.index).
Proof.
  apply (laid_out_file_is_read_back 8 Fixture.header (list_byte_of_string "BLENDER-v277")
           Disk.data_blocks Disk.dna_head Disk.dna_bytes Disk.endb_head []
           Fixture.index).
  - reflexivity.
  - repeat constructor; cbn; try lia; discriminate.
  - repeat split; vm_compute; try reflexivity; intros H; discriminate H.
  - reflexivity.
  - reflexivity.
  - repeat split; vm_compute; try reflexivity; intros H; discriminate H.
  - reflexivity.
  - cbn. lia.
  - vm_compute. reflexivity.
  - cbn. lia.
Defined.

(** ** Writing and reading back an index *)

Lemma py_slice_Z_mid {A} (pre mid post : list A) :
  py_slice_Z (Z.of_nat (length pre)) (Z.of_nat (length pre) + Z.of_nat (length mid))
             (pre ++ mid ++ post) = mid.
Proof.
  unfold py_slice_Z, py_slice. rewrite !length_app.
  assert (E1 : (Z.of_nat (length pre) <? 0) = false) by (apply Z.ltb_ge; lia).
  assert (E2 : (Z.of_nat (length pre) + Z.of_nat (length mid) <? 0) = false)
    by (apply Z.ltb_ge; lia).
  rewrite E1, E2.
  rewrite Z.min_l, Z.min_l by lia.
  replace (Z.to_nat (Z.of_nat (length pre) + Z.of_nat (length mid))
           - Z.to_nat (Z.of_nat (length pre)))%nat with (length mid) by lia.
  rewrite Nat2Z.id, drop_app_length. apply take_app_length.
Qed.

Lemma py_slice_Z_from {A} (pre rest : list A) :
  py_slice_Z (Z.of_nat (length pre)) (Z.of_nat (length (pre ++ rest))) (pre ++ rest) = rest.
Proof.
  pose proof (py_slice_Z_mid pre rest []) as H. rewrite app_nil_r in H.
  rewrite length_app, Nat2Z.inj_add. exact H.
Qed.

Lemma Struct_unpack_from_mid (s : Struct) (pre mid post : list byte) :
  Z.of_nat (length mid) = Struct_size s ->
  Struct_unpack_from s (pre ++ mid ++ post) (Z.of_nat (length pre))
  = Ok (unpack_items (st_endian s) (st_items s) mid).
Proof.
  intros Hsize. unfold Struct_unpack_from. rewrite !length_app.
  assert (E1 : (Z.of_nat (length pre) <? 0) = false) by (apply Z.ltb_ge; lia).
  assert (E2 : (Z.of_nat (length pre + (length mid + length post))
                - Z.of_nat (length pre) <? Struct_size s) = false)
    by (apply Z.ltb_ge; lia).
  rewrite E1, E2, Nat2Z.id, drop_app_length, <- Hsize, Nat2Z.id, take_app_length.
  reflexivity.
Qed.

Lemma signed16_read_back e (z : Z) :
  int16 z -> sint_of_bytes e (encode_int e 2 z) = z.
Proof.
  unfold int16. intros Hz. unfold sint_of_bytes.
  rewrite uint_of_encode_int, length_encode_int.
  change (256 ^ Z.of_nat 2) with 65536.
  change (2 ^ (8 * Z.of_nat 2)) with 65536.
  change (65536 / 2) with 32768.
  change (2 ^ 15) with 32768 in Hz.
  destruct (Z.ltb_spec (z mod 65536) 32768) as [Hlt|Hge].
  - destruct (Z_lt_le_dec z 0) as [Hneg|Hpos].
    + rewrite <- (Z.mod_add z 1 65536) in Hlt by lia.
      rewrite Z.mod_small in Hlt by lia. lia.
    + apply Z.mod_small. lia.
  - destruct (Z_lt_le_dec z 0) as [Hneg|Hpos].
    + rewrite <- (Z.mod_add z 1 65536) by lia.
      rewrite Z.mod_small by lia. lia.
    + rewrite Z.mod_small in Hge by lia. lia.
Qed.

(** The three formats of [_parse_index]. *)
Lemma index_formats (header : BlendFileHeader) :
  NamedStruct_new ["val"] (_fmt_strct header [(1, Ci)])
  = Ok (mkNamedStruct ["val"] (mkPyStruct (h_endian header) [(1, Ci)]))
  /\ NamedStruct_new ["val"] (_fmt_strct header [(1, Ch)])
     = Ok (mkNamedStruct ["val"] (mkPyStruct (h_endian header) [(1, Ch)]))
  /\ NamedStruct_new ["index_type"; "index_name"] (_fmt_strct header [(1, Ch); (1, Ch)])
     = Ok (mkNamedStruct ["index_type"; "index_name"]
             (mkPyStruct (h_endian header) [(1, Ch); (1, Ch)])).
Proof. unfold NamedStruct_new, _fmt_strct. destruct (h_arch header); repeat split. Qed.

Lemma read_int_back e (pre post : list byte) (z : Z) :
  - 2 ^ 31 <= z < 2 ^ 31 ->
  (let* v := NamedStruct_unpack_from (mkNamedStruct ["val"] (mkPyStruct e [(1, Ci)]))
               (pre ++ encode_int e 4 z ++ post) (Z.of_nat (length pre)) in
   val v) = Ok z.
Proof.
  intros Hz. unfold NamedStruct_unpack_from. cbn [ns_format ns_names].
  rewrite Struct_unpack_from_mid by (rewrite length_encode_int; reflexivity).
  cbn [rbind st_endian st_items unpack_items code_width].
  change (Z.to_nat 1) with 1%nat. change (Z.to_nat 4) with 4%nat.
  cbn [unpack_repeat app decode_code].
  rewrite take_ge by (rewrite length_encode_int; lia).
  rewrite (signed_read_back e z Hz). reflexivity.
Qed.

Lemma read_short_back e (pre post : list byte) (z : Z) :
  int16 z ->
  (let* v := NamedStruct_unpack_from (mkNamedStruct ["val"] (mkPyStruct e [(1, Ch)]))
               (pre ++ encode_int e 2 z ++ post) (Z.of_nat (length pre)) in
   val v) = Ok z.
Proof.
  intros Hz. unfold NamedStruct_unpack_from. cbn [ns_format ns_names].
  rewrite Struct_unpack_from_mid by (rewrite length_encode_int; reflexivity).
  cbn [rbind st_endian st_items unpack_items code_width].
  change (Z.to_nat 1) with 1%nat. change (Z.to_nat 2) with 2%nat.
  cbn [unpack_repeat app decode_code].
  rewrite take_ge by (rewrite length_encode_int; lia).
  rewrite (signed16_read_back e z Hz). reflexivity.
Qed.

Lemma split_nul_zero (data : list byte) : split_nul false 0 data = [data].
Proof.
  induction data as [|b data IH]; [reflexivity|].
  cbn [split_nul]. rewrite andb_false_r, IH. reflexivity.
Qed.

Lemma split_nul_name (name : list byte) (k : nat) (more : list byte) :
  Forall (fun b => 0 < byte_val b < 128) name ->
  split_nul false (S k) (name ++ "000"%byte :: more)
  = name :: split_nul false k more.
Proof.
  induction 1 as [|b name Hb Hall IH].
  - reflexivity.
  - cbn [app split_nul].
    assert (E : (byte_val b =? 0) = false) by (apply Z.eqb_neq; lia).
    rewrite E. cbn [andb]. cbn [app] in IH. rewrite IH. reflexivity.
Qed.

Lemma split_names (names : list string) (tail : list byte) :
  Forall plain_name names ->
  split_nul false (length names) (Disk.names_bytes names ++ tail)
  = map list_byte_of_string names ++ [tail].
Proof.
  induction 1 as [|n names Hn Hall IH].
  - cbn. apply split_nul_zero.
  - unfold Disk.names_bytes in *. cbn [map concat length].
    rewrite <- !app_assoc. cbn [app].
    rewrite (split_nul_name _ _ _ Hn), IH. reflexivity.
Qed.

Lemma decode_plain (n : string) :
  plain_name n -> decode (list_byte_of_string n) = Returns n.
Proof.
  intros H. unfold decode.
  assert (E : forallb (fun x => byte_val x <? 128) (list_byte_of_string n) = true).
  { apply forallb_forall. intros b Hb.
    unfold plain_name in H. rewrite List.Forall_forall in H.
    apply Z.ltb_lt. apply (H b Hb). }
  rewrite E, string_of_list_byte_of_string. reflexivity.
Qed.

Lemma decode_all_plain (names : list string) :
  Forall plain_name names ->
  decode_all (map list_byte_of_string names) = Returns names.
Proof.
  induction 1 as [|n names Hn Hall IH]; [reflexivity|].
  cbn [map decode_all]. rewrite (decode_plain n Hn). cbn [obind].
  rewrite IH. reflexivity.
Qed.

Lemma read_names_back (pre tail : list byte) (names : list string) :
  Forall plain_name names ->
  read_names (pre ++ Disk.names_bytes names ++ tail) (Z.of_nat (length pre))
             (Z.of_nat (length names))
  = Returns names.
Proof.
  intros H. unfold read_names, py_split.
  rewrite py_slice_Z_from.
  assert (E : (Z.of_nat (length names) <? 0) = false) by (apply Z.ltb_ge; lia).
  rewrite E, Nat2Z.id, (split_names names tail H), removelast_last.
  apply decode_all_plain, H.
Qed.

Lemma length_list_byte_of_string (s : string) :
  length (list_byte_of_string s) = String.length s.
Proof.
  unfold list_byte_of_string. rewrite length_map.
  induction s as [|c s IH]; [reflexivity|].
  cbn [list_ascii_of_string length String.length]. rewrite IH. reflexivity.
Qed.

Lemma names_span_length (names : list string) :
  names_span names = Z.of_nat (length (Disk.names_bytes names)).
Proof.
  unfold names_span, Disk.names_bytes.
  induction names as [|n names IH]; [reflexivity|].
  cbn [fold_right length map concat] in *.
  rewrite !length_app, length_list_byte_of_string. cbn [length]. lia.
Qed.

Lemma length_pad4 (b : list byte) :
  Z.of_nat (length (Disk.pad4 b)) = align (Z.of_nat (length b)).
Proof.
  unfold Disk.pad4, align. rewrite length_app, repeat_length.
  assert (Hm : Z.of_nat (length b) mod 4 = Z.of_nat (length b mod 4))
    by (rewrite Nat2Z.inj_mod; reflexivity).
  rewrite Hm.
  assert (Hlt : (length b mod 4 < 4)%nat) by (apply Nat.mod_upper_bound; lia).
  set (m := (length b mod 4)%nat) in *. clearbody m.
  destruct m as [|[|[|[|m]]]]; [| | | |lia].
  - change ((4 - 0) mod 4)%nat with 0%nat. change (Z.of_nat 0 =? 0) with true. cbv iota. lia.
  - change ((4 - 1) mod 4)%nat with 3%nat. change (Z.of_nat 1 =? 0) with false. cbv iota. lia.
  - change ((4 - 2) mod 4)%nat with 2%nat. change (Z.of_nat 2 =? 0) with false. cbv iota. lia.
  - change ((4 - 3) mod 4)%nat with 1%nat. change (Z.of_nat 3 =? 0) with false. cbv iota. lia.
Qed.

Lemma unpack_short e (z : Z) :
  int16 z -> unpack_items e [(1, Ch)] (encode_int e 2 z) = [VInt z].
Proof.
  intros Hz. cbn [unpack_items code_width].
  change (Z.to_nat 1) with 1%nat. change (Z.to_nat 2) with 2%nat.
  cbn [unpack_repeat app decode_code].
  rewrite take_ge by (rewrite length_encode_int; lia).
  rewrite (signed16_read_back e z Hz). reflexivity.
Qed.

Lemma read_sizes_back e (sizes : list Z) :
  Forall int16 sizes ->
  (let* vs := NamedStruct_iter_unpack (mkNamedStruct ["val"] (mkPyStruct e [(1, Ch)]))
                (concat (map (encode_int e 2) sizes)) in
   result_all (map val vs)) = Ok sizes.
Proof.
  intros Hall. unfold NamedStruct_iter_unpack. cbn [ns_format ns_names].
  change (Struct_size (mkPyStruct e [(1, Ch)])) with 2.
  assert (Hchunks : Forall (fun c => length c = 2%nat) (map (encode_int e 2) sizes)).
  { apply List.Forall_forall. intros c Hc. apply in_map_iff in Hc as (z & <- & _).
    apply length_encode_int. }
  rewrite (length_concat_chunks _ _ Hchunks), length_map.
  replace (Z.of_nat (length sizes * 2)) with (Z.of_nat (length sizes) * 2) by lia.
  rewrite Z.mod_mul, Z.div_mul by lia. cbn [Z.eqb orb negb].
  rewrite Nat2Z.id. change (Z.to_nat 2) with 2%nat.
  rewrite <- (length_map (encode_int e 2) sizes) at 1.
  rewrite (iter_chunks_concat _ _ Hchunks).
  clear Hchunks. induction Hall as [|z sizes Hz Hall IH]; [reflexivity|].
  cbn [map names_call_all st_endian st_items].
  rewrite (unpack_short e z Hz). cbn [names_call length Nat.eqb rbind].
  destruct (names_call_all ["val"] (mkPyStruct e [(1, Ch)]) (map (encode_int e 2) sizes))
    as [vs|] eqn:E; cbn [rbind] in IH |- *; [|discriminate IH].
  cbn [map result_all val rbind].
  destruct (result_all (map val vs)); [|discriminate IH].
  injection IH as ->. reflexivity.
Qed.

Lemma parse_fields_back e (fs : list (Z * Z)) :
  Forall (fun f : Z * Z => int16 (fst f) /\ int16 (snd f)) fs ->
  forall (data pre post : list byte),
    data = pre ++ concat (map (fun f : Z * Z =>
                                 encode_int e 2 (fst f) ++ encode_int e 2 (snd f)) fs)
               ++ post ->
    parse_fields (mkNamedStruct ["index_type"; "index_name"]
                    (mkPyStruct e [(1, Ch); (1, Ch)]))
                 data (length fs) (Z.of_nat (length pre))
    = Ok (fs, Z.of_nat (length pre) + 4 * Z.of_nat (length fs)).
Proof.
  induction 1 as [|[a b] fs [Ha Hb] Hall IH]; intros data pre post Hdata.
  - cbn [length parse_fields]. f_equal. f_equal. lia.
  - cbn [length parse_fields map concat fst snd] in *.
    unfold NamedStruct_unpack_from. cbn [ns_format ns_names].
    rewrite Hdata at 1. rewrite <- !app_assoc.
    rewrite (app_assoc (encode_int e 2 a) (encode_int e 2 b)).
    rewrite Struct_unpack_from_mid
      by (rewrite length_app, !length_encode_int; reflexivity).
    cbn [rbind st_endian st_items].
    rewrite (unpack_items_cons e 1 Ch) by lia.
    change (Z.to_nat (1 * code_width Ch)) with 2%nat.
    rewrite drop_app_length' by (rewrite length_encode_int; reflexivity).
    cbn [unpack_items code_width].
    change (Z.to_nat 1) with 1%nat. change (Z.to_nat 2) with 2%nat.
    cbn [unpack_repeat app decode_code].
    rewrite take_app_length' by (rewrite length_encode_int; reflexivity).
    rewrite take_ge by (rewrite length_encode_int; lia).
    rewrite (signed16_read_back e a Ha), (signed16_read_back e b Hb).
    cbn [names_call length Nat.eqb rbind].
    replace (Z.of_nat (length pre) + 4)
      with (Z.of_nat (length (pre ++ encode_int e 2 a ++ encode_int e 2 b)))
      by (rewrite !length_app, !length_encode_int; lia).
    rewrite (IH data (pre ++ encode_int e 2 a ++ encode_int e 2 b) post)
      by (rewrite Hdata, <- !app_assoc; reflexivity).
    cbn [rbind]. f_equal. f_equal.
    rewrite !length_app, !length_encode_int. lia.
Qed.

Lemma parse_structures_back e (sts : list BlendStructDNA) :
  Forall (fun s => int16 (dna_index s)
                   /\ Z.of_nat (length (dna_fields s)) < 2 ^ 15
                   /\ Forall (fun f : Z * Z => int16 (fst f) /\ int16 (snd f))
                             (dna_fields s)) sts ->
  forall (data pre post : list byte),
    data = pre
           ++ concat (map (fun s =>
                             encode_int e 2 (dna_index s)
                             ++ encode_int e 2 (Z.of_nat (length (dna_fields s)))
                             ++ concat (map (fun f : Z * Z =>
                                               encode_int e 2 (fst f)
                                               ++ encode_int e 2 (snd f))
                                            (dna_fields s))) sts)
           ++ post ->
    parse_structures (mkNamedStruct ["val"] (mkPyStruct e [(1, Ch)]))
      (mkNamedStruct ["index_type"; "index_name"] (mkPyStruct e [(1, Ch); (1, Ch)]))
      data (length sts) (Z.of_nat (length pre))
    = Ok sts.
Proof.
  induction 1 as [|[idx fields] sts (Hidx & Hn & Hfs) Hall IH]; intros data pre post Hdata.
  - reflexivity.
  - cbn [length parse_structures map concat dna_index dna_fields] in *.
    assert (Hcount : int16 (Z.of_nat (length fields))).
    { unfold int16. change (2 ^ 15) with 32768 in *. lia. }
    set (fbytes := concat (map (fun f : Z * Z =>
                                  encode_int e 2 (fst f) ++ encode_int e 2 (snd f))
                               fields)) in *.
    rewrite Hdata at 1. rewrite <- !app_assoc.
    rewrite (read_short_back e pre _ idx Hidx). cbn [rbind].
    replace (Z.of_nat (length pre) + 2)
      with (Z.of_nat (length (pre ++ encode_int e 2 idx)))
      by (rewrite length_app, length_encode_int; lia).
    rewrite Hdata at 1. rewrite <- !app_assoc.
    rewrite (app_assoc pre (encode_int e 2 idx)).
    rewrite (read_short_back e (pre ++ encode_int e 2 idx) _ _ Hcount). cbn [rbind].
    rewrite Nat2Z.id.
    replace (Z.of_nat (length pre) + 4)
      with (Z.of_nat (length (pre ++ encode_int e 2 idx
                                  ++ encode_int e 2 (Z.of_nat (length fields)))))
      by (rewrite !length_app, !length_encode_int; lia).
    rewrite (parse_fields_back e fields Hfs data _
               (concat (map (fun s =>
                               encode_int e 2 (dna_index s)
                               ++ encode_int e 2 (Z.of_nat (length (dna_fields s)))
                               ++ concat (map (fun f : Z * Z =>
                                                 encode_int e 2 (fst f)
                                                 ++ encode_int e 2 (snd f))
                                              (dna_fields s))) sts) ++ post))
      by (rewrite Hdata; unfold fbytes; rewrite <- !app_assoc; reflexivity).
    cbn [rbind].
    assert (Hfb : length fbytes = (4 * length fields)%nat).
    { unfold fbytes. clear. induction fields as [|f fields IH]; [reflexivity|].
      cbn [map concat length]. rewrite !length_app, !length_encode_int, IH. lia. }
    replace (Z.of_nat (length (pre ++ encode_int e 2 idx
                                   ++ encode_int e 2 (Z.of_nat (length fields))))
             + 4 * Z.of_nat (length fields))
      with (Z.of_nat (length (pre ++ encode_int e 2 idx
                                  ++ encode_int e 2 (Z.of_nat (length fields))
                                  ++ fbytes)))
      by (rewrite !length_app, !length_encode_int, Hfb; lia).
    rewrite (IH data _ post) by (rewrite Hdata, <- !app_assoc; reflexivity).
    reflexivity.
Qed.

Lemma bytes_eqb_refl (a : list byte) : bytes_eqb a a = true.
Proof. apply bytes_eqb_eq. reflexivity. Qed.

Lemma tag_found (pre post : list byte) (tag : string) :
  String.length tag = 4%nat ->
  tag_missing (pre ++ list_byte_of_string tag ++ post) (Z.of_nat (length pre)) tag = false.
Proof.
  intros Hlen. unfold tag_missing.
  replace 4 with (Z.of_nat (length (list_byte_of_string tag)))
    by (rewrite length_list_byte_of_string, Hlen; reflexivity).
  rewrite py_slice_Z_mid, bytes_eqb_refl. reflexivity.
Qed.

(** X22: An index that is laid out as the format says is read back:
    when the bytes of the index block are the names, the types, the sizes
    and the structures of an index whose values fit, each part after its
    tag and aligned on four bytes, [_parse_index] returns that index. *)
Theorem index_is_read_back (header : BlendFileHeader) (content : list byte) (pos : nat)
    (head : BlendBlockHeader) (index : BlendIndex) :
  writable_index index ->
  handle_read content pos (b_size head) = Ok (Disk.index_bytes (h_endian header) index) ->
  _parse_index header content pos head = Returns index.
Proof.
  intros (HFN & HTN & HnF & HnT & HTS & Hsizes & HnS & HST) Hread.
  unfold _parse_index.
  destruct (index_formats header) as (-> & -> & ->).
  cbn [of_result obind]. rewrite Hread. cbn [of_result obind].
  destruct index as [FN TN TS ST].
  cbn [field_names type_names type_sizes structures] in *.
  set (e := h_endian header).
  unfold Disk.index_bytes. cbn [field_names type_names type_sizes structures].
  set (S8 := list_byte_of_string "SDNANAME").
  set (I1 := encode_int e 4 (Z.of_nat (length FN))).
  set (N1 := Disk.names_bytes FN).
  set (T4 := list_byte_of_string "TYPE").
  set (I2 := encode_int e 4 (Z.of_nat (length TN))).
  set (N2 := Disk.names_bytes TN).
  set (L4 := list_byte_of_string "TLEN").
  set (SZ := concat (map (encode_int e 2) TS)).
  set (C4 := list_byte_of_string "STRC").
  set (I4 := encode_int e 4 (Z.of_nat (length ST))).
  set (R := concat (map _ ST)).
  set (P1 := Disk.pad4 (S8 ++ I1 ++ N1)).
  set (P2 := Disk.pad4 (P1 ++ T4 ++ I2 ++ N2)).
  set (P3 := Disk.pad4 (P2 ++ L4 ++ SZ)).
  set (data := P3 ++ C4 ++ I4 ++ R).
  assert (HP1 : exists Z1, P1 = S8 ++ I1 ++ N1 ++ Z1).
  { eexists. unfold P1, Disk.pad4. rewrite <- !app_assoc. reflexivity. }
  assert (HP2 : exists Z2, P2 = P1 ++ T4 ++ I2 ++ N2 ++ Z2).
  { eexists. unfold P2, Disk.pad4. rewrite <- !app_assoc. reflexivity. }
  assert (HP3 : exists Z3, P3 = P2 ++ L4 ++ SZ ++ Z3).
  { eexists. unfold P3, Disk.pad4. rewrite <- !app_assoc. reflexivity. }
  assert (HlI1 : length I1 = 4%nat) by apply length_encode_int.
  assert (HlI2 : length I2 = 4%nat) by apply length_encode_int.
  assert (HlI4 : length I4 = 4%nat) by apply length_encode_int.
  assert (HlSZ : Z.of_nat (length SZ) = 2 * Z.of_nat (length TN)).
  { unfold SZ. rewrite <- HTS. clear. induction TS as [|z TS IH]; [reflexivity|].
    cbn [map concat length]. rewrite length_app, length_encode_int. lia. }
  assert (HlP1 : Z.of_nat (length P1) = align (8 + (names_span FN + 4))).
  { unfold P1. rewrite length_pad4, !length_app, HlI1, names_span_length.
    fold N1. f_equal. change (length S8) with 8%nat. lia. }
  assert (HlP2 : Z.of_nat (length P2) = align (Z.of_nat (length P1) + (names_span TN + 8))).
  { unfold P2. rewrite length_pad4, !length_app, HlI2, names_span_length.
    fold N2. f_equal. change (length T4) with 4%nat. lia. }
  assert (HlP3 : Z.of_nat (length P3)
                 = align (Z.of_nat (length P2) + 4 + 2 * Z.of_nat (length TN))).
  { unfold P3. rewrite length_pad4, !length_app, !Nat2Z.inj_add, HlSZ.
    f_equal. change (length L4) with 4%nat. lia. }
  destruct HP1 as [Z1 HP1]. destruct HP2 as [Z2 HP2]. destruct HP3 as [Z3 HP3].
  assert (D1 : exists rest, data = [] ++ S8 ++ rest).
  { eexists. unfold data. rewrite HP3, HP2, HP1, <- !app_assoc. reflexivity. }
  assert (D2 : exists rest, data = S8 ++ I1 ++ rest).
  { eexists. unfold data. rewrite HP3, HP2, HP1, <- !app_assoc. reflexivity. }
  assert (D3 : exists rest, data = (S8 ++ I1) ++ N1 ++ rest).
  { eexists. unfold data. rewrite HP3, HP2, HP1, <- !app_assoc. reflexivity. }
  assert (D5 : exists rest, data = P1 ++ list_byte_of_string "TYPE" ++ rest).
  { eexists. unfold data. rewrite HP3, HP2, <- !app_assoc. reflexivity. }
  assert (D6 : exists rest, data = (P1 ++ T4) ++ I2 ++ rest).
  { eexists. unfold data. rewrite HP3, HP2, <- !app_assoc. reflexivity. }
  assert (D7 : exists rest, data = (P1 ++ T4 ++ I2) ++ N2 ++ rest).
  { eexists. unfold data. rewrite HP3, HP2, <- !app_assoc. reflexivity. }
  assert (D9 : exists rest, data = P2 ++ list_byte_of_string "TLEN" ++ rest).
  { eexists. unfold data. rewrite HP3, <- !app_assoc. reflexivity. }
  assert (D10 : exists rest, data = (P2 ++ L4) ++ SZ ++ rest).
  { eexists. unfold data. rewrite HP3, <- !app_assoc. reflexivity. }
  assert (D12 : exists rest, data = P3 ++ list_byte_of_string "STRC" ++ rest).
  { eexists. unfold data. reflexivity. }
  assert (D13 : exists rest, data = (P3 ++ C4) ++ I4 ++ rest).
  { eexists. unfold data. rewrite <- !app_assoc. reflexivity. }
  assert (D14 : data = (P3 ++ C4 ++ I4) ++ R ++ []).
  { unfold data. rewrite app_nil_r, <- !app_assoc. reflexivity. }
  clearbody data.
  (* the first tag and the names of the fields *)
  assert (F1 : py_slice_Z 0 8 data = S8).
  { destruct D1 as [rest ->]. apply (py_slice_Z_mid [] S8 rest). }
  rewrite F1. change (bytes_eqb S8 (list_byte_of_string "SDNANAME")) with true.
  cbn [negb].
  assert (F2 : (let* v := NamedStruct_unpack_from
                            (mkNamedStruct ["val"] (mkPyStruct e [(1, Ci)])) data 8 in
                val v) = Ok (Z.of_nat (length FN))).
  { destruct D2 as [rest ->]. apply (read_int_back e S8 rest). lia. }
  rewrite F2. cbn [of_result obind].
  assert (F3 : read_names data (8 + 4) (Z.of_nat (length FN)) = Returns FN).
  { destruct D3 as [rest ->].
    replace (8 + 4) with (Z.of_nat (length (S8 ++ I1)))
      by (rewrite length_app, HlI1; reflexivity).
    apply read_names_back, HFN. }
  rewrite F3. cbn [obind].
  rewrite <- HlP1.
  (* the second tag and the names of the types *)
  assert (F5 : tag_missing data (Z.of_nat (length P1)) "TYPE" = false).
  { destruct D5 as [rest ->]. apply tag_found. reflexivity. }
  rewrite F5.
  assert (F6 : (let* v := NamedStruct_unpack_from
                            (mkNamedStruct ["val"] (mkPyStruct e [(1, Ci)])) data
                            (Z.of_nat (length P1) + 4) in
                val v) = Ok (Z.of_nat (length TN))).
  { destruct D6 as [rest ->].
    replace (Z.of_nat (length P1) + 4) with (Z.of_nat (length (P1 ++ T4)))
      by (rewrite length_app; change (length T4) with 4%nat; lia).
    apply read_int_back. lia. }
  rewrite F6. cbn [of_result obind].
  assert (F7 : read_names data (Z.of_nat (length P1) + 8) (Z.of_nat (length TN))
               = Returns TN).
  { destruct D7 as [rest ->].
    replace (Z.of_nat (length P1) + 8) with (Z.of_nat (length (P1 ++ T4 ++ I2)))
      by (rewrite !length_app, HlI2; change (length T4) with 4%nat; lia).
    apply read_names_back, HTN. }
  rewrite F7. cbn [obind].
  rewrite <- HlP2.
  (* the third tag and the sizes *)
  assert (F9 : tag_missing data (Z.of_nat (length P2)) "TLEN" = false).
  { destruct D9 as [rest ->]. apply tag_found. reflexivity. }
  rewrite F9.
  change (Struct_size (ns_format (mkNamedStruct ["val"] (mkPyStruct e [(1, Ch)])))) with 2.
  assert (F10 : py_slice_Z (Z.of_nat (length P2) + 4)
                  (Z.of_nat (length P2) + 4 + 2 * Z.of_nat (length TN)) data = SZ).
  { destruct D10 as [rest ->]. rewrite <- HlSZ.
    replace (Z.of_nat (length P2) + 4) with (Z.of_nat (length (P2 ++ L4)))
      by (rewrite length_app; change (length L4) with 4%nat; lia).
    apply py_slice_Z_mid. }
  rewrite F10. unfold SZ at 1. rewrite (read_sizes_back e TS Hsizes).
  cbn [of_result obind].
  rewrite <- HlP3.
  (* the last tag and the structures *)
  assert (F12 : tag_missing data (Z.of_nat (length P3)) "STRC" = false).
  { destruct D12 as [rest ->]. apply tag_found. reflexivity. }
  rewrite F12.
  assert (F13 : (let* v := NamedStruct_unpack_from
                             (mkNamedStruct ["val"] (mkPyStruct e [(1, Ci)])) data
                             (Z.of_nat (length P3) + 8 - 4) in
                 val v) = Ok (Z.of_nat (length ST))).
  { destruct D13 as [rest ->].
    replace (Z.of_nat (length P3) + 8 - 4) with (Z.of_nat (length (P3 ++ C4)))
      by (rewrite length_app; change (length C4) with 4%nat; lia).
    apply read_int_back. lia. }
  rewrite F13. cbn [of_result obind]. rewrite Nat2Z.id.
  assert (F14 : parse_structures (mkNamedStruct ["val"] (mkPyStruct e [(1, Ch)]))
                  (mkNamedStruct ["index_type"; "index_name"]
                     (mkPyStruct e [(1, Ch); (1, Ch)]))
                  data (length ST) (Z.of_nat (length P3) + 8) = Ok ST).
  { replace (Z.of_nat (length P3) + 8) with (Z.of_nat (length (P3 ++ C4 ++ I4)))
      by (rewrite !length_app, HlI4; change (length C4) with 4%nat; lia).
    apply (parse_structures_back e ST HST data (P3 ++ C4 ++ I4) []). exact D14. }
  rewrite F14. reflexivity.
Qed.

Lemma index_is_read_back_witness :
  _parse_index Fixture.header Disk.content 316 Disk.dna_head = Returns Fixture.index.
Proof.
  apply (index_is_read_back Fixture.header Disk.content 316 Disk.dna_head Fixture.index).
  - unfold writable_index, plain_name, int16. cbn [Fixture.index field_names type_names
      type_sizes structures].
    repeat split; try (cbn; lia);
      repeat (constructor; try (vm_compute; repeat split; try reflexivity;
                                intros H; discriminate H)).
  - vm_compute. reflexivity.
Defined.

(** ** Arrays of pointers *)






